(** * Lotto-brain: prediction engine, brain memory and verification loop

    A shallow embedding of the parts of the repository that the
    specification's testable properties talk about:

    - [brain.js]                (weight tuning, leakage guard, neighbour step),
    - [correlation-analyzer.js] (hybrid booster, selector),
    - [server.js]               (draw store adapter, evaluate, verification),
    - [advanced-analyzer.js], [statistical-analyzer.js], [backtester.js]
                                (pair counts, lift, correlation strategy).

    Conventions.  Lottery numbers and identifiers are [Z].  JavaScript
    numbers that carry fractional values (weights, scores) are exact
    rationals [Q]: the rounding error of IEEE doubles is not modelled, so a
    statement about [Q] speaks about the arithmetic the source writes, not
    about its last binary digit.  Objects whose keys are integers (score
    maps, correlation matrices) are association lists kept in ascending key
    order, which is the order in which JavaScript enumerates such keys.
    [Array.prototype.sort] is a stable sort and is modelled by a stable
    insertion sort. *)

From Stdlib Require Import String.
From Stdlib Require Import List ZArith QArith Qround Qabs Lia Lqa Bool.
From Stdlib Require Import Permutation Sorted.
Import ListNotations.

Set Implicit Arguments.

(* ------------------------------------------------------------------ *)
(** * JavaScript helpers *)
(* ------------------------------------------------------------------ *)

Module JS.

(** [a < b] on numbers, as a boolean. *)
Definition Qltb (a b : Q) : bool := negb (Qle_bool b a).

(** [Math.max] and [Math.min] on two numbers. *)
Definition max (a b : Q) : Q := if Qle_bool a b then b else a.
Definition min (a b : Q) : Q := if Qle_bool a b then a else b.

(** Truthiness of a number: every number but [0] (and [NaN], which the
    model does not have). *)
Definition truthy (q : Q) : bool := negb (Qeq_bool q 0).

(** [parseFloat(x.toFixed(d))]: the nearest multiple of [10^-d], a tie
    going away from zero. *)
Definition round_half_away (q : Q) : Z :=
  if Qle_bool 0 q then Qfloor (q + (1 # 2))
  else (- Qfloor (- q + (1 # 2)))%Z.

Definition toFixed (d : nat) (q : Q) : Q :=
  let scale := (10 ^ Z.of_nat d)%Z in
  Qmake (round_half_away (q * inject_Z scale)) (Z.to_pos scale).

(** [l.slice(0, n)]. *)
Definition slice (A : Type) (n : nat) (l : list A) : list A := firstn n l.

(** [l.sort(cmp)]: [before y x] holds when [cmp(y, x) < 0], that is when
    [y] has to come strictly before [x].  Elements that compare equal keep
    their relative order. *)
Fixpoint insert_by (A : Type) (before : A -> A -> bool) (x : A)
         (l : list A) : list A :=
  match l with
  | [] => [x]
  | y :: l' => if before y x then y :: insert_by before x l' else x :: l
  end.

Definition sort_by (A : Type) (before : A -> A -> bool) (l : list A)
  : list A :=
  fold_right (insert_by before) [] l.

(** [l.sort((a, b) => a - b)] on integers. *)
Definition sort_asc (l : list Z) : list Z :=
  sort_by (fun y x => (y <? x)%Z) l.

(** [l.includes(n)] on integers. *)
Definition includes (l : list Z) (n : Z) : bool :=
  existsb (fun m => (m =? n)%Z) l.

(** [l.reduce((a, b) => a + b, 0)]. *)
Definition sum (l : list Q) : Q := fold_left Qplus l 0.

(** Objects with integer keys, enumerated in ascending key order. *)
Definition IntObj (V : Type) : Type := list (Z * V).

Fixpoint get (V : Type) (k : Z) (o : IntObj V) : option V :=
  match o with
  | [] => None
  | (k', v) :: o' => if (k' =? k)%Z then Some v else get k o'
  end.

(** [o[k] = v]: overwrite in place, or add the key at its place in the
    enumeration order. *)
Fixpoint set (V : Type) (k : Z) (v : V) (o : IntObj V) : IntObj V :=
  match o with
  | [] => [(k, v)]
  | (k', v') :: o' =>
      if (k' =? k)%Z then (k, v) :: o'
      else if (k <? k')%Z then (k, v) :: o
      else (k', v') :: set k v o'
  end.

Definition keys (V : Type) (o : IntObj V) : list Z := map fst o.

(** A [Set] of integers: insertion ordered, no repetition. *)
Definition set_add (n : Z) (s : list Z) : list Z :=
  if includes s n then s else s ++ [n].

End JS.

(** The numbers of the game. *)
Definition numbers_1_90 : list Z := map Z.of_nat (seq 1 90).

(* ------------------------------------------------------------------ *)
(** * Draws (rows of the [draws] table) *)
(* ------------------------------------------------------------------ *)

(** [draw_date] is a calendar day, counted in days since the epoch;
    machine numbers are nullable columns. *)
Record Draw : Type := mkDraw {
  draw_date : Z;
  draw_type_id : Z;
  winning_number_1 : option Z;
  winning_number_2 : option Z;
  winning_number_3 : option Z;
  winning_number_4 : option Z;
  winning_number_5 : option Z;
  machine_number_1 : option Z;
  machine_number_2 : option Z;
  machine_number_3 : option Z;
  machine_number_4 : option Z;
  machine_number_5 : option Z
}.

Inductive Stream : Type := winning | machine.

(** [[x1, .., x5].filter(n => n !== null && n !== undefined)]. *)
Definition non_null (l : list (option Z)) : list Z :=
  flat_map (fun o => match o with Some n => [n] | None => [] end) l.

Definition winning_columns (d : Draw) : list (option Z) :=
  [winning_number_1 d; winning_number_2 d; winning_number_3 d;
   winning_number_4 d; winning_number_5 d].

Definition machine_columns (d : Draw) : list (option Z) :=
  [machine_number_1 d; machine_number_2 d; machine_number_3 d;
   machine_number_4 d; machine_number_5 d].

(** A draw built from its two groups of five numbers. *)
Definition draw_of (date type : Z) (w m : list (option Z)) : Draw :=
  mkDraw date type
         (nth 0 w None) (nth 1 w None) (nth 2 w None) (nth 3 w None)
         (nth 4 w None)
         (nth 0 m None) (nth 1 m None) (nth 2 m None) (nth 3 m None)
         (nth 4 m None).

(* ------------------------------------------------------------------ *)
(** * advanced-analyzer.js: pair and triple counts *)
(* ------------------------------------------------------------------ *)

(** Objects keyed by the strings ["a-b"] or ["a-b-c"]: such keys are
    enumerated in insertion order.  The key is kept as the list of its
    numbers, which the string determines for non-negative integers. *)
Module Counter.

Definition t : Type := list (list Z * Z).

Definition key_eqb (k1 k2 : list Z) : bool :=
  if list_eq_dec Z.eq_dec k1 k2 then true else false.

(** [c[key] = (c[key] || 0) + 1]. *)
Fixpoint bump (key : list Z) (c : t) : t :=
  match c with
  | [] => [(key, 1%Z)]
  | (k, n) :: c' =>
      if key_eqb k key then (k, (n + 1)%Z) :: c'
      else (k, n) :: bump key c'
  end.

Definition bump_all (ks : list (list Z)) (c : t) : t :=
  fold_left (fun acc k => bump k acc) ks c.

End Counter.

(** The pairs [(l[i], l[j])], [i < j], in the order of the two nested
    loops; likewise the triples. *)
Fixpoint pairs_of (l : list Z) : list (list Z) :=
  match l with
  | [] => []
  | x :: t => map (fun y => [x; y]) t ++ pairs_of t
  end.

Fixpoint triples_of (l : list Z) : list (list Z) :=
  match l with
  | [] => []
  | x :: t => map (fun p => x :: p) (pairs_of t) ++ triples_of t
  end.

Module AdvancedAnalyzer.

Definition getNumbers (d : Draw) (type : Stream) : list Z :=
  match type with
  | machine => non_null (machine_columns d)
  | winning => non_null (winning_columns d)
  end.

Record Combo : Type := mkCombo {
  numbers : list Z;
  count : Z;
  percentage : Q
}.

(** [getNumbers(draw, type).filter(n => n).sort((a, b) => a - b)]. *)
Definition sorted_numbers (d : Draw) (type : Stream) : list Z :=
  JS.sort_asc (filter (fun n => negb (n =? 0)%Z) (getNumbers d type)).

Definition pairCounts (draws : list Draw) (type : Stream) : Counter.t :=
  fold_left
    (fun acc d => Counter.bump_all (pairs_of (sorted_numbers d type)) acc)
    draws [].

Definition tripleCounts (draws : list Draw) (type : Stream) : Counter.t :=
  fold_left
    (fun acc d => Counter.bump_all (triples_of (sorted_numbers d type)) acc)
    draws [].

(** [Object.entries(c).sort((a, b) => b[1] - a[1]).slice(0, n).map(..)]. *)
Definition top (n : nat) (total : nat) (c : Counter.t) : list Combo :=
  map (fun e : list Z * Z =>
         mkCombo (fst e) (snd e)
           (JS.toFixed 2
              (inject_Z (snd e) / inject_Z (Z.of_nat total) * 100)))
      (JS.slice n (JS.sort_by (fun y x : list Z * Z => (snd x <? snd y)%Z) c)).

Record Correlations : Type := mkCorrelations {
  topPairs : list Combo;
  topTriples : list Combo
}.

Definition analyzeCorrelations (draws : list Draw) (type : Stream)
  : Correlations :=
  mkCorrelations
    (top 20 (length draws) (pairCounts draws type))
    (top 10 (length draws) (tripleCounts draws type)).

(** ** Position frequencies *)

(** [positions[pos]] after the loop over the draws: how often each number
    was the [pos]-th smallest of a draw of five non-zero numbers.  The
    five tables are filled in one loop, each from its own column. *)
Definition positions (draws : list Draw) (type : Stream) (pos : nat)
  : JS.IntObj Z :=
  fold_left
    (fun acc d =>
       let numbers := sorted_numbers d type in
       if (length numbers =? 5)%nat
       then
         let num := nth (pos - 1) numbers 0%Z in
         JS.set num (match JS.get num acc with
                     | Some c => c + 1
                     | None => 1
                     end)%Z acc
       else acc)
    draws [].

Record PositionEntry : Type := mkPositionEntry {
  pos_number : Z;
  pos_count : Z;
  pos_percentage : Q
}.

(** [positionStats[pos].top10]; the range figures of the record are left
    out. *)
Definition top10 (draws : list Draw) (type : Stream) (pos : nat)
  : list PositionEntry :=
  let totalDraws := match length draws with O => 1%nat | n => n end in
  map (fun e : Z * Z =>
         mkPositionEntry (fst e) (snd e)
           (JS.toFixed 2
              (inject_Z (snd e) / inject_Z (Z.of_nat totalDraws) * 100)))
      (JS.slice 10
         (JS.sort_by (fun y x : Z * Z => (snd x <? snd y)%Z)
                     (positions draws type pos))).

End AdvancedAnalyzer.

(* ------------------------------------------------------------------ *)
(** * statistical-analyzer.js: co-occurrence lift *)
(* ------------------------------------------------------------------ *)

Module StatisticalAnalyzer.

Record Lift : Type := mkLift {
  lift : Q;
  count : Z;
  a : Z;
  b : Z
}.

(** [freq[n] = (freq[n] || 0) + 1] for every number of every draw. *)
Definition bump_freq (n : Z) (freq : JS.IntObj Z) : JS.IntObj Z :=
  JS.set n (match JS.get n freq with Some c => c + 1 | None => 1 end)%Z freq.

Definition freq_of (draws : list (list Z)) : JS.IntObj Z :=
  fold_left
    (fun acc numbers => fold_left (fun f n => bump_freq n f)
                                  (JS.sort_asc numbers) acc)
    draws [].

Definition pairFreq_of (draws : list (list Z)) : Counter.t :=
  fold_left
    (fun acc numbers => Counter.bump_all (pairs_of (JS.sort_asc numbers)) acc)
    draws [].

Definition freq_at (freq : JS.IntObj Z) (n : Z) : Z :=
  match JS.get n freq with Some c => c | None => 0%Z end.

(** [(count * totalDraws) / (freq[a] * freq[b])]. *)
Definition raw_lift (totalDraws : nat) (freq : JS.IntObj Z)
           (a b count : Z) : Q :=
  inject_Z (count * Z.of_nat totalDraws)
  / inject_Z (freq_at freq a * freq_at freq b).

Definition calculateLift (draws : list (list Z)) : list (list Z * Lift) :=
  let totalDraws := length draws in
  if (totalDraws <? 10)%nat then []
  else
    let freq := freq_of draws in
    flat_map
      (fun e : list Z * Z =>
         let a := nth 0 (fst e) 0%Z in
         let b := nth 1 (fst e) 0%Z in
         let count := snd e in
         let lift := raw_lift totalDraws freq a b count in
         if (3 <=? count)%Z && JS.Qltb 1.2 lift
         then [(fst e, mkLift (JS.toFixed 3 lift) count a b)]
         else [])
      (pairFreq_of draws).

End StatisticalAnalyzer.

(* ------------------------------------------------------------------ *)
(** * backtester.js: number extraction and the correlation strategy *)
(* ------------------------------------------------------------------ *)

Module Backtester.

(** [extractNumbers(draw, type)]. *)
Definition extractNumbers (d : Draw) (type : Stream) : list Z :=
  match type with
  | machine => non_null (machine_columns d)
  | winning => non_null (winning_columns d)
  end.

(** The inner loop of [strategyCorrelationBased]: add the numbers of one
    pair, stop as soon as [count] numbers are collected. *)
Fixpoint add_pair_numbers (count : nat) (nums : list Z)
         (selected : list Z) : list Z :=
  match nums with
  | [] => selected
  | num :: rest =>
      let selected' := JS.set_add num selected in
      if (count <=? length selected')%nat then selected'
      else add_pair_numbers count rest selected'
  end.

Fixpoint walk_pairs (count : nat) (pairs : list AdvancedAnalyzer.Combo)
         (selected : list Z) : list Z :=
  match pairs with
  | [] => selected
  | p :: rest =>
      let selected' :=
        add_pair_numbers count (AdvancedAnalyzer.numbers p) selected in
      if (count <=? length selected')%nat then selected'
      else walk_pairs count rest selected'
  end.

Definition strategyCorrelationBased (draws : list Draw) (count : nat)
           (type : Stream) : list Z :=
  let topPairs :=
    AdvancedAnalyzer.topPairs
      (AdvancedAnalyzer.analyzeCorrelations draws type) in
  JS.sort_asc (JS.slice count (walk_pairs count topPairs [])).

(** ** The frequency table and the strategies that read it *)

(** [if (n) freq[n]++] on the table that starts with a 0 for each of the
    numbers 1..90.  For a number outside 1..90 JavaScript stores [NaN]
    under a new key; the model leaves the table as it is, so it follows
    the source on the entries of 1..90 always, and on the whole table for
    draws of numbers of 1..90. *)
Definition count_number (freq : JS.IntObj Z) (n : Z) : JS.IntObj Z :=
  if (n =? 0)%Z then freq
  else match JS.get n freq with
       | Some c => JS.set n (c + 1)%Z freq
       | None => freq
       end.

Definition frequencies (draws : list Draw) (type : Stream) : JS.IntObj Z :=
  fold_left
    (fun freq d => fold_left count_number (extractNumbers d type) freq)
    draws (map (fun i => (i, 0%Z)) numbers_1_90).

(** [Object.entries(freq).sort((a, b) => b[1] - a[1])]. *)
Definition by_frequency (freq : JS.IntObj Z) : list (Z * Z) :=
  JS.sort_by (fun y x : Z * Z => (snd x <? snd y)%Z) freq.

Definition strategyHotNumbers (draws : list Draw) (count : nat)
           (type : Stream) : list Z :=
  JS.sort_asc
    (map fst (JS.slice count (by_frequency (frequencies draws type)))).

(** [freq[n]] for a number of the table. *)
Definition freq_at (freq : JS.IntObj Z) (n : Z) : Z :=
  match JS.get n freq with Some c => c | None => 0%Z end.

(** The numbers [start], .., [stop]. *)
Definition range (start stop : Z) : list Z :=
  map (fun k => (start + Z.of_nat k)%Z) (seq 0 (Z.to_nat (stop - start + 1))).

(** [decades[i]] of [strategyBalanced], sorted by frequency. *)
Definition decade_block (freq : JS.IntObj Z) (i : Z) : list (Z * Z) :=
  let start := if (i =? 0)%Z then 1%Z else (i * 10)%Z in
  let stop := if (i =? 0)%Z then 9%Z else Z.min (i * 10 + 9) 90 in
  JS.sort_by (fun y x : Z * Z => (snd x <? snd y)%Z)
    (map (fun n => (n, freq_at freq n)) (range start stop)).

Definition decadeOrder : list Z := [2; 3; 4; 5; 1; 6; 7; 0; 8]%Z.

(** The loop [for (const decade of decadeOrder)]. *)
Fixpoint pick_decades (freq : JS.IntObj Z) (count : nat) (order : list Z)
         (selected : list Z) : list Z :=
  match order with
  | [] => selected
  | decade :: rest =>
      if (count <=? length selected)%nat then selected
      else
        match decade_block freq decade with
        | [] => pick_decades freq count rest selected
        | best :: _ =>
            if JS.includes selected (fst best)
            then pick_decades freq count rest selected
            else pick_decades freq count rest (selected ++ [fst best])
        end
  end.

Definition strategyBalanced (draws : list Draw) (count : nat)
           (type : Stream) : list Z :=
  JS.sort_asc
    (pick_decades (frequencies draws type) count decadeOrder []).

(** ** The position strategy *)

(** [for (const candidate of positions[pos].top10)]: the first candidate
    that is not selected yet is selected. *)
Fixpoint first_new (candidates : list Z) (selected : list Z) : list Z :=
  match candidates with
  | [] => selected
  | candidate :: rest =>
      if JS.includes selected candidate then first_new rest selected
      else selected ++ [candidate]
  end.

(** [for (const num of sorted)]: fill up to five numbers. *)
Fixpoint fill_up (sorted : list Z) (selected : list Z) : list Z :=
  match sorted with
  | [] => selected
  | num :: rest =>
      if negb (JS.includes selected num) && (length selected <? 5)%nat
      then fill_up rest (selected ++ [num])
      else fill_up rest selected
  end.

Definition strategyPositionBased (draws : list Draw) (type : Stream)
  : list Z :=
  let selected :=
    fold_left
      (fun selected pos =>
         first_new (map AdvancedAnalyzer.pos_number
                        (AdvancedAnalyzer.top10 draws type pos))
                   selected)
      [1; 2; 3; 4; 5]%nat [] in
  JS.sort_asc
    (if (length selected <? 5)%nat
     then fill_up (map fst (by_frequency (frequencies draws type))) selected
     else selected).

(** ** The backtesting engine *)

Record MatchScore : Type := mkMatchScore {
  matches : nat;
  score_percentage : Q;
  isWin : bool;
  isJackpot : bool
}.

(** [calculateMatchScore(prediction, actual)]. *)
Definition calculateMatchScore (prediction actual : list Z) : MatchScore :=
  let matches := length (filter (JS.includes actual) prediction) in
  mkMatchScore matches
               (inject_Z (Z.of_nat matches) / 5 * 100)
               (3 <=? matches)%nat
               (matches =? 5)%nat.

(** [{ prediction, actual, matches, date }] *)
Record Tested : Type := mkTested {
  tested_prediction : list Z;
  tested_actual : list Z;
  tested_matches : nat;
  tested_date : Z
}.

(** The results of a backtest; the averages are set when there was a
    test.  Of [matchDistribution] the model keeps the entries 0..5: with
    more than five matches JavaScript stores [NaN] under a new key. *)
Record Results : Type := mkResults {
  totalTests : nat;
  totalMatches : nat;
  wins : nat;
  jackpots : nat;
  avgMatchPercentage : Q;
  avgMatchesPerDraw : option Q;
  winRate : option Q;
  matchDistribution : JS.IntObj Z;
  bestPrediction : option Tested;
  worstPrediction : option Tested
}.

Definition initialResults : Results :=
  mkResults 0 0 0 0 0 None None
            (map (fun k => (Z.of_nat k, 0%Z)) (seq 0 6)) None None.

(** The body of [for (let i = trainingWindow; i < draws.length; i++)]. *)
Definition test_draw (strategyFn : list Draw -> nat -> list Z)
           (draws : list Draw) (results : Results) (i : nat) : Results :=
  let trainingData := JS.slice i draws in
  let prediction := strategyFn trainingData 5%nat in
  match nth_error draws i with
  | None => results
  | Some actualDraw =>
      let actual :=
        filter (fun n => negb (n =? 0)%Z)
               (non_null (winning_columns actualDraw)) in
      let score := calculateMatchScore prediction actual in
      let tested :=
        mkTested prediction actual (matches score) (draw_date actualDraw) in
      mkResults
        (totalTests results + 1)
        (totalMatches results + matches score)
        (if isWin score then wins results + 1 else wins results)
        (if isJackpot score then jackpots results + 1 else jackpots results)
        (avgMatchPercentage results)
        (avgMatchesPerDraw results)
        (winRate results)
        (match JS.get (Z.of_nat (matches score))
                      (matchDistribution results) with
         | Some c => JS.set (Z.of_nat (matches score)) (c + 1)%Z
                            (matchDistribution results)
         | None => matchDistribution results
         end)
        (match bestPrediction results with
         | Some best =>
             if (tested_matches best <? matches score)%nat
             then Some tested else Some best
         | None => Some tested
         end)
        (match worstPrediction results with
         | Some worst =>
             if (matches score <? tested_matches worst)%nat
             then Some tested else Some worst
         | None => Some tested
         end)
  end.

Definition backtestStrategy (draws : list Draw)
           (strategyFn : list Draw -> nat -> list Z) (trainingWindow : nat)
  : Results :=
  if (length draws <=? trainingWindow)%nat then initialResults
  else
    let results :=
      fold_left (test_draw strategyFn draws)
                (seq trainingWindow (length draws - trainingWindow))
                initialResults in
    if (0 <? totalTests results)%nat
    then
      mkResults
        (totalTests results) (totalMatches results) (wins results)
        (jackpots results)
        (JS.toFixed 2
           (inject_Z (Z.of_nat (totalMatches results))
            / inject_Z (Z.of_nat (totalTests results * 5)) * 100))
        (Some (JS.toFixed 2
                 (inject_Z (Z.of_nat (totalMatches results))
                  / inject_Z (Z.of_nat (totalTests results)))))
        (Some (JS.toFixed 2
                 (inject_Z (Z.of_nat (wins results))
                  / inject_Z (Z.of_nat (totalTests results)) * 100)))
        (matchDistribution results) (bestPrediction results)
        (worstPrediction results)
    else results.

End Backtester.

(* ------------------------------------------------------------------ *)
(** * brain.js: weights, ensemble scorer, learning *)
(* ------------------------------------------------------------------ *)

Module Brain.

(** An object with strategy names as keys, in insertion order. *)
Definition Weights : Type := list (string * Q).

Fixpoint lookup (key : string) (w : Weights) : option Q :=
  match w with
  | [] => None
  | (k, v) :: w' => if String.eqb k key then Some v else lookup key w'
  end.

Definition defaultWeights : Weights :=
  [("hot", 0.15); ("due", 0.15); ("correlation", 0.15);
   ("position", 0.10); ("balanced", 0.10); ("statistical", 0.20);
   ("finales", 0.10); ("lstm", 0.15)]%string.

(** The two normalisation loops of [loadBrain] and [learn]:
    [sum = Object.values(w).reduce(..)], then
    [w[key] = parseFloat((w[key] / sum).toFixed(2))]. *)
Definition normalize (w : Weights) : Weights :=
  let sum := JS.sum (map snd w) in
  map (fun kv => (fst kv, JS.toFixed 2 (snd kv / sum))) w.

(** [loadBrain], migration of the weights read from the store: inject
    every default key that is missing, and normalise if one was. *)
Definition inject_key (acc : Weights * bool) (kv : string * Q)
  : Weights * bool :=
  match lookup (fst kv) (fst acc) with
  | None => (fst acc ++ [kv], true)
  | Some _ => acc
  end.

Definition injectDefaults (w : Weights) : Weights * bool :=
  fold_left inject_key defaultWeights (w, false).

Definition migrateWeights (w : Weights) : Weights :=
  let (w', weightsChanged) := injectDefaults w in
  if weightsChanged then normalize w' else w'.

(** ** The ensemble scorer *)

Record CycleStats : Type := mkCycleStats {
  cycleCount : Z;
  dueScore : Q
}.

(** The strategy pool exported by backtester.js. *)
Record StrategyPool : Type := mkPool {
  hot : list Draw -> nat -> Stream -> list Z;
  due : list Draw -> nat -> Stream -> list Z;
  correlation : list Draw -> nat -> Stream -> list Z;
  position : list Draw -> Stream -> list Z;
  balanced : list Draw -> nat -> Stream -> list Z;
  statistical : list Draw -> nat -> Stream -> list Z;
  finales : list Draw -> nat -> Stream -> list Z
}.

(** [numberScores[num] += x].  On a key the object does not have,
    JavaScript stores [NaN] under a new key; the model stores [x] there,
    so that the new entry stays visible. *)
Definition add_score (num : Z) (x : Q) (scores : JS.IntObj Q)
  : JS.IntObj Q :=
  match JS.get num scores with
  | Some s => JS.set num (s + x) scores
  | None => JS.set num x scores
  end.

(** [strategyVotes[n] = (strategyVotes[n] || 0) + 1]. *)
Definition addVote (n : Z) (votes : JS.IntObj Z) : JS.IntObj Z :=
  JS.set n (match JS.get n votes with Some v => v + 1 | None => 1 end)%Z
         votes.

Definition score_at (scores : JS.IntObj Q) (n : Z) : Q :=
  match JS.get n scores with Some s => s | None => 0 end.

(** [w.key], and [w.key || dflt]. *)
Definition weight (w : Weights) (key : string) : Q :=
  match lookup key w with Some v => v | None => 0 end.

Definition weight_or (w : Weights) (key : string) (dflt : Q) : Q :=
  match lookup key w with
  | Some v => if JS.truthy v then v else dflt
  | None => dflt
  end.

(** One [forEach((num, idx) => ..)] of the scorer: [amount idx] is added
    to the score of [num], and the first five ranks vote. *)
Fixpoint contribute (amount : nat -> Q) (idx : nat) (nums : list Z)
         (st : JS.IntObj Q * JS.IntObj Z) : JS.IntObj Q * JS.IntObj Z :=
  match nums with
  | [] => st
  | num :: rest =>
      contribute amount (S idx) rest
        (add_score num (amount idx) (fst st),
         if (idx <? 5)%nat then addVote num (snd st) else snd st)
  end.

(** The due numbers carry their own statistics. *)
Fixpoint contribute_due (w : Weights) (idx : nat)
         (nums : list (Z * CycleStats))
         (st : JS.IntObj Q * JS.IntObj Z) : JS.IntObj Q * JS.IntObj Z :=
  match nums with
  | [] => st
  | (num, stats) :: rest =>
      contribute_due w (S idx) rest
        (add_score num
           (weight w "due" * inject_Z (15 - Z.of_nat idx) / 15
            * (JS.min (dueScore stats) 150 / 150))
           (fst st),
         if (idx <? 5)%nat then addVote num (snd st) else snd st)
  end.

(** [boost * (15 - idx) / 15]. *)
Definition ranked (boost : Q) (idx : nat) : Q :=
  boost * inject_Z (15 - Z.of_nat idx) / 15.

(** *** Step 9, tactical neighbours *)

Definition NEIGHBOR_WEIGHT : Q := 0.15.

(** [Object.entries(numberScores).filter(([_, s]) => s > 0)
      .sort((a, b) => b[1] - a[1]).slice(0, 15).map(([num]) => parseInt(num))]. *)
Definition topCandidates (numberScores : JS.IntObj Q) : list Z :=
  map fst
      (JS.slice 15
         (JS.sort_by (fun y x : Z * Q => JS.Qltb (snd x) (snd y))
            (filter (fun e : Z * Q => JS.Qltb 0 (snd e)) numberScores))).

Definition neighbors (num : Z) : list Z :=
  (if (1 <? num)%Z then [(num - 1)%Z] else [])
    ++ (if (num <? 90)%Z then [(num + 1)%Z] else []).

(** The body of [topCandidates.forEach(num => ..)]: the bonus is taken
    from the score [num] has when its turn comes. *)
Definition spread (numberScores : JS.IntObj Q) (num : Z) : JS.IntObj Q :=
  let currentScore := score_at numberScores num in
  let bonus := currentScore * NEIGHBOR_WEIGHT in
  fold_left (fun scores neighbor => add_score neighbor bonus scores)
            (neighbors num) numberScores.

Definition tacticalNeighbors (numberScores : JS.IntObj Q) : JS.IntObj Q :=
  fold_left spread (topCandidates numberScores) numberScores.

(** *** Synergy boost *)

Definition synergy (votes : JS.IntObj Z) (scores : JS.IntObj Q) (i : Z)
  : JS.IntObj Q :=
  let v := match JS.get i votes with Some v => v | None => 0%Z end in
  let s1 :=
    if (5 <=? v)%Z then JS.set i (score_at scores i * 1.20) scores
    else if (3 <=? v)%Z then JS.set i (score_at scores i * 1.10) scores
    else scores in
  if (v =? 0)%Z && JS.Qltb 2.0 (score_at s1 i)
  then JS.set i (score_at s1 i * 0.85) s1
  else s1.

Section Scorer.

(** The analyses the scorer imports. *)
Variable analyzeCycles : list Draw -> Stream -> JS.IntObj CycleStats.
Variable strategies : StrategyPool.

(** Steps 1 to 8 of [calculateNumberScores]: the scores and the votes the
    strategies leave. *)
Definition strategyScores (draws : list Draw) (w : Weights)
           (type : Stream) (lstm : list Z) : JS.IntObj Q * JS.IntObj Z :=
  let cycles := analyzeCycles draws type in
  let st0 := (map (fun i => (i, 0)) numbers_1_90,
              map (fun i => (i, 0%Z)) numbers_1_90) in
  let dueNumbers :=
    JS.slice 15
      (JS.sort_by
         (fun y x : Z * CycleStats =>
            JS.Qltb (dueScore (snd x)) (dueScore (snd y)))
         (filter (fun e : Z * CycleStats => (5 <=? cycleCount (snd e))%Z)
                 cycles)) in
  let st1 := contribute_due w 0 dueNumbers st0 in
  let st2 := contribute (ranked (weight w "hot")) 0
                        (hot strategies draws 15%nat type) st1 in
  let st3 := contribute (fun _ => weight w "position" * 2.0) 0
                        (position strategies draws type) st2 in
  let st4 := contribute
               (ranked (weight_or w "correlation" 0.1)) 0
               (correlation strategies draws 15%nat type) st3 in
  let st5 := contribute
               (fun idx =>
                  weight w "balanced"
                  * (if (5 <=? idx)%nat
                     then 1.0 + 2.0 * inject_Z (15 - Z.of_nat idx) / 10
                     else 3.0)) 0
               (balanced strategies draws 15%nat type) st4 in
  let st6 := contribute
               (ranked (weight_or w "statistical" 0.1)) 0
               (statistical strategies draws 15%nat type) st5 in
  let st7 := contribute
               (ranked (weight_or w "finales" 0.1)) 0
               (finales strategies draws 15%nat type) st6 in
  contribute (ranked (weight_or w "lstm" 0.15)) 0 lstm st7.

Definition calculateNumberScores (draws : list Draw) (w : Weights)
           (type : Stream) (lstm : list Z) : JS.IntObj Q :=
  let st := strategyScores draws w type lstm in
  fold_left (synergy (snd st)) numbers_1_90 (tacticalNeighbors (fst st)).

End Scorer.

(** ** Learning *)

Record TypeStats : Type := mkTypeStats {
  type_totalDraws : Z;
  type_totalHits : Z;
  type_accuracy : Q
}.

Record Stats : Type := mkStats {
  totalDraws : Z;
  totalHits : Z;
  globalAccuracy : Q;
  byType : JS.IntObj TypeStats
}.

Record HistoryEntry : Type := mkHistoryEntry {
  entry_date : Z;
  entry_draw : list Z;
  entry_scores : list (string * Q);
  entry_globalMatch : Z;
  entry_newWeights : Weights
}.

Record State : Type := mkState {
  version : Z;
  lastTuned : option Z;
  weights : Weights;
  stats : Stats;
  history : list HistoryEntry;
  lastAnalyzedDraw : list Z
}.

Definition defaultBrain : State :=
  mkState 1 None defaultWeights (mkStats 0 0 0 []) [] [].

(** The leakage guard: [drawn.every(n => actualDraw.includes(n))]. *)
Definition isSame (actualDraw : list Z) (type : Stream) (d : Draw) : bool :=
  forallb (fun n => JS.includes actualDraw n)
          (Backtester.extractNumbers d type).

Definition trainingData (actualDraw : list Z) (allDraws : list Draw)
           (type : Stream) : list Draw :=
  filter (fun d => negb (isSame actualDraw type d)) allDraws.

(** [actualDraw.some(actual => Math.abs(actual - n) === 1)]. *)
Definition nearMiss (actualDraw : list Z) (n : Z) : bool :=
  existsb (fun actual => (Z.abs (actual - n) =? 1)%Z) actualDraw.

(** The score of one strategy: 1 for a hit, 0.25 for a neighbour. *)
Definition stratScore (actualDraw preds : list Z) : Q :=
  fold_left
    (fun score n =>
       if JS.includes actualDraw n then score + 1.0
       else if nearMiss actualDraw n then score + 0.25
       else score)
    preds 0.

Definition LEARNING_RATE : Q := 0.05.

(** [stratScores[strategy] || 0]. *)
Definition score_of (stratScores : list (string * Q)) (strategy : string)
  : Q :=
  match lookup strategy stratScores with Some s => s | None => 0 end.

(** The body of [for (const strategy in weights)]. *)
Definition tune (stratScores : list (string * Q)) (kv : string * Q)
  : string * Q :=
  let strategy := fst kv in
  if String.eqb strategy "lstm" then kv
  else
    let score := score_of stratScores strategy in
    let w :=
      if Qle_bool 3 score then snd kv + LEARNING_RATE * 2
      else if Qle_bool 1 score then snd kv + LEARNING_RATE
      else snd kv - LEARNING_RATE * 0.5 in
    (strategy, JS.max 0.05 (JS.min 0.60 w)).

(** Step 3 of [learn]: adjust, clamp, normalise. *)
Definition adjustWeights (stratScores : list (string * Q)) (w : Weights)
  : Weights :=
  normalize (map (tune stratScores) w).

Definition accuracy (hits draws : Z) : Q :=
  inject_Z hits / inject_Z (draws * 5) * 100.

Definition updateByType (drawTypeId : option Z) (globalMatches : Z)
           (bt : JS.IntObj TypeStats) : JS.IntObj TypeStats :=
  match drawTypeId with
  | None => bt
  | Some id =>
      if (id =? 0)%Z then bt
      else
        let old := match JS.get id bt with
                   | Some ts => ts
                   | None => mkTypeStats 0 0 0
                   end in
        let draws := (type_totalDraws old + 1)%Z in
        let hits := (type_totalHits old + globalMatches)%Z in
        JS.set id (mkTypeStats draws hits (accuracy hits draws)) bt
  end.

Section Learn.

Variable analyzeCycles : list Draw -> Stream -> JS.IntObj CycleStats.
Variable strategies : StrategyPool.

(** [learn(actualDraw, allDraws, drawTypeId, type)] on the brain of the
    stream [type]; [now] is the time of the call.  The result is the
    brain that is saved. *)
Definition learn (now : Z) (brain : State) (actualDraw : list Z)
           (allDraws : list Draw) (drawTypeId : option Z) (type : Stream)
  : State :=
  let w := weights brain in
  let training := trainingData actualDraw allDraws type in
  let scores :=
    calculateNumberScores analyzeCycles strategies training w type [] in
  let top5 :=
    map fst
        (JS.slice 5
           (JS.sort_by (fun y x : Z * Q => JS.Qltb (snd x) (snd y))
                       scores)) in
  let globalMatches :=
    Z.of_nat (length (filter (JS.includes actualDraw) top5)) in
  let draws' := (totalDraws (stats brain) + 1)%Z in
  let hits' := (totalHits (stats brain) + globalMatches)%Z in
  let stats' :=
    mkStats draws' hits' (accuracy hits' draws')
            (updateByType drawTypeId globalMatches
                          (byType (stats brain))) in
  let predictions :=
    [("hot", hot strategies training 10%nat type);
     ("due", due strategies training 10%nat type);
     ("correlation", correlation strategies training 10%nat type);
     ("position", position strategies training type);
     ("balanced", balanced strategies training 10%nat type);
     ("statistical", statistical strategies training 10%nat type);
     ("finales", finales strategies training 10%nat type)]%string in
  let stratScores :=
    map (fun p : string * list Z =>
           (fst p, stratScore actualDraw (snd p))) predictions in
  let w' := adjustWeights stratScores w in
  let history' :=
    history brain
      ++ [mkHistoryEntry now actualDraw stratScores globalMatches w'] in
  mkState (version brain) (Some now) w' stats'
          (if (50 <? length history')%nat then tl history' else history')
          actualDraw.

End Learn.

End Brain.

(* ------------------------------------------------------------------ *)
(** * correlation-analyzer.js: hybrid booster and selector *)
(* ------------------------------------------------------------------ *)

Module CorrelationAnalyzer.

(** [{ machineNum: { winningNum: count } }] *)
Definition Matrix : Type := JS.IntObj (JS.IntObj Z).

Definition row (correlations : Matrix) (machineNum : Z) : JS.IntObj Z :=
  match JS.get machineNum correlations with Some r => r | None => [] end.

(** [correlations[m][w] = (correlations[m][w] || 0) + 1], the row being
    created when [m] is new. *)
Definition bump_cell (machineNum winningNum : Z) (correlations : Matrix)
  : Matrix :=
  let r := row correlations machineNum in
  let n := match JS.get winningNum r with Some c => c | None => 0%Z end in
  JS.set machineNum (JS.set winningNum (n + 1)%Z r) correlations.

(** The body of [for (const machineNum of machineNums)]. *)
Definition add_machine (winningNums : list Z) (correlations : Matrix)
           (machineNum : Z) : Matrix :=
  fold_left (fun c winningNum => bump_cell machineNum winningNum c)
            winningNums
            (match JS.get machineNum correlations with
             | Some _ => correlations
             | None => JS.set machineNum [] correlations
             end).

(** The body of [for (const draw of draws)]: a draw without five machine
    numbers and five winning numbers is skipped. *)
Definition add_draw (correlations : Matrix) (draw : Draw) : Matrix :=
  let machineNums := non_null (machine_columns draw) in
  let winningNums := non_null (winning_columns draw) in
  if negb (length machineNums =? 5)%nat
     || negb (length winningNums =? 5)%nat
  then correlations
  else fold_left (add_machine winningNums) machineNums correlations.

Definition analyzeWinningMachineCorrelation (draws : list Draw) : Matrix :=
  fold_left add_draw draws [].

Record Correlated : Type := mkCorrelated {
  number : Z;
  count : Z
}.

Definition getTopCorrelatedWinning (correlations : Matrix)
           (machineNum : Z) (topN : nat) : list Correlated :=
  JS.slice topN
    (JS.sort_by (fun y x => (count x <? count y)%Z)
       (map (fun e : Z * Z => mkCorrelated (fst e) (snd e))
            (row correlations machineNum))).

(** [Math.max(...counts)] on a non-empty list of counts. *)
Definition max_count (counts : list Z) : Z :=
  match counts with
  | [] => 0%Z
  | c :: rest => fold_left Z.max rest c
  end.

Definition calculateCorrelationStrength (correlations : Matrix)
           (machinePrediction : list Z) : Q :=
  match machinePrediction with
  | [] => 0
  | _ =>
      let acc :=
        fold_left
          (fun (acc : Z * Z) machineNum =>
             let counts := map snd (row correlations machineNum) in
             if (0 <? length counts)%nat
             then (fst acc + max_count counts,
                   snd acc + max_count counts * 2)%Z
             else acc)
          machinePrediction (0%Z, 0%Z) in
      if (0 <? snd acc)%Z then inject_Z (fst acc) / inject_Z (snd acc)
      else 0
  end.

Record Hybrid : Type := mkHybrid {
  boostedScores : JS.IntObj Q;
  correlationStrength : Q;
  boostedNumbers : list Z;
  correlationMatrix : Matrix
}.

(** The body of [for (const { number: winNum } of topCorrelated)]. *)
Definition boost (boostFactor : Q) (st : JS.IntObj Q * list Z)
           (c : Correlated) : JS.IntObj Q * list Z :=
  let winNum := number c in
  match JS.get winNum (fst st) with
  | Some s =>
      if JS.truthy s
      then (JS.set winNum (s * boostFactor) (fst st),
            JS.set_add winNum (snd st))
      else st
  | None => st
  end.

Definition boost_all (correlations : Matrix) (boostFactor : Q)
           (machinePrediction : list Z) (mainScores : JS.IntObj Q)
  : JS.IntObj Q * list Z :=
  fold_left
    (fun st machineNum =>
       fold_left (boost boostFactor)
                 (getTopCorrelatedWinning correlations machineNum 10) st)
    machinePrediction (mainScores, []).

Definition generateHybridPrediction (draws : list Draw)
           (mainScores : JS.IntObj Q) (machinePrediction : list Z)
           (boostFactor : Q) : Hybrid :=
  let correlations := analyzeWinningMachineCorrelation draws in
  let st := boost_all correlations boostFactor machinePrediction
                      mainScores in
  mkHybrid (fst st)
           (calculateCorrelationStrength correlations machinePrediction)
           (snd st) correlations.

(** ** The selector *)

Record Candidate : Type := mkCandidate {
  cand_number : Z;
  cand_score : Q
}.

(** [Math.floor((n - 1) / 10)]. *)
Definition decade (n : Z) : Z := ((n - 1) / 10)%Z.

(** [Object.entries(scores).map(([num, score]) => ({ number: parseInt(num),
     score: parseFloat(score.toFixed(4)) })).sort((a, b) => b.score - a.score)]. *)
Definition rank (scores : JS.IntObj Q) : list Candidate :=
  JS.sort_by (fun y x => JS.Qltb (cand_score x) (cand_score y))
    (map (fun e : Z * Q => mkCandidate (fst e) (JS.toFixed 4 (snd e)))
         scores).

Definition decadeCount (selected : list Candidate) (d : Z) : nat :=
  length (filter (fun n => (decade (cand_number n) =? d)%Z) selected).

(** First pass: at most two numbers of a decade. *)
Fixpoint firstPass (count : nat) (ranked selected : list Candidate)
  : list Candidate :=
  match ranked with
  | [] => selected
  | candidate :: rest =>
      if (count <=? length selected)%nat then selected
      else if (decadeCount selected (decade (cand_number candidate)) <? 2)%nat
           then firstPass count rest (selected ++ [candidate])
           else firstPass count rest selected
  end.

(** [selected.find(s => s.number === candidate.number)], as a test. *)
Definition found (selected : list Candidate) (candidate : Candidate)
  : bool :=
  existsb (fun s => (cand_number s =? cand_number candidate)%Z) selected.

(** Second pass: fill the remaining slots in rank order. *)
Fixpoint secondPass (count : nat) (ranked selected : list Candidate)
  : list Candidate :=
  match ranked with
  | [] => selected
  | candidate :: rest =>
      if (count <=? length selected)%nat then selected
      else if found selected candidate
           then secondPass count rest selected
           else secondPass count rest (selected ++ [candidate])
  end.

Definition selectTopNumbers (scores : JS.IntObj Q) (count : nat)
  : list Candidate :=
  let ranked := rank scores in
  secondPass count ranked (firstPass count ranked []).

End CorrelationAnalyzer.

(* ------------------------------------------------------------------ *)
(** * server.js *)
(* ------------------------------------------------------------------ *)

(** What an [async] function hands to its caller. *)
Inductive Outcome (A : Type) : Type :=
| Returned (a : A)
| Thrown (message : string).

Arguments Returned {A} a.
Arguments Thrown {A} message.

Module Server.

Definition MS_PER_HOUR : Z := 3600000.
Definition MS_PER_DAY : Z := 86400000.

(** [new Date(d.draw_date)]: midnight UTC of the day, in milliseconds. *)
Definition date_ms (day : Z) : Z := (day * MS_PER_DAY)%Z.

(** [new Date(ts).toISOString().split('T')[0]], as a day number. *)
Definition day_of (ts : Z) : Z := (ts / MS_PER_DAY)%Z.

(** ** Selection of the main and machine numbers in [generatePredictions] *)

Definition selectBalanced (scores : JS.IntObj Q)
  : list CorrelationAnalyzer.Candidate :=
  let rankedNumbers := CorrelationAnalyzer.rank scores in
  CorrelationAnalyzer.secondPass 5 rankedNumbers
    (CorrelationAnalyzer.firstPass 5 rankedNumbers []).

(** [selected.map(n => n.number).sort((a, b) => a - b)]. *)
Definition mainNumbers (numberScores : JS.IntObj Q) : list Z :=
  JS.sort_asc
    (map CorrelationAnalyzer.cand_number (selectBalanced numberScores)).

(** [selectTopNumbers(hybridResult.boostedScores, 5)], numbers sorted. *)
Definition hybridSelection (boostedScores : JS.IntObj Q) : list Z :=
  JS.sort_asc
    (map CorrelationAnalyzer.cand_number
         (CorrelationAnalyzer.selectTopNumbers boostedScores 5)).

(** ** The draw store adapter *)

(** A row as served: [{ ...d, numbers_drawn }]. *)
Record ServedDraw : Type := mkServed {
  base : Draw;
  numbers_drawn : list Z
}.

Definition serve (d : Draw) : ServedDraw :=
  mkServed d (non_null (winning_columns d)).

(** The answer [{ data, error }] of the backing store to a query. *)
Record QueryResult : Type := mkQuery {
  data : option (list Draw);
  error : option string
}.

(** The argument [drawTypeId]: absent, the string ['all'], or an id. *)
Inductive DrawTypeParam : Type :=
| NoType
| AllTypes
| TypeId (id : Z).

(** [drawTypeId && drawTypeId !== 'all'], with the id it leaves. *)
Definition filter_id (p : DrawTypeParam) : option Z :=
  match p with
  | TypeId id => if (id =? 0)%Z then None else Some id
  | _ => None
  end.

(** The store, as the answers it gives: to the query for the 5000 newest
    rows (newest first), and to the direct query (oldest first), with or
    without a type. *)
Record Store : Type := mkStore {
  newest5000 : QueryResult;
  direct : option Z -> QueryResult
}.

Record DataCache : Type := mkCache {
  cache_draws : option (list ServedDraw);
  cache_timestamp : Z
}.

Definition TTL : Z := (60 * 60 * 1000)%Z.

(** The module state [getDrawsData] touches: [DATA_CACHE], and the
    prediction cache (its keys with their time stamps). *)
Record CacheState : Type := mkCacheState {
  DATA_CACHE : DataCache;
  predictionCache : list (string * Z)
}.

Definition refresh (store : Store) (now : Z) (st : CacheState)
  : CacheState :=
  match cache_draws (DATA_CACHE st) with
  | Some _ =>
      if (now - cache_timestamp (DATA_CACHE st) <=? TTL)%Z then st
      else
        match error (newest5000 store), data (newest5000 store) with
        | None, Some rows =>
            mkCacheState (mkCache (Some (map serve (rev rows))) now) []
        | _, _ => st
        end
  | None =>
      match error (newest5000 store), data (newest5000 store) with
      | None, Some rows =>
          mkCacheState (mkCache (Some (map serve (rev rows))) now) []
      | _, _ => st
      end
  end.

(** The part of the cache that answers the request. *)
Definition from_cache (drawTypeId : DrawTypeParam) (st : CacheState)
  : list ServedDraw :=
  match cache_draws (DATA_CACHE st) with
  | Some draws =>
      match filter_id drawTypeId with
      | Some id => filter (fun d => (draw_type_id (base d) =? id)%Z) draws
      | None => draws
      end
  | None => []
  end.

(** Step 3 of [getDrawsData], the direct fetch. *)
Definition directFetch (store : Store) (drawTypeId : DrawTypeParam)
  : Outcome (list ServedDraw) :=
  let answer := direct store (filter_id drawTypeId) in
  match error answer with
  | Some _ => Thrown "Failed to fetch draws data"
  | None =>
      match data answer with
      | Some rows => Returned (map serve rows)
      | None => Thrown "TypeError: Cannot read properties of null"
      end
  end.

Definition getDrawsData (store : Store) (now : Z)
           (drawTypeId : DrawTypeParam) (st : CacheState)
  : Outcome (list ServedDraw) * CacheState :=
  let st' := refresh store now st in
  let result := from_cache drawTypeId st' in
  if (0 <? length result)%nat then (Returned result, st')
  else (directFetch store drawTypeId, st').

(** ** The evaluate operation *)

(** The field [numbers] of the parsed body. *)
Inductive NumbersField : Type :=
| NumbersMissing
| NumbersNotArray
| NumbersArray (l : list Z).

Record EvalBody : Type := mkEvalBody {
  body_numbers : NumbersField;
  body_drawTypeId : DrawTypeParam;
  body_dayOfWeek : option Z
}.

(** A request: its method and its body, [None] when [JSON.parse] throws. *)
Record Request : Type := mkRequest {
  method : string;
  body : option EvalBody
}.

Record NumberDetail : Type := mkDetail {
  detail_number : Z;
  detail_score : Q;
  isHot : bool;
  isWarm : bool
}.

Record Evaluation : Type := mkEvaluation {
  eval_numbers : list NumberDetail;
  totalScore : Q;
  confidence : Q;
  matches : Z;
  strongMatches : Z;
  synergyBonus : Q;
  analysis_sum : Z;
  analysis_oddCount : nat;
  analysis_evenCount : nat;
  analysis_strongPairs : list (Z * Z * Z);
  analysis_decades : JS.IntObj Z;
  topCandidates : list Z;
  recommendation : string
}.

Inductive Payload : Type :=
| ErrorPayload (message : string)
| EvaluationPayload (e : Evaluation).

Record Response : Type := mkResponse {
  status : Z;
  payload : Payload
}.

(** [new Date(d.draw_date).getDay()], for a server whose time zone is UTC:
    day 0 was a Thursday. *)
Definition getDay (day : Z) : Z := ((day + 4) mod 7)%Z.

(** The pairs [(numbers[i], numbers[j])], [i < j]. *)
Fixpoint index_pairs (numbers : list Z) : list (Z * Z) :=
  match numbers with
  | [] => []
  | n1 :: rest => map (fun n2 => (n1, n2)) rest ++ index_pairs rest
  end.

Definition strongPairs (draws : list ServedDraw) (numbers : list Z)
  : list (Z * Z * Z) :=
  let totalDraws := length draws in
  let threshold := JS.max 2 (inject_Z (Z.of_nat totalDraws) * 0.005) in
  flat_map
    (fun p : Z * Z =>
       let count :=
         Z.of_nat
           (length
              (filter (fun d => JS.includes (numbers_drawn d) (fst p)
                                && JS.includes (numbers_drawn d) (snd p))
                      draws)) in
       if Qle_bool threshold (inject_Z count) then [(p, count)] else [])
    (index_pairs numbers).

Definition evaluation (numberScores : JS.IntObj Q)
           (draws : list ServedDraw) (numbers : list Z) : Evaluation :=
  let score num :=
    match JS.get num numberScores with
    | Some s => if JS.truthy s then s else 0
    | None => 0
    end in
  let sumScores := fold_left (fun acc num => acc + score num) numbers 0 in
  let avgScore := sumScores / 5 in
  let conf := JS.min 99.9 (JS.toFixed 1 (avgScore * 100 + 40)) in
  let pairs := strongPairs draws numbers in
  mkEvaluation
    (map (fun num => mkDetail num (JS.toFixed 4 (score num))
                              (JS.Qltb 0.3 (score num))
                              (JS.Qltb 0.15 (score num)))
         numbers)
    sumScores conf
    (Z.of_nat (length (filter (fun num => JS.Qltb 0.15 (score num))
                              numbers)))
    (Z.of_nat (length (filter (fun num => JS.Qltb 0.3 (score num))
                              numbers)))
    (fold_left (fun acc _ => acc + 0.1) pairs 0)
    (fold_left Z.add numbers 0%Z)
    (length (filter (fun n => negb (Z.rem n 2 =? 0)%Z) numbers))
    (length (filter (fun n => (Z.rem n 2 =? 0)%Z) numbers))
    pairs
    (fold_left
       (fun acc n =>
          let d := CorrelationAnalyzer.decade n in
          JS.set d (match JS.get d acc with
                    | Some c => c + 1
                    | None => 1
                    end)%Z acc)
       numbers [])
    (map fst
         (JS.slice 15
            (JS.sort_by (fun y x : Z * Q => JS.Qltb (snd x) (snd y))
                        numberScores)))
    (if JS.Qltb 80 conf then "Excellent"
     else if JS.Qltb 60 conf then "Bon"
     else if JS.Qltb 40 conf then "Moyen"
     else "Risque")%string.

Section Evaluate.

Variable analyzeCycles
  : list Draw -> Stream -> JS.IntObj Brain.CycleStats.
Variable strategies : Brain.StrategyPool.

(** [handleEvaluationRequest]: [weights] is what [brain.getWeights()]
    returns at the time of the call. *)
Definition handleEvaluationRequest (store : Store) (now : Z)
           (weights : Brain.Weights) (req : Request) (st : CacheState)
  : Response * CacheState :=
  if negb (String.eqb (method req) "POST")
  then (mkResponse 405 (ErrorPayload "Method not allowed"), st)
  else
    match body req with
    | None => (mkResponse 500 (ErrorPayload "SyntaxError"), st)
    | Some b =>
        match body_numbers b with
        | NumbersArray numbers =>
            if negb (length numbers =? 5)%nat
            then (mkResponse 500
                    (ErrorPayload "Please provide exactly 5 numbers"), st)
            else
              match getDrawsData store now (body_drawTypeId b) st with
              | (Thrown message, st') =>
                  (mkResponse 500 (ErrorPayload message), st')
              | (Returned all, st') =>
                  let draws :=
                    match body_dayOfWeek b with
                    | None => all
                    | Some dayOfWeek =>
                        let filtered :=
                          filter
                            (fun d => (getDay (draw_date (base d))
                                       =? dayOfWeek)%Z) all in
                        if (10 <=? length filtered)%nat
                        then filtered else all
                    end in
                  let numberScores :=
                    Brain.calculateNumberScores
                      analyzeCycles strategies (map base draws) weights
                      winning [] in
                  (mkResponse 200
                     (EvaluationPayload
                        (evaluation numberScores draws numbers)), st')
              end
        | _ =>
            (mkResponse 500
               (ErrorPayload "Please provide exactly 5 numbers"), st)
        end
    end.

End Evaluate.

(** ** The verification loop *)

(** [{ actual, matchCount, matches, nearMisses }] *)
Record Matching : Type := mkMatching {
  actual : list (option Z);
  matchCount : nat;
  matching_numbers : list Z;
  nearMisses : list Z
}.

(** An entry of the prediction history; [timestamp] in milliseconds.
    [result] carries [drawDate] with the matching. *)
Record Prediction : Type := mkPrediction {
  timestamp : Z;
  drawTypeId : option Z;
  predictedNumbers : list Z;
  machineNumbers : option (list Z);
  hybridNumbers : option (list Z);
  result : option (Z * Matching);
  machineResult : option Matching;
  hybridResult : option Matching
}.

(** [actual.includes(n)]; a [null] column equals no number. *)
Definition includes_column (actual : list (option Z)) (n : Z) : bool :=
  existsb (fun a => match a with Some m => (m =? n)%Z | None => false end)
          actual.

(** [Math.abs(a - n) === 1]; [null] counts as [0] in a subtraction. *)
Definition adjacent (n : Z) (a : option Z) : bool :=
  (Z.abs (match a with Some m => m | None => 0 end - n) =? 1)%Z.

Definition check (predicted : list Z) (actual : list (option Z))
  : Matching :=
  let hits := filter (includes_column actual) predicted in
  mkMatching actual (length hits) hits
    (filter (fun n => if includes_column actual n then false
                      else existsb (adjacent n) actual)
            predicted).

(** The test of [recentDraws.find(d => ..)]. *)
Definition is_target (pred : Prediction) (d : Draw) : bool :=
  match drawTypeId pred with
  | None => false
  | Some id =>
      if negb (draw_type_id d =? id)%Z then false
      else (timestamp pred <=? date_ms (draw_date d))%Z
           || (draw_date d =? day_of (timestamp pred))%Z
  end.

Definition targetDraw (pred : Prediction) (recentDraws : list Draw)
  : option Draw :=
  find (is_target pred) recentDraws.

Definition diffHours (pred : Prediction) (d : Draw) : Q :=
  inject_Z (date_ms (draw_date d) - timestamp pred) / inject_Z MS_PER_HOUR.

Definition in_window (pred : Prediction) (d : Draw) : bool :=
  Qle_bool (-24) (diffHours pred d) && JS.Qltb (diffHours pred d) 72.

Definition is_truthy (column : option Z) : bool :=
  match column with Some n => negb (n =? 0)%Z | None => false end.

(** The body of [for (const pred of unverified)]. *)
Definition verifyOne (recentDraws : list Draw) (pred : Prediction)
  : Prediction :=
  match result pred with
  | Some _ => pred
  | None =>
      match targetDraw pred recentDraws with
      | None => pred
      | Some target =>
          if in_window pred target then
            let actual := winning_columns target in
            let actualMachine := non_null (machine_columns target) in
            mkPrediction
              (timestamp pred) (drawTypeId pred) (predictedNumbers pred)
              (machineNumbers pred) (hybridNumbers pred)
              (Some (draw_date target,
                     check (predictedNumbers pred) actual))
              (match machineNumbers pred with
               | Some nums =>
                   if is_truthy (machine_number_1 target)
                      && (length actualMachine =? 5)%nat
                   then Some (check nums (map Some actualMachine))
                   else machineResult pred
               | None => machineResult pred
               end)
              (match hybridNumbers pred with
               | Some nums =>
                   if is_truthy (winning_number_1 target)
                   then Some (check nums actual)
                   else hybridResult pred
               | None => hybridResult pred
               end)
          else pred
      end
  end.

(** [new Date()] moved back by seven days ([setDate(getDate() - 7)]), for
    a server whose time zone has no clock change in between. *)
Definition sevenDaysAgo (now : Z) : Z := (now - 7 * MS_PER_DAY)%Z.

(** [!p.result && new Date(p.timestamp) > sevenDaysAgo]. *)
Definition unverified (now : Z) (p : Prediction) : bool :=
  match result p with
  | Some _ => false
  | None => (sevenDaysAgo now <? timestamp p)%Z
  end.

(** The query for the recent draws: rows of the table dated on or after
    the day of [sevenDaysAgo], newest first. *)
Definition recentDraws (table : list Draw) (now : Z) : list Draw :=
  JS.sort_by (fun y x => (draw_date x <? draw_date y)%Z)
    (filter (fun d => (day_of (sevenDaysAgo now) <=? draw_date d)%Z) table).

Record Verifier : Type := mkVerifier {
  lastVerificationTime : Z;
  historyFile : option (list Prediction)
}.

(** [verifyPredictions(force)] at time [now]; [table] is the [draws]
    table, [None] when the store gives no data. *)
Definition verifyPredictions (force : bool) (now : Z)
           (table : option (list Draw)) (st : Verifier) : Verifier :=
  if negb force && (now - lastVerificationTime st <? 60000)%Z then st
  else
    match historyFile st with
    | None => mkVerifier now None
    | Some history =>
        if (length (filter (unverified now) history) =? 0)%nat
        then mkVerifier now (Some history)
        else
          match table with
          | None => mkVerifier now (Some history)
          | Some rows =>
              let recent := recentDraws rows now in
              mkVerifier now
                (Some (map (fun p => if unverified now p
                                     then verifyOne recent p else p)
                           history))
          end
    end.

(** ** The prediction history: logging, and the last performance *)

(** [logPredictionToHistory]: [historyFile] is the parsed file, [None]
    when it does not exist or cannot be parsed.  Of the entry, the fields
    of [Prediction] are kept. *)
Definition logPredictionToHistory (now : Z) (type : option Z)
           (main : list Z) (machineNums hybridNums : option (list Z))
           (historyFile : option (list Prediction)) : list Prediction :=
  let history := match historyFile with Some h => h | None => [] end in
  let entry :=
    mkPrediction now type main machineNums hybridNums None None None in
  let history' := entry :: history in
  if (1000 <? length history')%nat then JS.slice 1000 history'
  else history'.

(** [{ date, predicted, actual, matchCount, matches }] *)
Record Performance : Type := mkPerformance {
  perf_date : Z;
  perf_predicted : list Z;
  perf_actual : list Z;
  perf_matchCount : nat;
  perf_matches : list Z
}.

(** [getLastPerformance(drawTypeId, draws)]: [historyFile] as above,
    [None] standing for [null]. *)
Definition getLastPerformance (type : DrawTypeParam)
           (historyFile : option (list Prediction))
           (draws : list ServedDraw) : option Performance :=
  match filter_id type with
  | None => None
  | Some id =>
      match historyFile with
      | None => None
      | Some history =>
          match find (fun p => match drawTypeId p with
                               | Some t => (t =? id)%Z
                               | None => false
                               end) history with
          | None => None
          | Some lastPred =>
              match nth_error draws (length draws - 1) with
              | None => None
              | Some latestDraw =>
                  if (day_of (timestamp lastPred)
                      <=? draw_date (base latestDraw))%Z
                  then
                    let actual := numbers_drawn latestDraw in
                    let predicted := predictedNumbers lastPred in
                    let matchNumbers :=
                      filter (JS.includes actual) predicted in
                    Some (mkPerformance (draw_date (base latestDraw))
                                        predicted actual
                                        (length matchNumbers) matchNumbers)
                  else None
              end
          end
      end
  end.

End Server.

(* ------------------------------------------------------------------ *)
(** * advanced-analyzer.js: return cycles; backtester.js: due numbers *)
(* ------------------------------------------------------------------ *)

Module Cycles.

(** [cycles[num]] and [lastSeen[num]]. *)
Record Seen : Type := mkSeen {
  gaps : list Z;
  lastSeen : option Z
}.

(** The body of [for (const num of numbers)].  For a number that is no
    key of the tables [lastSeen[num]] is [undefined], which is not [null],
    and [cycles[num].push] throws. *)
Definition see (drawIndex : Z) (table : JS.IntObj Seen) (num : Z)
  : Outcome (JS.IntObj Seen) :=
  match JS.get num table with
  | Some s =>
      Returned
        (JS.set num
           (mkSeen (match lastSeen s with
                    | Some l => gaps s ++ [(drawIndex - l)%Z]
                    | None => gaps s
                    end)
                   (Some drawIndex))
           table)
  | None =>
      Thrown "TypeError: Cannot read properties of undefined (reading 'push')"
  end.

Fixpoint see_all (drawIndex : Z) (numbers : list Z)
         (table : JS.IntObj Seen) : Outcome (JS.IntObj Seen) :=
  match numbers with
  | [] => Returned table
  | num :: rest =>
      match see drawIndex table num with
      | Returned table' => see_all drawIndex rest table'
      | Thrown message => Thrown message
      end
  end.

(** [getNumbers(draw, type).filter(n => n)]. *)
Definition numbers_of (d : Draw) (type : Stream) : list Z :=
  filter (fun n => negb (n =? 0)%Z) (AdvancedAnalyzer.getNumbers d type).

(** [sortedDraws.forEach((draw, drawIndex) => ..)]. *)
Fixpoint scan (type : Stream) (drawIndex : Z) (draws : list Draw)
         (table : JS.IntObj Seen) : Outcome (JS.IntObj Seen) :=
  match draws with
  | [] => Returned table
  | d :: rest =>
      match see_all drawIndex (numbers_of d type) table with
      | Returned table' => scan type (drawIndex + 1) rest table'
      | Thrown message => Thrown message
      end
  end.

(** [[...draws].sort((a, b) => new Date(a.draw_date) - new Date(b.draw_date))]. *)
Definition sortedDraws (draws : list Draw) : list Draw :=
  JS.sort_by (fun y x => (draw_date y <? draw_date x)%Z) draws.

(** The statistics of one number; of the record only the fields the
    brain and the due strategy read are kept. *)
Definition cycleStats (totalDraws : nat) (s : Seen) : Brain.CycleStats :=
  match gaps s with
  | [] => Brain.mkCycleStats 0 200
  | _ :: _ =>
      let n := Z.of_nat (length (gaps s)) in
      let avg := inject_Z (fold_left Z.add (gaps s) 0%Z) / inject_Z n in
      let currentGap :=
        match lastSeen s with
        | Some l => (Z.of_nat totalDraws - l - 1)%Z
        | None => Z.of_nat totalDraws
        end in
      let dueScore :=
        if JS.Qltb 0 avg then inject_Z currentGap / avg * 100 else 0 in
      Brain.mkCycleStats n (JS.toFixed 1 (JS.min dueScore 200))
  end.

Definition analyzeCycles (draws : list Draw) (type : Stream)
  : Outcome (JS.IntObj Brain.CycleStats) :=
  match scan type 0 (sortedDraws draws)
             (map (fun i => (i, mkSeen [] None)) numbers_1_90) with
  | Thrown message => Thrown message
  | Returned table =>
      Returned
        (map (fun num =>
                (num,
                 cycleStats (length draws)
                            (match JS.get num table with
                             | Some s => s
                             | None => mkSeen [] None
                             end)))
             numbers_1_90)
  end.

(** [strategyDueNumbers(draws, count, type)] of backtester.js. *)
Definition strategyDueNumbers (draws : list Draw) (count : nat)
           (type : Stream) : Outcome (list Z) :=
  match analyzeCycles draws type with
  | Thrown message => Thrown message
  | Returned cycles =>
      Returned
        (JS.sort_asc
           (map fst
              (JS.slice count
                 (JS.sort_by
                    (fun y x : Z * Brain.CycleStats =>
                       JS.Qltb (Brain.dueScore (snd x))
                               (Brain.dueScore (snd y)))
                    (filter (fun e : Z * Brain.CycleStats =>
                               (3 <=? Brain.cycleCount (snd e))%Z)
                            cycles)))))
  end.

End Cycles.

(* ------------------------------------------------------------------ *)
(** * Predicates and sample data used in the statements *)
(* ------------------------------------------------------------------ *)

(** Five distinct numbers of 1..90, at most two of them in any decade. *)
Definition balanced_five (l : list Z) : Prop :=
  length l = 5%nat
  /\ NoDup l
  /\ (forall n, In n l -> (1 <= n <= 90)%Z)
  /\ (forall d,
        (length (filter (fun n => (CorrelationAnalyzer.decade n =? d)%Z) l)
         <= 2)%nat).

(** The analyses and strategies propose numbers of 1..90 only. *)
Definition proposes_1_90
           (analyzeCycles : list Draw -> Stream -> JS.IntObj Brain.CycleStats)
           (strategies : Brain.StrategyPool) : Prop :=
  (forall draws type n,
      In n (JS.keys (analyzeCycles draws type)) -> In n numbers_1_90)
  /\ (forall draws k type n,
         In n (Brain.hot strategies draws k type)
         \/ In n (Brain.correlation strategies draws k type)
         \/ In n (Brain.balanced strategies draws k type)
         \/ In n (Brain.statistical strategies draws k type)
         \/ In n (Brain.finales strategies draws k type)
         \/ In n (Brain.position strategies draws type) ->
         In n numbers_1_90).

(** [q] multiplied by itself [n] times. *)
Fixpoint power (q : Q) (n : nat) : Q :=
  match n with
  | O => 1
  | S n' => q * power q n'
  end.

(** The predicted machine number [machineNum] has [w] among its ten most
    correlated winning numbers. *)
Definition recommends (correlations : CorrelationAnalyzer.Matrix) (w : Z)
           (machineNum : Z) : bool :=
  existsb (fun c => (CorrelationAnalyzer.number c =? w)%Z)
    (CorrelationAnalyzer.getTopCorrelatedWinning correlations machineNum 10).

(** How many entries of the machine prediction recommend [w]. *)
Definition recommenders (correlations : CorrelationAnalyzer.Matrix)
           (machinePrediction : list Z) (w : Z) : nat :=
  length (filter (recommends correlations w) machinePrediction).

(** Every row of a correlation matrix has ascending keys. *)
Definition rows_sorted (c : CorrelationAnalyzer.Matrix) : Prop :=
  forall e, In e c -> StronglySorted Z.lt (JS.keys (snd e)).

(** One draw in which the machine numbers 10 and 20 come with the winning
    number 17, and a score map that gives every number the score 1. *)
Definition draw_10_20_with_17 : Draw :=
  draw_of 19000 1
          [Some 17; Some 25; Some 33; Some 48; Some 61]%Z
          [Some 10; Some 20; Some 31; Some 41; Some 51]%Z.

Definition all_ones : JS.IntObj Q := map (fun i => (i, 1)) numbers_1_90.

(** A whole number of hundredths. *)
Definition hundredth (q : Q) : Prop := exists z : Z, q == inject_Z z / 100.

(** What the normalisation of [loadBrain] and [learn] leaves: every weight
    is a whole number of hundredths between 0 and 1, and the weights add up
    to 1 within half a hundredth per key. *)
Definition normalized_weights (w : Brain.Weights) : Prop :=
  (forall kv, In kv w -> hundredth (snd kv) /\ 0 <= snd kv <= 1)
  /\ Qabs (JS.sum (map snd w) - 1) <= inject_Z (Z.of_nat (length w)) * 0.005.

(** Strategy scores of a draw that no strategy came near. *)
Definition no_hit : list (string * Q) :=
  [("hot", 0); ("due", 0); ("correlation", 0); ("position", 0);
   ("balanced", 0); ("statistical", 0); ("finales", 0)]%string.

(** Strategy scores of a draw that every strategy but [hot] found. *)
Definition all_but_hot : list (string * Q) :=
  [("hot", 0); ("due", 3); ("correlation", 3); ("position", 3);
   ("balanced", 3); ("statistical", 3); ("finales", 3)]%string.

(** Weights that add up to 1, each of them between 0.05 and 0.60. *)
Definition lstm_heavy : Brain.Weights :=
  [("hot", 0.05); ("due", 0.05); ("correlation", 0.05); ("position", 0.05);
   ("balanced", 0.05); ("statistical", 0.05); ("finales", 0.10);
   ("lstm", 0.60)]%string.

(** A pool whose strategies propose nothing, and an empty cycle analysis. *)
Definition silent_pool : Brain.StrategyPool :=
  Brain.mkPool (fun _ _ _ => []) (fun _ _ _ => []) (fun _ _ _ => [])
               (fun _ _ => []) (fun _ _ _ => []) (fun _ _ _ => [])
               (fun _ _ _ => []).

Definition no_cycles (draws : list Draw) (type : Stream)
  : JS.IntObj Brain.CycleStats := [].

(** Ten draws, one a day, each with the winning numbers 1 to 5. *)
Definition ten_times_1_to_5 : list Draw :=
  map (fun i =>
         draw_of (19000 + Z.of_nat i) 1
                 [Some 1; Some 2; Some 3; Some 4; Some 5]%Z
                 [None; None; None; None; None])
      (seq 0 10).

(** A store that answers every query with an error, a store that holds
    one draw, and the state of a server that has cached nothing yet. *)
Definition failing_store : Server.Store :=
  Server.mkStore (Server.mkQuery None (Some "unreachable"%string))
                 (fun _ => Server.mkQuery None (Some "unreachable"%string)).

Definition one_draw_store : Server.Store :=
  Server.mkStore (Server.mkQuery (Some [draw_10_20_with_17]) None)
                 (fun _ => Server.mkQuery (Some [draw_10_20_with_17]) None).

Definition nothing_cached : Server.CacheState :=
  Server.mkCacheState (Server.mkCache None 0) [].

(** The numbers the evaluate operation is said to reject: not five of
    them, or one outside 1..90, or one that occurs twice. *)
Fixpoint has_duplicate (l : list Z) : bool :=
  match l with
  | [] => false
  | n :: rest => JS.includes rest n || has_duplicate rest
  end.

Definition numbers_invalid (numbers : list Z) : bool :=
  negb (length numbers =? 5)%nat
  || existsb (fun n => (n <? 1)%Z || (90 <? n)%Z) numbers
  || has_duplicate numbers.

(** A POST request that carries [numbers] and nothing else. *)
Definition evaluate_request (numbers : list Z) : Server.Request :=
  Server.mkRequest "POST"
    (Some (Server.mkEvalBody (Server.NumbersArray numbers)
                             Server.NoType None)).

(** A prediction for the draw type 1 made at noon of day 20000, not
    verified yet, and draws of that type on later days. *)
Definition noon_prediction : Server.Prediction :=
  Server.mkPrediction (20000 * 86400000 + 12 * 3600000) (Some 1%Z)
                      [7; 15; 23; 42; 71]%Z None None None None None.

Definition draw_on (day : Z) : Draw :=
  draw_of day 1 [Some 7; Some 16; Some 30; Some 42; Some 80]%Z
          [None; None; None; None; None].

(** The day of the draw a verified entry was matched with. *)
Definition drawDate (p : Server.Prediction) : option Z :=
  option_map fst (Server.result p).

(** A score map in which only the neighbours 10 and 11 have a score. *)
Definition only_10_and_11 : JS.IntObj Q :=
  map (fun i => (i, if (i =? 10)%Z || (i =? 11)%Z then 1 else 0))
      numbers_1_90.

(** The entry of a correlation matrix for the machine number [m] and the
    winning number [w], 0 when there is none. *)
Definition cell (c : CorrelationAnalyzer.Matrix) (m w : Z) : Z :=
  match JS.get w (CorrelationAnalyzer.row c m) with
  | Some n => n
  | None => 0%Z
  end.

(** How often [n] occurs in [l]. *)
Definition occurrences (n : Z) (l : list Z) : Z :=
  Z.of_nat (count_occ Z.eq_dec l n).

(** A draw with five machine numbers and five winning numbers. *)
Definition complete (d : Draw) : bool :=
  (length (non_null (machine_columns d)) =? 5)%nat
  && (length (non_null (winning_columns d)) =? 5)%nat.

(** In how many complete draws the machine number [m] comes with the
    winning number [w] (a number drawn twice in a draw counting twice). *)
Fixpoint co_occurrences (draws : list Draw) (m w : Z) : Z :=
  match draws with
  | [] => 0%Z
  | d :: rest =>
      ((if complete d
        then occurrences m (non_null (machine_columns d))
             * occurrences w (non_null (winning_columns d))
        else 0)
       + co_occurrences rest m w)%Z
  end.

(** What the booster has done after the recommendations [done]: the
    boosted numbers are the recommended numbers whose main score is not 0,
    each once, and the other scores are the main scores. *)
Definition boost_frame (mainScores : JS.IntObj Q)
           (done : list CorrelationAnalyzer.Correlated)
           (st : JS.IntObj Q * list Z) : Prop :=
  NoDup (snd st)
  /\ (forall w,
        In w (snd st) <->
        In w (map CorrelationAnalyzer.number done)
        /\ exists s, JS.get w mainScores = Some s /\ ~ s == 0)
  /\ (forall w, ~ In w (snd st) ->
                JS.get w (fst st) = JS.get w mainScores).

(** A score map with three numbers. *)
Definition three_scores : JS.IntObj Q :=
  [(1%Z, 0.5); (2%Z, 0.7); (3%Z, 0.1)].

(** What the verification may do to an entry [p] of the history: leave
    it as it is, or give it a result, if it had none and is newer than
    seven days; the prediction itself is kept. *)
Definition verified_from (now : Z) (p p' : Server.Prediction) : Prop :=
  Server.timestamp p' = Server.timestamp p
  /\ Server.drawTypeId p' = Server.drawTypeId p
  /\ Server.predictedNumbers p' = Server.predictedNumbers p
  /\ Server.machineNumbers p' = Server.machineNumbers p
  /\ Server.hybridNumbers p' = Server.hybridNumbers p
  /\ (p' = p
      \/ (Server.result p = None
          /\ (Server.sevenDaysAgo now < Server.timestamp p)%Z
          /\ Server.result p' <> None)).

(** A column of a draw as a number, [null] counting as 0. *)
Definition column_value (a : option Z) : Z :=
  match a with Some m => m | None => 0%Z end.

(** The cache after a first call that found the store of one draw. *)
Definition one_draw_cached : Server.CacheState :=
  Server.mkCacheState
    (Server.mkCache (Some [Server.serve draw_10_20_with_17]) 0) [].

(** The votes of the number [i], 0 when it has none. *)
Definition votes_at (votes : JS.IntObj Z) (i : Z) : Z :=
  match JS.get i votes with Some v => v | None => 0%Z end.

(** What the synergy step makes of the score [s] of a number with [v]
    votes. *)
Definition synergy_result (v : Z) (s : Q) : Q :=
  if (5 <=? v)%Z then s * 1.20
  else if (3 <=? v)%Z then s * 1.10
  else if (v =? 0)%Z && JS.Qltb 2.0 s then s * 0.85
  else s.

(** How often the number [n] was drawn in [draws]. *)
Fixpoint appearances (draws : list Draw) (type : Stream) (n : Z) : Z :=
  match draws with
  | [] => 0%Z
  | d :: rest =>
      (occurrences n (Backtester.extractNumbers d type)
       + appearances rest type n)%Z
  end.

(** Every number of the draws is a number of the game, or 0. *)
Definition numbers_of_the_game (draws : list Draw) (type : Stream) : Prop :=
  forall d n, In d draws -> In n (Backtester.extractNumbers d type) ->
              (0 <= n <= 90)%Z.

(** The number [strategyBalanced] takes from the block [i]. *)
Definition block_best (freq : JS.IntObj Z) (i : Z) : Z :=
  match Backtester.decade_block freq i with
  | best :: _ => fst best
  | [] => 0%Z
  end.

(** A history with the prediction of noon of day 20000. *)
Definition noon_history : option (list Server.Prediction) :=
  Some [noon_prediction].

(** The count a counter has for [key], 0 when it has none. *)
Definition count_of (key : list Z) (c : Counter.t) : Z :=
  match find (fun e => Counter.key_eqb (fst e) key) c with
  | Some e => snd e
  | None => 0%Z
  end.

(** How often the combination [key] occurs among the combinations
    ([keys_of]: pairs or triples) of the sorted numbers of the draws. *)
Fixpoint combo_occurrences (keys_of : list Z -> list (list Z))
         (draws : list Draw) (type : Stream) (key : list Z) : Z :=
  match draws with
  | [] => 0%Z
  | d :: rest =>
      (Z.of_nat (count_occ (list_eq_dec Z.eq_dec)
                           (keys_of (AdvancedAnalyzer.sorted_numbers d type))
                           key)
       + combo_occurrences keys_of rest type key)%Z
  end.

(** [combos] are at most [limit] combinations, no one twice, each with
    the number of its occurrences and its share of the [total] draws, in
    descending order of the counts, and no combination that is left out
    occurs more often than one that is listed. *)
Definition most_frequent (limit total : nat)
           (occurs : list Z -> Z) (combos : list AdvancedAnalyzer.Combo)
  : Prop :=
  (length combos <= limit)%nat
  /\ NoDup (map AdvancedAnalyzer.numbers combos)
  /\ (forall p, In p combos ->
                (1 <= AdvancedAnalyzer.count p)%Z
                /\ AdvancedAnalyzer.count p
                   = occurs (AdvancedAnalyzer.numbers p)
                /\ AdvancedAnalyzer.percentage p
                   = JS.toFixed 2
                       (inject_Z (AdvancedAnalyzer.count p)
                        / inject_Z (Z.of_nat total) * 100))
  /\ StronglySorted
       (fun p q => (AdvancedAnalyzer.count q <= AdvancedAnalyzer.count p)%Z)
       combos
  /\ (forall p key,
        In p combos ->
        ~ In key (map AdvancedAnalyzer.numbers combos) ->
        (occurs key <= AdvancedAnalyzer.count p)%Z).

(** The state of the cycle tables after the numbers [done], seen in
    draws of an index below [bound]: every number of 1..90 has one gap
    for each of its appearances but the first, and was last seen in one of
    those draws. *)
Definition seen_so_far (table : JS.IntObj Cycles.Seen) (done : list Z)
           (bound : Z) : Prop :=
  JS.keys table = numbers_1_90
  /\ (forall num, (1 <= num <= 90)%Z ->
        exists s,
          JS.get num table = Some s
          /\ length (Cycles.gaps s) = pred (count_occ Z.eq_dec done num)
          /\ (Cycles.lastSeen s = None
              <-> count_occ Z.eq_dec done num = 0%nat)
          /\ (forall l, Cycles.lastSeen s = Some l -> (0 <= l < bound)%Z)).

(** A draw with the number 91. *)
Definition draw_with_91 : Draw :=
  draw_of 20000 1 [Some 7; Some 16; Some 30; Some 42; Some 91]%Z
          [None; None; None; None; None].

(** The sum of the entries of a table. *)
Definition total_of (o : JS.IntObj Z) : Z :=
  fold_right Z.add 0%Z (map snd o).

(** The counters of a backtest fit together: a jackpot is a win and a win
    is a test; a best and a worst prediction are recorded as soon as there
    is a test, and the worst has no more matches than the best. *)
Definition backtest_consistent (r : Backtester.Results) : Prop :=
  (Backtester.jackpots r <= Backtester.wins r
   <= Backtester.totalTests r)%nat
  /\ (Backtester.bestPrediction r = None
      <-> Backtester.totalTests r = 0%nat)
  /\ (Backtester.worstPrediction r = None
      <-> Backtester.totalTests r = 0%nat)
  /\ (forall b w,
        Backtester.bestPrediction r = Some b ->
        Backtester.worstPrediction r = Some w ->
        (Backtester.tested_matches w <= Backtester.tested_matches b)%nat).

(** The matches are counted in full: at most five per test, each test in
    its entry of the distribution. *)
Definition backtest_counted (r : Backtester.Results) : Prop :=
  (Backtester.totalMatches r <= 5 * Backtester.totalTests r)%nat
  /\ JS.keys (Backtester.matchDistribution r) = [0; 1; 2; 3; 4; 5]%Z
  /\ total_of (Backtester.matchDistribution r)
     = Z.of_nat (Backtester.totalTests r).

(* ================================================================== *)
(** * Properties *)
(* ================================================================== *)

Unset Implicit Arguments.
Open Scope Q_scope.

(** ** Sorting and integer-keyed objects *)

Section SortFacts.

Variable A : Type.
Variable before : A -> A -> bool.

Lemma insert_by_perm (x : A) (l : list A) :
  Permutation (JS.insert_by before x l) (x :: l).
Proof.
  induction l as [|y l IH]; simpl.
  - apply Permutation_refl.
  - destruct (before y x).
    + eapply perm_trans; [apply perm_skip, IH | apply perm_swap].
    + apply Permutation_refl.
Qed.

Lemma sort_by_perm (l : list A) : Permutation (JS.sort_by before l) l.
Proof.
  induction l as [|x l IH]; simpl.
  - apply perm_nil.
  - eapply perm_trans; [apply insert_by_perm | apply perm_skip, IH].
Qed.

Lemma sort_by_In (l : list A) (x : A) : In x (JS.sort_by before l) <-> In x l.
Proof.
  split; apply Permutation_in;
    [apply sort_by_perm | apply Permutation_sym, sort_by_perm].
Qed.

Lemma sort_by_length (l : list A) : length (JS.sort_by before l) = length l.
Proof. apply Permutation_length, sort_by_perm. Qed.

End SortFacts.

Lemma slice_In (A : Type) (n : nat) (l : list A) (x : A) :
  In x (JS.slice n l) -> In x l.
Proof.
  unfold JS.slice. revert n. induction l as [|y l IH]; intros [|n]; simpl;
    try tauto.
  intros [H | H]; [left; exact H | right; eapply IH; exact H].
Qed.

Lemma includes_In (l : list Z) (n : Z) : JS.includes l n = true <-> In n l.
Proof.
  unfold JS.includes. rewrite existsb_exists. split.
  - intros [m [Hm He]]. apply Z.eqb_eq in He. subst. exact Hm.
  - intros H. exists n. split; [exact H | apply Z.eqb_refl].
Qed.

Section ObjFacts.

Variable V : Type.

Lemma get_set (k m : Z) (v : V) (o : JS.IntObj V) :
  JS.get m (JS.set k v o) = if (k =? m)%Z then Some v else JS.get m o.
Proof.
  induction o as [|[k' v'] o IH].
  - reflexivity.
  - cbn [JS.set]. destruct (k' =? k)%Z eqn:Ek.
    + apply Z.eqb_eq in Ek. subst k'. cbn [JS.get].
      destruct (k =? m)%Z; reflexivity.
    + destruct (k <? k')%Z.
      * cbn [JS.get]. reflexivity.
      * cbn [JS.get]. rewrite IH. destruct (k =? m)%Z eqn:Em; [|reflexivity].
        apply Z.eqb_eq in Em. subst m. rewrite Ek. reflexivity.
Qed.

Lemma get_Some_In (k : Z) (o : JS.IntObj V) (v : V) :
  JS.get k o = Some v -> In k (JS.keys o).
Proof.
  induction o as [|[k' v'] o IH]; simpl; [discriminate|].
  destruct (k' =? k)%Z eqn:E.
  - apply Z.eqb_eq in E. intros _. left. exact E.
  - intros H. right. apply IH, H.
Qed.

Lemma In_get_Some (k : Z) (o : JS.IntObj V) :
  In k (JS.keys o) -> exists v, JS.get k o = Some v.
Proof.
  induction o as [|[k' v'] o IH]; simpl; [tauto|].
  intros H. destruct (k' =? k)%Z eqn:E.
  - eexists. reflexivity.
  - destruct H as [H | H]; [apply Z.eqb_neq in E; contradiction | apply IH, H].
Qed.

(** On an object whose keys ascend, writing to a key it has keeps the
    keys as they are. *)
Lemma keys_set_present (k : Z) (v : V) (o : JS.IntObj V) :
  StronglySorted Z.lt (JS.keys o) ->
  In k (JS.keys o) -> JS.keys (JS.set k v o) = JS.keys o.
Proof.
  induction o as [|[k' v'] o IH]; simpl; [tauto|].
  intros S H. inversion S as [|? ? S' F]; subst.
  destruct (k' =? k)%Z eqn:E.
  - apply Z.eqb_eq in E. subst. reflexivity.
  - destruct H as [H | H]; [apply Z.eqb_neq in E; contradiction|].
    destruct (k <? k')%Z eqn:L.
    + apply Z.ltb_lt in L. rewrite Forall_forall in F.
      specialize (F _ H). lia.
    + simpl. f_equal. apply IH; assumption.
Qed.

Lemma In_get_unique (o : JS.IntObj V) (k : Z) (v : V) :
  NoDup (map fst o) -> In (k, v) o -> JS.get k o = Some v.
Proof.
  induction o as [|[k' v'] o IH]; simpl; [tauto|].
  intros N H. inversion N as [|? ? Hn N']; subst.
  destruct H as [H | H].
  - inversion H; subst. rewrite Z.eqb_refl. reflexivity.
  - destruct (k' =? k)%Z eqn:E.
    + apply Z.eqb_eq in E. subst. exfalso. apply Hn.
      apply in_map_iff. exists (k, v). split; auto.
    + apply IH; assumption.
Qed.

End ObjFacts.

Lemma seq_sorted (len s : nat) :
  StronglySorted Z.lt (map Z.of_nat (seq s len)).
Proof.
  revert s. induction len as [|n IH]; intros s; simpl.
  - constructor.
  - constructor; [apply IH|].
    rewrite Forall_forall. intros x Hx. apply in_map_iff in Hx.
    destruct Hx as [y [<- Hy]]. apply in_seq in Hy. lia.
Qed.

Lemma numbers_1_90_sorted : StronglySorted Z.lt numbers_1_90.
Proof. apply seq_sorted. Qed.

Lemma numbers_1_90_NoDup : NoDup numbers_1_90.
Proof.
  unfold numbers_1_90. apply Finite.Injective_map_NoDup.
  - intros x y H. apply Nat2Z.inj, H.
  - apply seq_NoDup.
Qed.

Lemma numbers_1_90_In (n : Z) : In n numbers_1_90 <-> (1 <= n <= 90)%Z.
Proof.
  unfold numbers_1_90. rewrite in_map_iff. split.
  - intros [y [<- Hy]]. apply in_seq in Hy. lia.
  - intros H. exists (Z.to_nat n). split; [lia | apply in_seq; lia].
Qed.

(** ** The leakage guard of [learn] *)

Lemma isSame_subset (actualDraw : list Z) (type : Stream) (d : Draw) :
  Brain.isSame actualDraw type d = true
  <-> (forall n, In n (Backtester.extractNumbers d type) -> In n actualDraw).
Proof.
  unfold Brain.isSame. rewrite forallb_forall.
  split; intros H n Hn.
  - apply includes_In, H, Hn.
  - apply includes_In, H, Hn.
Qed.


(** ** Step 9 of the scorer: tactical neighbours *)

Lemma score_at_add_score (scores : JS.IntObj Q) (nb m : Z) (x : Q) :
  Brain.score_at (Brain.add_score nb x scores) m
  == Brain.score_at scores m + (if (nb =? m)%Z then x else 0).
Proof.
  unfold Brain.score_at, Brain.add_score.
  destruct (JS.get nb scores) as [s|] eqn:G; rewrite get_set;
    destruct (nb =? m)%Z eqn:E.
  - apply Z.eqb_eq in E. subst. rewrite G. reflexivity.
  - ring.
  - apply Z.eqb_eq in E. subst. rewrite G. ring.
  - ring.
Qed.

Lemma get_add_score_other (scores : JS.IntObj Q) (nb m : Z) (x : Q) :
  nb <> m -> JS.get m (Brain.add_score nb x scores) = JS.get m scores.
Proof.
  intros H. unfold Brain.add_score.
  destruct (JS.get nb scores); rewrite get_set;
    destruct (nb =? m)%Z eqn:E; try reflexivity;
    apply Z.eqb_eq in E; contradiction.
Qed.

Lemma keys_add_score (scores : JS.IntObj Q) (nb : Z) (x : Q) :
  StronglySorted Z.lt (JS.keys scores) -> In nb (JS.keys scores) ->
  JS.keys (Brain.add_score nb x scores) = JS.keys scores.
Proof.
  intros S H. unfold Brain.add_score.
  destruct (JS.get nb scores); apply keys_set_present; assumption.
Qed.

Lemma neighbors_spec (num m : Z) :
  In m (Brain.neighbors num)
  <-> (m = num - 1 /\ 1 < num)%Z \/ (m = num + 1 /\ num < 90)%Z.
Proof.
  unfold Brain.neighbors.
  destruct (1 <? num)%Z eqn:L1; destruct (num <? 90)%Z eqn:L2; simpl;
    try apply Z.ltb_lt in L1; try apply Z.ltb_lt in L2;
    try apply Z.ltb_ge in L1; try apply Z.ltb_ge in L2; lia.
Qed.

Lemma neighbors_in_range (num m : Z) :
  (1 <= num <= 90)%Z -> In m (Brain.neighbors num) -> (1 <= m <= 90)%Z.
Proof. intros H Hm. apply neighbors_spec in Hm. lia. Qed.

Lemma spread_keys (scores : JS.IntObj Q) (num : Z) :
  JS.keys scores = numbers_1_90 -> (1 <= num <= 90)%Z ->
  JS.keys (Brain.spread scores num) = numbers_1_90.
Proof.
  intros K R. unfold Brain.spread.
  generalize (Brain.score_at scores num * Brain.NEIGHBOR_WEIGHT). intros bonus.
  assert (N : forall m, In m (Brain.neighbors num) -> In m numbers_1_90).
  { intros m Hm. apply numbers_1_90_In. eapply neighbors_in_range; eauto. }
  revert scores K. induction (Brain.neighbors num) as [|nb l IH];
    intros scores K; simpl.
  - exact K.
  - apply IH.
    + intros m Hm. apply N. right. exact Hm.
    + rewrite keys_add_score; [exact K | |].
      * rewrite K. apply numbers_1_90_sorted.
      * rewrite K. apply N. left. reflexivity.
Qed.

Lemma spread_get_other (scores : JS.IntObj Q) (num m : Z) :
  ~ In m (Brain.neighbors num) ->
  JS.get m (Brain.spread scores num) = JS.get m scores.
Proof.
  unfold Brain.spread.
  generalize (Brain.score_at scores num * Brain.NEIGHBOR_WEIGHT). intros bonus.
  revert scores. induction (Brain.neighbors num) as [|nb l IH];
    intros scores H; simpl.
  - reflexivity.
  - rewrite IH; [|intros C; apply H; right; exact C].
    apply get_add_score_other. intros C. apply H. left. exact C.
Qed.

Lemma spread_score (scores : JS.IntObj Q) (num m : Z) :
  Brain.score_at (Brain.spread scores num) m
  == Brain.score_at scores m
     + (if ((m =? num - 1)%Z && (1 <? num)%Z) || ((m =? num + 1)%Z && (num <? 90)%Z)
        then Brain.NEIGHBOR_WEIGHT * Brain.score_at scores num else 0).
Proof.
  unfold Brain.spread, Brain.neighbors.
  destruct (1 <? num)%Z eqn:L1; destruct (num <? 90)%Z eqn:L2; simpl;
    repeat rewrite score_at_add_score;
    rewrite ?andb_true_r, ?andb_false_r, ?orb_false_r; simpl.
  - rewrite (Z.eqb_sym m (num - 1)), (Z.eqb_sym m (num + 1)).
    destruct (num - 1 =? m)%Z eqn:E1; destruct (num + 1 =? m)%Z eqn:E2;
      simpl; try ring.
    apply Z.eqb_eq in E1. apply Z.eqb_eq in E2. lia.
  - rewrite (Z.eqb_sym m (num - 1)).
    destruct (num - 1 =? m)%Z; ring.
  - rewrite (Z.eqb_sym m (num + 1)).
    destruct (num + 1 =? m)%Z; ring.
  - ring.
Qed.

Lemma topCandidates_spec (scores : JS.IntObj Q) (c : Z) :
  In c (Brain.topCandidates scores) ->
  exists s, In (c, s) scores /\ 0 < s.
Proof.
  unfold Brain.topCandidates. intros H. apply in_map_iff in H.
  destruct H as [[c' s] [E H]]. simpl in E. subst c'.
  apply slice_In in H. apply sort_by_In in H. apply filter_In in H.
  destruct H as [H P]. exists s. split; [exact H|].
  unfold JS.Qltb in P. simpl in P. apply negb_true_iff in P.
  destruct (Qlt_le_dec 0 s) as [L|L]; [exact L|].
  apply Qle_bool_iff in L. congruence.
Qed.

Lemma topCandidates_length (scores : JS.IntObj Q) :
  (length (Brain.topCandidates scores) <= 15)%nat.
Proof.
  unfold Brain.topCandidates, JS.slice. rewrite length_map.
  apply firstn_le_length.
Qed.

Lemma spread_all_keys (cs : list Z) (scores : JS.IntObj Q) :
  JS.keys scores = numbers_1_90 ->
  (forall c, In c cs -> (1 <= c <= 90)%Z) ->
  JS.keys (fold_left Brain.spread cs scores) = numbers_1_90.
Proof.
  revert scores. induction cs as [|c cs IH]; intros scores K R; simpl.
  - exact K.
  - apply IH.
    + apply spread_keys; [exact K | apply R; left; reflexivity].
    + intros c' Hc. apply R. right. exact Hc.
Qed.

Lemma spread_all_get_other (cs : list Z) (scores : JS.IntObj Q) (m : Z) :
  (forall c, In c cs -> ~ In m (Brain.neighbors c)) ->
  JS.get m (fold_left Brain.spread cs scores) = JS.get m scores.
Proof.
  revert scores. induction cs as [|c cs IH]; intros scores H; simpl.
  - reflexivity.
  - rewrite IH; [|intros c' Hc; apply H; right; exact Hc].
    apply spread_get_other. apply H. left. reflexivity.
Qed.

Lemma contribute_keys (amount : nat -> Q) (nums : list Z) (idx : nat)
      (st : JS.IntObj Q * JS.IntObj Z) :
  JS.keys (fst st) = numbers_1_90 ->
  (forall n, In n nums -> In n numbers_1_90) ->
  JS.keys (fst (Brain.contribute amount idx nums st)) = numbers_1_90.
Proof.
  revert idx st. induction nums as [|num rest IH]; intros idx st K R; simpl.
  - exact K.
  - apply IH; [|intros n Hn; apply R; right; exact Hn].
    cbn [fst]. rewrite keys_add_score; [exact K | |].
    + rewrite K. apply numbers_1_90_sorted.
    + rewrite K. apply R. left. reflexivity.
Qed.

Lemma contribute_due_keys (w : Brain.Weights)
      (nums : list (Z * Brain.CycleStats)) (idx : nat)
      (st : JS.IntObj Q * JS.IntObj Z) :
  JS.keys (fst st) = numbers_1_90 ->
  (forall n, In n (map fst nums) -> In n numbers_1_90) ->
  JS.keys (fst (Brain.contribute_due w idx nums st)) = numbers_1_90.
Proof.
  revert idx st. induction nums as [|[num stats] rest IH]; intros idx st K R;
    simpl.
  - exact K.
  - apply IH; [|intros n Hn; apply R; right; exact Hn].
    cbn [fst]. rewrite keys_add_score; [exact K | |].
    + rewrite K. apply numbers_1_90_sorted.
    + rewrite K. apply R. left. reflexivity.
Qed.

(** The map the neighbour step of [calculateNumberScores] starts from has
    the keys 1..90, as long as the strategies propose numbers of 1..90. *)
Lemma strategyScores_keys
      (analyzeCycles : list Draw -> Stream -> JS.IntObj Brain.CycleStats)
      (strategies : Brain.StrategyPool) (draws : list Draw)
      (w : Brain.Weights) (type : Stream) (lstm : list Z) :
  proposes_1_90 analyzeCycles strategies ->
  (forall n, In n lstm -> In n numbers_1_90) ->
  JS.keys (fst (Brain.strategyScores analyzeCycles strategies draws w type
                                     lstm))
  = numbers_1_90.
Proof.
  intros [C P] L. unfold Brain.strategyScores.
  repeat (apply contribute_keys;
          [|first [exact L
                  | intros n Hn; apply (P draws 15%nat type n); tauto]]).
  apply contribute_due_keys.
  - unfold JS.keys. cbn [fst]. rewrite map_map. apply map_id.
  - intros n Hn. apply in_map_iff in Hn. destruct Hn as [e [<- He]].
    apply slice_In in He. apply sort_by_In in He. apply filter_In in He.
    destruct He as [He _]. apply (C draws type).
    unfold JS.keys. apply in_map, He.
Qed.



(** The bonus is taken from the score a candidate has when its turn comes:
    10 is served first and raises 11 to 1.15, so that 11 then passes
    0.15 * 1.15 on to 10 and 12. *)
Lemma tactical_neighbors_in_turn :
  Brain.topCandidates only_10_and_11 = [10; 11]%Z
  /\ Brain.score_at (Brain.tacticalNeighbors only_10_and_11) 9 == 0.15
  /\ Brain.score_at (Brain.tacticalNeighbors only_10_and_11) 11 == 1.15
  /\ Brain.score_at (Brain.tacticalNeighbors only_10_and_11) 12 == 0.1725
  /\ Brain.score_at (Brain.tacticalNeighbors only_10_and_11) 10 == 1.1725.
Proof. repeat split; vm_compute; reflexivity. Qed.

(** ** The selector *)

Section Selector.

Import CorrelationAnalyzer.

Let nums (l : list Candidate) : list Z := map cand_number l.

Lemma decadeCount_app (l1 l2 : list Candidate) (d : Z) :
  decadeCount (l1 ++ l2) d = (decadeCount l1 d + decadeCount l2 d)%nat.
Proof. unfold decadeCount. rewrite filter_app, length_app. reflexivity. Qed.

Lemma firstPass_extends (count : nat) (ranked selected : list Candidate) :
  exists more, firstPass count ranked selected = selected ++ more
               /\ (forall c, In c more -> In c ranked).
Proof.
  revert selected. induction ranked as [|c rest IH]; intros selected; simpl.
  - exists []. rewrite app_nil_r. split; [reflexivity | tauto].
  - destruct (count <=? length selected)%nat.
    + exists []. rewrite app_nil_r. split; [reflexivity | simpl; tauto].
    + destruct (decadeCount selected (decade (cand_number c)) <? 2)%nat.
      * destruct (IH (selected ++ [c])) as [more [E I]].
        exists (c :: more). rewrite E, <- app_assoc. split; [reflexivity|].
        intros x [Hx | Hx]; [left; exact Hx | right; apply I, Hx].
      * destruct (IH selected) as [more [E I]].
        exists more. split; [exact E | intros x Hx; right; apply I, Hx].
Qed.

Lemma firstPass_length (count : nat) (ranked selected : list Candidate) :
  (length selected <= count)%nat ->
  (length (firstPass count ranked selected) <= count)%nat.
Proof.
  revert selected. induction ranked as [|c rest IH]; intros selected H; simpl.
  - exact H.
  - destruct (count <=? length selected)%nat eqn:E; [exact H|].
    apply Nat.leb_gt in E.
    destruct (decadeCount selected (decade (cand_number c)) <? 2)%nat.
    + apply IH. rewrite length_app. simpl. lia.
    + apply IH, H.
Qed.

Lemma firstPass_decades (count : nat) (ranked selected : list Candidate) :
  (forall d, (decadeCount selected d <= 2)%nat) ->
  forall d, (decadeCount (firstPass count ranked selected) d <= 2)%nat.
Proof.
  revert selected. induction ranked as [|c rest IH]; intros selected H; simpl.
  - exact H.
  - destruct (count <=? length selected)%nat; [exact H|].
    destruct (decadeCount selected (decade (cand_number c)) <? 2)%nat eqn:E.
    + apply IH. intros d. rewrite decadeCount_app.
      apply Nat.ltb_lt in E. unfold decadeCount at 2. simpl.
      destruct (decade (cand_number c) =? d)%Z eqn:D; simpl.
      * apply Z.eqb_eq in D. subst d. lia.
      * specialize (H d). lia.
    + apply IH, H.
Qed.

Lemma firstPass_NoDup (count : nat) (ranked selected : list Candidate) :
  NoDup (nums selected ++ nums ranked) ->
  NoDup (nums (firstPass count ranked selected)).
Proof.
  revert selected. induction ranked as [|c rest IH]; intros selected H; simpl.
  - simpl in H. rewrite app_nil_r in H. exact H.
  - destruct (count <=? length selected)%nat.
    + apply NoDup_app_remove_r in H. exact H.
    + destruct (decadeCount selected (decade (cand_number c)) <? 2)%nat.
      * apply IH. unfold nums. rewrite map_app, <- app_assoc. exact H.
      * apply IH. simpl in H. apply NoDup_remove_1 in H. exact H.
Qed.

Lemma firstPass_complete (count : nat) (ranked selected : list Candidate) :
  (length (firstPass count ranked selected) < count)%nat ->
  forall c, In c ranked ->
    In c (firstPass count ranked selected)
    \/ (2 <= decadeCount (firstPass count ranked selected)
                         (decade (cand_number c)))%nat.
Proof.
  revert selected. induction ranked as [|c0 rest IH]; intros selected L c Hc;
    [destruct Hc|].
  simpl in L |- *.
  destruct (count <=? length selected)%nat eqn:E.
  - apply Nat.leb_le in E. lia.
  - destruct (decadeCount selected (decade (cand_number c0)) <? 2)%nat eqn:D.
    + destruct Hc as [-> | Hc]; [|apply IH; assumption].
      left. destruct (firstPass_extends count rest (selected ++ [c]))
        as [more [-> _]].
      apply in_or_app. left. apply in_or_app. right. left. reflexivity.
    + destruct Hc as [-> | Hc]; [|apply IH; assumption].
      right. apply Nat.ltb_ge in D.
      destruct (firstPass_extends count rest selected) as [more [-> _]].
      rewrite decadeCount_app. lia.
Qed.

Lemma secondPass_full (count : nat) (ranked selected : list Candidate) :
  (count <= length selected)%nat ->
  secondPass count ranked selected = selected.
Proof.
  intros H. destruct ranked as [|c rest]; simpl; [reflexivity|].
  apply Nat.leb_le in H. rewrite H. reflexivity.
Qed.

Lemma two_members (A : Type) (a b : A) (l : list A) :
  a <> b -> In a l -> In b l -> (2 <= length l)%nat.
Proof.
  intros N Ha Hb. destruct l as [|x [|y l]]; simpl in *; try tauto; try lia.
  destruct Ha as [-> | []]. destruct Hb as [-> | []]. contradiction.
Qed.

Lemma three_decades (l : list Candidate) :
  (decadeCount l 0 + decadeCount l 1 + decadeCount l 2 <= length l)%nat.
Proof.
  unfold decadeCount. induction l as [|c l IH]; simpl; [lia|].
  destruct (decade (cand_number c) =? 0)%Z eqn:E0;
    destruct (decade (cand_number c) =? 1)%Z eqn:E1;
    destruct (decade (cand_number c) =? 2)%Z eqn:E2; simpl; try lia;
    try apply Z.eqb_eq in E0; try apply Z.eqb_eq in E1;
    try apply Z.eqb_eq in E2; lia.
Qed.

Lemma rank_numbers (scores : JS.IntObj Q) :
  Permutation (nums (rank scores)) (JS.keys scores).
Proof.
  unfold rank, nums, JS.keys.
  eapply perm_trans; [apply Permutation_map, sort_by_perm|].
  rewrite map_map. simpl. apply Permutation_refl.
Qed.

(** A decade that has two of its numbers among the candidates ends the
    first pass with two selected numbers, unless the pass filled up. *)
Lemma decade_filled (ranked : list Candidate) (a b : Z) :
  NoDup (nums ranked) ->
  In a (nums ranked) -> In b (nums ranked) -> a <> b ->
  decade a = decade b ->
  (length (firstPass 5 ranked []) < 5)%nat ->
  (2 <= decadeCount (firstPass 5 ranked []) (decade a))%nat.
Proof.
  intros N Ha Hb Nab D L.
  apply in_map_iff in Ha. destruct Ha as [ca [Ea Ha]].
  apply in_map_iff in Hb. destruct Hb as [cb [Eb Hb]].
  destruct (firstPass_complete 5 ranked [] L ca Ha) as [Ia | Ca];
    [|rewrite Ea in Ca; exact Ca].
  destruct (firstPass_complete 5 ranked [] L cb Hb) as [Ib | Cb];
    [|rewrite Eb, <- D in Cb; exact Cb].
  unfold decadeCount. apply (two_members _ ca cb).
  - intros ->. congruence.
  - apply filter_In. split; [exact Ia|]. rewrite Ea. apply Z.eqb_refl.
  - apply filter_In. split; [exact Ib|]. rewrite Eb, D. apply Z.eqb_refl.
Qed.

Lemma firstPass_five (ranked : list Candidate) :
  Permutation (nums ranked) numbers_1_90 ->
  length (firstPass 5 ranked []) = 5%nat.
Proof.
  intros P.
  assert (N : NoDup (nums ranked)).
  { eapply Permutation_NoDup; [apply Permutation_sym, P|].
    apply numbers_1_90_NoDup. }
  assert (I : forall n, (1 <= n <= 90)%Z -> In n (nums ranked)).
  { intros n Hn. eapply Permutation_in; [apply Permutation_sym, P|].
    apply numbers_1_90_In, Hn. }
  assert (U : (length (firstPass 5 ranked []) <= 5)%nat)
    by (apply firstPass_length; simpl; lia).
  destruct (Nat.eq_dec (length (firstPass 5 ranked [])) 5) as [E | E];
    [exact E|].
  assert (L : (length (firstPass 5 ranked []) < 5)%nat) by lia.
  pose proof (decade_filled ranked 1 2 N) as D0.
  pose proof (decade_filled ranked 11 12 N) as D1.
  pose proof (decade_filled ranked 21 22 N) as D2.
  specialize (D0 (I 1%Z ltac:(lia)) (I 2%Z ltac:(lia)) ltac:(lia) eq_refl L).
  specialize (D1 (I 11%Z ltac:(lia)) (I 12%Z ltac:(lia)) ltac:(lia) eq_refl L).
  specialize (D2 (I 21%Z ltac:(lia)) (I 22%Z ltac:(lia)) ltac:(lia) eq_refl L).
  pose proof (three_decades (firstPass 5 ranked [])) as T.
  change (decade 1) with 0%Z in D0. change (decade 11) with 1%Z in D1.
  change (decade 21) with 2%Z in D2. lia.
Qed.

End Selector.

Lemma filter_length_perm (A : Type) (f : A -> bool) (l l' : list A) :
  Permutation l l' -> length (filter f l) = length (filter f l').
Proof.
  induction 1 as [|x l l' P IH|x y l|l l' l'' P1 IH1 P2 IH2]; simpl.
  - reflexivity.
  - destruct (f x); simpl; congruence.
  - destruct (f x); destruct (f y); reflexivity.
  - congruence.
Qed.

Lemma filter_map_length (A B : Type) (f : A -> B) (g : B -> bool)
      (l : list A) :
  length (filter g (map f l)) = length (filter (fun x => g (f x)) l).
Proof.
  induction l as [|x l IH]; simpl; [reflexivity|].
  destruct (g (f x)); simpl; congruence.
Qed.

Lemma balanced_five_perm (l l' : list Z) :
  Permutation l l' -> balanced_five l -> balanced_five l'.
Proof.
  intros P [L [N [R D]]]. repeat split.
  - rewrite <- L. symmetry. apply Permutation_length, P.
  - eapply Permutation_NoDup; eauto.
  - apply R. eapply Permutation_in; [apply Permutation_sym, P | exact H].
  - apply R. eapply Permutation_in; [apply Permutation_sym, P | exact H].
  - intros d. rewrite <- (filter_length_perm _ _ l l' P). apply D.
Qed.

Lemma selectTopNumbers_balanced (scores : JS.IntObj Q) :
  JS.keys scores = numbers_1_90 ->
  balanced_five
    (map CorrelationAnalyzer.cand_number
         (CorrelationAnalyzer.selectTopNumbers scores 5)).
Proof.
  intros K. unfold CorrelationAnalyzer.selectTopNumbers. cbv zeta.
  set (ranked := CorrelationAnalyzer.rank scores).
  assert (P : Permutation (map CorrelationAnalyzer.cand_number ranked)
                          numbers_1_90).
  { rewrite <- K. apply rank_numbers. }
  pose proof (firstPass_five ranked P) as L.
  rewrite secondPass_full by (rewrite L; apply Nat.le_refl).
  assert (N : NoDup (map CorrelationAnalyzer.cand_number ranked)).
  { eapply Permutation_NoDup; [apply Permutation_sym, P|].
    apply numbers_1_90_NoDup. }
  repeat split.
  - rewrite length_map. exact L.
  - apply firstPass_NoDup. simpl. exact N.
  - apply in_map_iff in H. destruct H as [c [<- Hc]].
    destruct (firstPass_extends 5 ranked []) as [more [E I]].
    rewrite E in Hc. simpl in Hc. apply I in Hc.
    apply numbers_1_90_In. eapply Permutation_in; [exact P|].
    apply in_map, Hc.
  - apply in_map_iff in H. destruct H as [c [<- Hc]].
    destruct (firstPass_extends 5 ranked []) as [more [E I]].
    rewrite E in Hc. simpl in Hc. apply I in Hc.
    apply numbers_1_90_In. eapply Permutation_in; [exact P|].
    apply in_map, Hc.
  - intros d.
    assert (D0 : forall d', (CorrelationAnalyzer.decadeCount [] d' <= 2)%nat)
      by (intros d'; unfold CorrelationAnalyzer.decadeCount; simpl; lia).
    pose proof (firstPass_decades 5 ranked [] D0 d) as D.
    unfold CorrelationAnalyzer.decadeCount in D.
    rewrite filter_map_length. exact D.
Qed.

Lemma boost_keys (bf : Q) (st : JS.IntObj Q * list Z)
      (c : CorrelationAnalyzer.Correlated) :
  StronglySorted Z.lt (JS.keys (fst st)) ->
  JS.keys (fst (CorrelationAnalyzer.boost bf st c)) = JS.keys (fst st).
Proof.
  intros S. unfold CorrelationAnalyzer.boost.
  destruct (JS.get (CorrelationAnalyzer.number c) (fst st)) as [s|] eqn:G;
    [|reflexivity].
  destruct (JS.truthy s); [|reflexivity].
  cbn [fst]. apply keys_set_present; [exact S|].
  eapply get_Some_In, G.
Qed.

Lemma boost_list_keys (bf : Q) (top : list CorrelationAnalyzer.Correlated)
      (st : JS.IntObj Q * list Z) :
  StronglySorted Z.lt (JS.keys (fst st)) ->
  JS.keys (fst (fold_left (CorrelationAnalyzer.boost bf) top st))
  = JS.keys (fst st).
Proof.
  revert st. induction top as [|c top IH]; intros st S; simpl;
    [reflexivity|].
  rewrite IH; [apply boost_keys, S|]. rewrite boost_keys; exact S.
Qed.

(** The booster leaves the keys of the score map as they are. *)
Lemma boostedScores_keys (draws : list Draw) (mainScores : JS.IntObj Q)
      (machinePrediction : list Z) (boostFactor : Q) :
  StronglySorted Z.lt (JS.keys mainScores) ->
  JS.keys (CorrelationAnalyzer.boostedScores
             (CorrelationAnalyzer.generateHybridPrediction
                draws mainScores machinePrediction boostFactor))
  = JS.keys mainScores.
Proof.
  intros S. unfold CorrelationAnalyzer.generateHybridPrediction,
              CorrelationAnalyzer.boost_all.
  cbn [CorrelationAnalyzer.boostedScores].
  generalize (@nil Z). revert mainScores S.
  induction machinePrediction as [|m mp IH]; intros scores S seen; simpl;
    [reflexivity|].
  set (st := fold_left (CorrelationAnalyzer.boost boostFactor)
                       (CorrelationAnalyzer.getTopCorrelatedWinning
                          (CorrelationAnalyzer.analyzeWinningMachineCorrelation
                             draws) m 10) (scores, seen)).
  assert (K : JS.keys (fst st) = JS.keys scores)
    by (apply (boost_list_keys boostFactor _ (scores, seen)), S).
  destruct st as [scores' seen']. cbn [fst] in K.
  rewrite IH; [exact K | rewrite K; exact S].
Qed.

(** C4.  On a score map over 1..90 the selector ([selectTopNumbers] with a
    count of 5, and the selection of the main and machine numbers in
    [generatePredictions]) returns five distinct numbers of 1..90 with at
    most two of them in any decade; so does the hybrid path, which selects
    from the boosted scores.  The first pass always finds the five numbers,
    so the bound of two holds whatever the number of decades with a
    non-zero score. *)
Theorem selector_returns_five_balanced (scores : JS.IntObj Q) :
  JS.keys scores = numbers_1_90 ->
  balanced_five
    (map CorrelationAnalyzer.cand_number
         (CorrelationAnalyzer.selectTopNumbers scores 5))
  /\ balanced_five
       (map CorrelationAnalyzer.cand_number (Server.selectBalanced scores))
  /\ balanced_five (Server.mainNumbers scores)
  /\ (forall draws machinePrediction boostFactor,
         balanced_five
           (Server.hybridSelection
              (CorrelationAnalyzer.boostedScores
                 (CorrelationAnalyzer.generateHybridPrediction
                    draws scores machinePrediction boostFactor)))).
Proof.
  intros K. pose proof (selectTopNumbers_balanced scores K) as B.
  split; [exact B|]. split; [exact B|]. split.
  - eapply balanced_five_perm; [|exact B].
    apply Permutation_sym, sort_by_perm.
  - intros draws machinePrediction boostFactor.
    eapply balanced_five_perm; [apply Permutation_sym, sort_by_perm|].
    apply selectTopNumbers_balanced.
    rewrite boostedScores_keys; [exact K|].
    rewrite K. apply numbers_1_90_sorted.
Qed.

(** The selector on the map that scores every number 0: the first five
    candidates that pass the decade rule are 1, 2, 11, 12 and 21. *)
Lemma selector_witness :
  JS.keys (map (fun i => (i, 0)) numbers_1_90) = numbers_1_90
  /\ Server.mainNumbers (map (fun i => (i, 0)) numbers_1_90)
     = [1; 2; 11; 12; 21]%Z
  /\ balanced_five (Server.mainNumbers (map (fun i => (i, 0)) numbers_1_90)).
Proof.
  split; [reflexivity|]. split; [vm_compute; reflexivity|].
  exact (proj1 (proj2 (proj2 (selector_returns_five_balanced
                                (map (fun i => (i, 0)) numbers_1_90)
                                eq_refl)))).
Defined.

(** ** The hybrid booster *)

Section Booster.

Import CorrelationAnalyzer.

Lemma keys_set_In (V : Type) (k x : Z) (v : V) (o : JS.IntObj V) :
  In x (JS.keys (JS.set k v o)) -> x = k \/ In x (JS.keys o).
Proof.
  induction o as [|[k' v'] o IH]; simpl.
  - intros [H | []]. left. symmetry. exact H.
  - destruct (k' =? k)%Z eqn:E.
    + apply Z.eqb_eq in E. subst. simpl. intros [H | H]; auto.
    + destruct (k <? k')%Z; simpl.
      * intros [H | [H | H]]; auto.
      * intros [H | H]; auto. apply IH in H. tauto.
Qed.

Lemma set_sorted (V : Type) (k : Z) (v : V) (o : JS.IntObj V) :
  StronglySorted Z.lt (JS.keys o) ->
  StronglySorted Z.lt (JS.keys (JS.set k v o)).
Proof.
  induction o as [|[k' v'] o IH]; simpl; intros S.
  - constructor; constructor.
  - inversion S as [|? ? S' F]; subst.
    destruct (k' =? k)%Z eqn:E.
    + apply Z.eqb_eq in E. subst. simpl. exact S.
    + destruct (k <? k')%Z eqn:L; simpl.
      * apply Z.ltb_lt in L. constructor; [exact S|].
        constructor; [exact L|].
        rewrite Forall_forall in F |- *. intros x Hx.
        specialize (F x Hx). lia.
      * apply Z.ltb_ge in L. apply Z.eqb_neq in E.
        constructor; [apply IH, S'|].
        rewrite Forall_forall in F |- *. intros x Hx.
        apply keys_set_In in Hx. destruct Hx as [-> | Hx];
          [lia | apply F, Hx].
Qed.

Lemma sorted_NoDup (l : list Z) : StronglySorted Z.lt l -> NoDup l.
Proof.
  induction 1 as [|x l S IH F]; constructor; [|exact IH].
  intros Hx. rewrite Forall_forall in F. specialize (F x Hx). lia.
Qed.

Lemma In_set (V : Type) (k : Z) (v : V) (o : JS.IntObj V) (e : Z * V) :
  In e (JS.set k v o) -> e = (k, v) \/ In e o.
Proof.
  induction o as [|[k' v'] o IH]; simpl.
  - intros [H | []]. left. symmetry. exact H.
  - destruct (k' =? k)%Z.
    + simpl. intros [H | H]; auto.
    + destruct (k <? k')%Z; simpl.
      * intros [H | [H | H]]; auto.
      * intros [H | H]; auto. apply IH in H. tauto.
Qed.

Lemma get_In (V : Type) (k : Z) (v : V) (o : JS.IntObj V) :
  JS.get k o = Some v -> In (k, v) o.
Proof.
  induction o as [|[k' v'] o IH]; simpl; [discriminate|].
  destruct (k' =? k)%Z eqn:E.
  - apply Z.eqb_eq in E. subst. intros H. inversion H. left. reflexivity.
  - intros H. right. apply IH, H.
Qed.

Lemma row_sorted (c : Matrix) (m : Z) :
  rows_sorted c -> StronglySorted Z.lt (JS.keys (row c m)).
Proof.
  intros W. unfold row. destruct (JS.get m c) as [r|] eqn:G.
  - apply get_In in G. apply (W _ G).
  - constructor.
Qed.

Lemma set_rows_sorted (c : Matrix) (m : Z) (r : JS.IntObj Z) :
  rows_sorted c -> StronglySorted Z.lt (JS.keys r) ->
  rows_sorted (JS.set m r c).
Proof.
  intros W S e He. apply In_set in He. destruct He as [-> | He].
  - exact S.
  - apply W, He.
Qed.

Lemma bump_cell_sorted (c : Matrix) (m w : Z) :
  rows_sorted c -> rows_sorted (bump_cell m w c).
Proof.
  intros W. unfold bump_cell. apply set_rows_sorted; [exact W|].
  apply set_sorted, row_sorted, W.
Qed.

Lemma add_machine_sorted (ws : list Z) (c : Matrix) (m : Z) :
  rows_sorted c -> rows_sorted (add_machine ws c m).
Proof.
  intros W. unfold add_machine.
  assert (W' : rows_sorted (match JS.get m c with
                            | Some _ => c
                            | None => JS.set m [] c
                            end)).
  { destruct (JS.get m c); [exact W|].
    apply set_rows_sorted; [exact W | constructor]. }
  revert W'. generalize (match JS.get m c with
                         | Some _ => c
                         | None => JS.set m [] c
                         end).
  induction ws as [|w ws IH]; intros c' W'; simpl; [exact W'|].
  apply IH, bump_cell_sorted, W'.
Qed.

Lemma add_draw_sorted (c : Matrix) (d : Draw) :
  rows_sorted c -> rows_sorted (add_draw c d).
Proof.
  intros W. unfold add_draw.
  destruct (negb (length (non_null (machine_columns d)) =? 5)%nat
            || negb (length (non_null (winning_columns d)) =? 5)%nat);
    [exact W|].
  revert c W. induction (non_null (machine_columns d)) as [|m ms IH];
    intros c W; simpl; [exact W|].
  apply IH, add_machine_sorted, W.
Qed.

Lemma analyze_rows_sorted (draws : list Draw) :
  rows_sorted (analyzeWinningMachineCorrelation draws).
Proof.
  unfold analyzeWinningMachineCorrelation.
  assert (G : forall c, rows_sorted c -> rows_sorted (fold_left add_draw draws c)).
  { induction draws as [|d draws IH]; intros c W; simpl; [exact W|].
    apply IH, add_draw_sorted, W. }
  apply G. intros e [].
Qed.

Lemma firstn_NoDup (A : Type) (n : nat) (l : list A) :
  NoDup l -> NoDup (firstn n l).
Proof.
  intros N. rewrite <- (firstn_skipn n l) in N.
  apply NoDup_app_remove_r in N. exact N.
Qed.

Lemma top_NoDup (c : Matrix) (m : Z) (n : nat) :
  rows_sorted c -> NoDup (map number (getTopCorrelatedWinning c m n)).
Proof.
  intros W. unfold getTopCorrelatedWinning, JS.slice.
  rewrite <- firstn_map. apply firstn_NoDup.
  eapply Permutation_NoDup.
  - apply Permutation_map, Permutation_sym, sort_by_perm.
  - rewrite map_map. simpl. apply sorted_NoDup, row_sorted, W.
Qed.

Lemma boost_score (bf : Q) (st : JS.IntObj Q * list Z) (c : Correlated)
      (m : Z) :
  Brain.score_at (fst (boost bf st c)) m
  == Brain.score_at (fst st) m * (if (number c =? m)%Z then bf else 1).
Proof.
  unfold boost, Brain.score_at.
  destruct (JS.get (number c) (fst st)) as [s|] eqn:G.
  - destruct (JS.truthy s) eqn:T; simpl.
    + rewrite get_set. destruct (number c =? m)%Z eqn:E.
      * apply Z.eqb_eq in E. subst m. rewrite G. reflexivity.
      * ring.
    + destruct (number c =? m)%Z eqn:E; [|ring].
      apply Z.eqb_eq in E. subst m. rewrite G.
      unfold JS.truthy in T. apply negb_false_iff, Qeq_bool_iff in T.
      rewrite T. ring.
  - destruct (number c =? m)%Z eqn:E; [|ring].
    apply Z.eqb_eq in E. subst m. rewrite G. ring.
Qed.

Lemma boost_list_score (bf : Q) (top : list Correlated)
      (st : JS.IntObj Q * list Z) (m : Z) :
  NoDup (map number top) ->
  Brain.score_at (fst (fold_left (boost bf) top st)) m
  == Brain.score_at (fst st) m
     * (if existsb (fun c => (number c =? m)%Z) top then bf else 1).
Proof.
  revert st. induction top as [|c top IH]; intros st N; simpl.
  - ring.
  - inversion N as [|? ? Hn N']; subst.
    rewrite IH by exact N'. rewrite boost_score.
    destruct (number c =? m)%Z eqn:E; simpl.
    + replace (existsb (fun c0 => (number c0 =? m)%Z) top) with false; [ring|].
      symmetry. apply not_true_iff_false. intros X.
      apply existsb_exists in X. destruct X as [c' [Hc' E']].
      apply Z.eqb_eq in E, E'. apply Hn. rewrite E, <- E'.
      apply in_map, Hc'.
    + ring.
Qed.

Lemma boost_all_score (correlations : Matrix) (bf : Q) (mp : list Z)
      (st : JS.IntObj Q * list Z) (w : Z) :
  rows_sorted correlations ->
  Brain.score_at
    (fst (fold_left
            (fun st machineNum =>
               fold_left (boost bf)
                         (getTopCorrelatedWinning correlations machineNum 10)
                         st)
            mp st)) w
  == Brain.score_at (fst st) w * power bf (recommenders correlations mp w).
Proof.
  intros W. revert st. induction mp as [|m mp IH]; intros st.
  - simpl. ring.
  - cbn [fold_left]. rewrite IH. rewrite boost_list_score by (apply top_NoDup, W).
    unfold recommenders. cbn [filter]. unfold recommends at 2.
    destruct (existsb (fun c => (number c =? w)%Z)
                      (getTopCorrelatedWinning correlations m 10)); simpl; ring.
Qed.

End Booster.

(** C2, as the code has it.  In the hybrid booster the score of a winning
    number [w] of the main score map is multiplied by [boostFactor] once
    for every entry of the machine prediction that has [w] among its ten
    most correlated winning numbers: with [k] such entries the boosted
    score is the main score times [boostFactor] to the power [k]. *)
Theorem hybrid_boost_once_per_recommender
        (draws : list Draw) (mainScores : JS.IntObj Q)
        (machinePrediction : list Z) (boostFactor : Q) (w : Z) :
  Brain.score_at
    (CorrelationAnalyzer.boostedScores
       (CorrelationAnalyzer.generateHybridPrediction
          draws mainScores machinePrediction boostFactor)) w
  == Brain.score_at mainScores w
     * power boostFactor
             (recommenders
                (CorrelationAnalyzer.analyzeWinningMachineCorrelation draws)
                machinePrediction w).
Proof.
  unfold CorrelationAnalyzer.generateHybridPrediction,
    CorrelationAnalyzer.boost_all. simpl.
  rewrite boost_all_score by apply analyze_rows_sorted. reflexivity.
Qed.

(** C2 fails as stated: the machine numbers 10 and 20 both recommend 17,
    and the score of 17 is multiplied by 1.3 twice (1.69), not once. *)
Lemma hybrid_boost_twice :
  recommenders
    (CorrelationAnalyzer.analyzeWinningMachineCorrelation [draw_10_20_with_17])
    [10; 20; 30; 40; 50]%Z 17 = 2%nat
  /\ Brain.score_at all_ones 17 == 1
  /\ Brain.score_at
       (CorrelationAnalyzer.boostedScores
          (CorrelationAnalyzer.generateHybridPrediction
             [draw_10_20_with_17] all_ones [10; 20; 30; 40; 50]%Z 1.3)) 17
     == 1.69
  /\ ~ Brain.score_at
         (CorrelationAnalyzer.boostedScores
            (CorrelationAnalyzer.generateHybridPrediction
               [draw_10_20_with_17] all_ones [10; 20; 30; 40; 50]%Z 1.3)) 17
       == Brain.score_at all_ones 17 * 1.3.
Proof.
  split; [vm_compute; reflexivity|].
  split; [vm_compute; reflexivity|].
  split; [vm_compute; reflexivity|].
  vm_compute. discriminate.
Qed.

(** ** Weights after [learn] and after [loadBrain] *)

Section Weights.

Import Brain.

Lemma fold_Qplus_acc (l : list Q) (a : Q) :
  fold_left Qplus l a == a + fold_left Qplus l 0.
Proof.
  revert a. induction l as [|x l IH]; intros a; simpl.
  - ring.
  - rewrite IH. rewrite (IH (0 + x)). ring.
Qed.

Lemma sum_cons (x : Q) (l : list Q) : JS.sum (x :: l) == x + JS.sum l.
Proof. unfold JS.sum. simpl. rewrite fold_Qplus_acc. ring. Qed.

Lemma sum_nonneg (l : list Q) :
  (forall x, In x l -> 0 <= x) -> 0 <= JS.sum l.
Proof.
  induction l as [|x l IH]; intros H.
  - unfold JS.sum. simpl. lra.
  - rewrite sum_cons.
    assert (0 <= x) by (apply H; left; reflexivity).
    assert (0 <= JS.sum l) by (apply IH; intros y Hy; apply H; right; exact Hy).
    lra.
Qed.

Lemma sum_member (l : list Q) (x : Q) :
  (forall y, In y l -> 0 <= y) -> In x l -> x <= JS.sum l.
Proof.
  induction l as [|y l IH]; intros H Hx; [destruct Hx|].
  rewrite sum_cons.
  assert (Hy : 0 <= y) by (apply H; left; reflexivity).
  assert (Hl : 0 <= JS.sum l)
    by (apply sum_nonneg; intros z Hz; apply H; right; exact Hz).
  destruct Hx as [-> | Hx].
  - lra.
  - assert (x <= JS.sum l)
      by (apply IH; [intros z Hz; apply H; right; exact Hz | exact Hx]).
    lra.
Qed.

Lemma round_half_away_close (q : Q) :
  q - (1 # 2) <= inject_Z (JS.round_half_away q) <= q + (1 # 2).
Proof.
  unfold JS.round_half_away. destruct (Qle_bool 0 q).
  - pose proof (Qfloor_le (q + (1 # 2))) as L.
    pose proof (Qlt_floor (q + (1 # 2))) as U.
    rewrite inject_Z_plus in U. change (inject_Z 1) with 1 in U. lra.
  - pose proof (Qfloor_le (- q + (1 # 2))) as L.
    pose proof (Qlt_floor (- q + (1 # 2))) as U.
    rewrite inject_Z_plus in U. change (inject_Z 1) with 1 in U.
    rewrite inject_Z_opp. lra.
Qed.

Lemma toFixed2_eq (q : Q) :
  JS.toFixed 2 q == inject_Z (JS.round_half_away (q * 100)) / 100.
Proof.
  unfold JS.toFixed. change (10 ^ Z.of_nat 2)%Z with 100%Z.
  change (inject_Z 100) with 100. change (Z.to_pos 100) with 100%positive.
  rewrite Qmake_Qdiv. reflexivity.
Qed.

Lemma toFixed2_close (q : Q) :
  q - 0.005 <= JS.toFixed 2 q <= q + 0.005.
Proof.
  rewrite toFixed2_eq. pose proof (round_half_away_close (q * 100)) as [L U].
  set (r := inject_Z (JS.round_half_away (q * 100))) in *.
  split.
  - apply Qle_shift_div_l; [reflexivity | lra].
  - apply Qle_shift_div_r; [reflexivity | lra].
Qed.

Lemma toFixed2_unit (q : Q) : 0 <= q <= 1 -> 0 <= JS.toFixed 2 q <= 1.
Proof.
  intros [L U]. rewrite toFixed2_eq. unfold JS.round_half_away.
  assert (P : Qle_bool 0 (q * 100) = true) by (apply Qle_bool_iff; lra).
  rewrite P.
  assert (F0 : (0 <= Qfloor (q * 100 + (1 # 2)))%Z).
  { apply Z.le_trans with (Qfloor 0); [discriminate|].
    apply Qfloor_resp_le. lra. }
  assert (F1 : (Qfloor (q * 100 + (1 # 2)) <= 100)%Z).
  { apply Z.le_trans with (Qfloor (100 + (1 # 2))); [|discriminate].
    apply Qfloor_resp_le. lra. }
  split.
  - apply Qle_shift_div_l; [reflexivity|].
    rewrite Qmult_0_l. change 0 with (inject_Z 0). rewrite <- Zle_Qle. exact F0.
  - apply Qle_shift_div_r; [reflexivity|].
    change (1 * 100) with (inject_Z 100). rewrite <- Zle_Qle. exact F1.
Qed.

Lemma normalize_sum_close (sum : Q) (l : list (string * Q)) :
  let l' := map (fun kv => (fst kv, JS.toFixed 2 (snd kv / sum))) l in
  JS.sum (map snd l) / sum - inject_Z (Z.of_nat (length l)) * 0.005
  <= JS.sum (map snd l')
  <= JS.sum (map snd l) / sum + inject_Z (Z.of_nat (length l)) * 0.005.
Proof.
  simpl. induction l as [|[k v] l IH].
  - unfold JS.sum. simpl. unfold Qdiv. rewrite Qmult_0_l.
    change (inject_Z 0) with 0. lra.
  - cbn [map fst snd length]. rewrite !sum_cons.
    rewrite Nat2Z.inj_succ, <- Z.add_1_r, inject_Z_plus.
    change (inject_Z 1) with 1.
    pose proof (toFixed2_close (v / sum)) as [L U].
    assert (E : (v + JS.sum (map snd l)) / sum
                == v / sum + JS.sum (map snd l) / sum)
      by (unfold Qdiv; ring).
    rewrite E. lra.
Qed.

Lemma normalize_normalized (w : Weights) :
  (forall kv, In kv w -> 0 <= snd kv) ->
  0 < JS.sum (map snd w) ->
  normalized_weights (normalize w).
Proof.
  intros N P. unfold normalize. set (sum := JS.sum (map snd w)) in *.
  split.
  - intros kv Hkv. apply in_map_iff in Hkv. destruct Hkv as [[k v] [<- Hin]].
    cbn [fst snd]. split.
    + eexists. apply toFixed2_eq.
    + apply toFixed2_unit. split.
      * apply Qle_shift_div_l; [exact P|]. rewrite Qmult_0_l.
        apply (N _ Hin).
      * apply Qle_shift_div_r; [exact P|]. rewrite Qmult_1_l.
        apply sum_member.
        -- intros y Hy. apply in_map_iff in Hy. destruct Hy as [kv [<- Hy]].
           apply N, Hy.
        -- apply (in_map snd _ _ Hin).
  - rewrite length_map. apply Qabs_Qle_condition.
    pose proof (normalize_sum_close sum w) as [L U]. fold sum in L, U.
    assert (E : sum / sum == 1) by (apply Qmult_inv_r; lra).
    rewrite E in L, U. lra.
Qed.

Lemma clamp_bounds (w : Q) : 0.05 <= JS.max 0.05 (JS.min 0.60 w) <= 0.60.
Proof.
  unfold JS.max, JS.min.
  destruct (Qle_bool 0.60 w) eqn:A.
  - simpl. split; [discriminate | apply Qle_refl].
  - destruct (Qle_bool 0.05 w) eqn:B.
    + apply Qle_bool_iff in B. split; [exact B|].
      destruct (Qlt_le_dec w 0.60) as [L | L]; [lra|].
      apply Qle_bool_iff in L. congruence.
    + split; [apply Qle_refl | discriminate].
Qed.

Lemma tune_key (stratScores : list (string * Q)) (kv : string * Q) :
  fst (tune stratScores kv) = fst kv.
Proof. unfold tune. destruct (String.eqb (fst kv) "lstm"); reflexivity. Qed.

Lemma tune_clamped (stratScores : list (string * Q)) (kv : string * Q) :
  fst kv <> "lstm"%string ->
  0.05 <= snd (tune stratScores kv) <= 0.60.
Proof.
  intros H. unfold tune. apply String.eqb_neq in H. rewrite H.
  cbn [snd]. apply clamp_bounds.
Qed.

Lemma tune_nonneg (stratScores : list (string * Q)) (kv : string * Q) :
  0 <= snd kv -> 0 <= snd (tune stratScores kv).
Proof.
  intros H. destruct (String.eqb (fst kv) "lstm") eqn:E.
  - unfold tune. rewrite E. exact H.
  - apply String.eqb_neq in E.
    pose proof (tune_clamped stratScores kv E). lra.
Qed.

Lemma adjustWeights_normalized (stratScores : list (string * Q))
      (w : Weights) :
  (forall kv, In kv w -> 0 <= snd kv) ->
  (exists kv, In kv w /\ fst kv <> "lstm"%string) ->
  normalized_weights (adjustWeights stratScores w).
Proof.
  intros N [kv [Hin Hk]]. unfold adjustWeights.
  assert (N' : forall x, In x (map snd (map (tune stratScores) w)) -> 0 <= x).
  { intros x Hx. apply in_map_iff in Hx. destruct Hx as [e [<- He]].
    apply in_map_iff in He. destruct He as [e0 [<- He0]].
    apply tune_nonneg, N, He0. }
  apply normalize_normalized.
  - intros e He. apply N'. apply in_map, He.
  - pose proof (tune_clamped stratScores kv Hk) as [L _].
    assert (M : snd (tune stratScores kv)
                <= JS.sum (map snd (map (tune stratScores) w))).
    { apply sum_member; [exact N'|]. apply in_map, in_map, Hin. }
    lra.
Qed.

Lemma inject_spec (defs : list (string * Q)) (w : Weights) (b : bool) :
  exists added,
    fold_left inject_key defs (w, b)
    = (w ++ added, b || negb (length added =? 0)%nat)
    /\ (forall kv, In kv added -> In kv defs).
Proof.
  revert w b. induction defs as [|d defs IH]; intros w b; cbn [fold_left].
  - exists []. rewrite app_nil_r, orb_false_r. split; [reflexivity | simpl; tauto].
  - assert (S : inject_key (w, b) d
                = match lookup (fst d) w with
                  | None => (w ++ [d], true)
                  | Some _ => (w, b)
                  end) by reflexivity.
    rewrite S. clear S. destruct (lookup (fst d) w).
    + destruct (IH w b) as [added [E I]]. exists added.
      split; [exact E | intros kv Hkv; right; apply I, Hkv].
    + destruct (IH (w ++ [d]) true) as [added [E I]]. exists (d :: added).
      split.
      * etransitivity; [exact E|].
        rewrite <- app_assoc. simpl. rewrite orb_true_r. reflexivity.
      * intros kv [Hkv | Hkv]; [left; exact Hkv | right; apply I, Hkv].
Qed.

Lemma defaultWeights_positive (kv : string * Q) :
  In kv defaultWeights -> 0 < snd kv.
Proof.
  unfold defaultWeights. simpl.
  intros H. repeat (destruct H as [<- | H]; [reflexivity|]). destruct H.
Qed.

Lemma migrateWeights_normalized (w : Weights) :
  (forall kv, In kv w -> 0 <= snd kv) ->
  snd (injectDefaults w) = true ->
  normalized_weights (migrateWeights w).
Proof.
  intros N C. unfold migrateWeights. unfold injectDefaults in *.
  destruct (inject_spec defaultWeights w false) as [added [E I]].
  rewrite E in *. cbn [snd] in C. rewrite C.
  destruct added as [|d added]; [discriminate|].
  assert (N' : forall x, In x (map snd (w ++ d :: added)) -> 0 <= x).
  { intros x Hx. apply in_map_iff in Hx. destruct Hx as [e [<- He]].
    apply in_app_or in He. destruct He as [He | He]; [apply N, He|].
    apply Qlt_le_weak, defaultWeights_positive, I, He. }
  apply normalize_normalized.
  - intros e He. apply N'. apply in_map, He.
  - assert (P : 0 < snd d)
      by (apply defaultWeights_positive, I; left; reflexivity).
    assert (M : snd d <= JS.sum (map snd (w ++ d :: added))).
    { apply sum_member; [exact N'|]. apply in_map, in_or_app.
      right. left. reflexivity. }
    lra.
Qed.

End Weights.

(** C1, as the code has it.  A Learn step on a brain whose weights are not
    negative and which has a strategy other than [lstm] clamps every tuned
    weight into [0.05, 0.60] and then normalises: the weights it saves are
    whole numbers of hundredths between 0 and 1, and they add up to 1
    within half a hundredth per key (0.04 for the eight keys).  The same
    holds after [loadBrain] has injected a missing default key into weights
    that are not negative. *)
Theorem brain_weights_normalized_to_hundredths :
  (forall analyzeCycles strategies now brain actualDraw allDraws drawTypeId
          type,
      (forall kv, In kv (Brain.weights brain) -> 0 <= snd kv) ->
      (exists kv, In kv (Brain.weights brain) /\ fst kv <> "lstm"%string) ->
      normalized_weights
        (Brain.weights
           (Brain.learn analyzeCycles strategies now brain actualDraw
                        allDraws drawTypeId type)))
  /\ (forall stratScores kv,
         fst kv <> "lstm"%string ->
         0.05 <= snd (Brain.tune stratScores kv) <= 0.60)
  /\ (forall w,
         (forall kv, In kv w -> 0 <= snd kv) ->
         snd (Brain.injectDefaults w) = true ->
         normalized_weights (Brain.migrateWeights w)).
Proof.
  split; [|split].
  - intros. unfold Brain.learn. cbn [Brain.weights].
    apply adjustWeights_normalized; assumption.
  - apply tune_clamped.
  - apply migrateWeights_normalized.
Qed.

(** A Learn step on the default brain. *)
Lemma brain_weights_witness :
  normalized_weights
    (Brain.weights
       (Brain.learn no_cycles silent_pool 0 Brain.defaultBrain
                    [85; 86; 87; 88; 89]%Z [] None winning)).
Proof.
  apply (proj1 brain_weights_normalized_to_hundredths).
  - intros kv H. apply Qlt_le_weak. apply defaultWeights_positive. exact H.
  - exists ("hot"%string, 0.15). split; [left; reflexivity | discriminate].
Defined.

(** C1 fails as stated.  From the default weights, a draw that no strategy
    came near leaves weights that add up to 1.01; and from weights that add
    up to 1 with every weight in [0.05, 0.60], a draw found by every
    strategy but [hot] leaves [hot] at 0.03. *)
Lemma learn_weights_leave_the_invariant :
  JS.sum (map snd (Brain.adjustWeights no_hit Brain.defaultWeights)) == 1.01
  /\ ~ Qabs (JS.sum (map snd (Brain.adjustWeights no_hit Brain.defaultWeights))
             - 1) <= 1e-6
  /\ Brain.weights
       (Brain.learn no_cycles silent_pool 0 Brain.defaultBrain
                    [85; 86; 87; 88; 89]%Z [] None winning)
     = Brain.adjustWeights no_hit Brain.defaultWeights
  /\ JS.sum (map snd lstm_heavy) == 1
  /\ (forall kv, In kv lstm_heavy -> 0.05 <= snd kv <= 0.60)
  /\ Brain.weight (Brain.adjustWeights all_but_hot lstm_heavy) "hot" == 0.03
  /\ ~ 0.05 <= Brain.weight (Brain.adjustWeights all_but_hot lstm_heavy) "hot".
Proof.
  split; [vm_compute; reflexivity|].
  split; [vm_compute; intros H; apply H; reflexivity|].
  split; [vm_compute; reflexivity|].
  split; [vm_compute; reflexivity|].
  split.
  { intros kv H. unfold lstm_heavy in H. simpl in H.
    repeat (destruct H as [<- | H]; [split; discriminate|]). destruct H. }
  split; [vm_compute; reflexivity|].
  vm_compute. intros H. apply H. reflexivity.
Qed.

(** ** Lift and the correlation strategy *)

Section Correlation.

Lemma set_add_In (n m : Z) (s : list Z) :
  In n (JS.set_add m s) -> In n s \/ n = m.
Proof.
  unfold JS.set_add. destruct (JS.includes s m); [tauto|].
  intros H. apply in_app_or in H. destruct H as [H | [H | []]]; auto.
Qed.

Lemma add_pair_numbers_In (count : nat) (nums selected : list Z) (n : Z) :
  In n (Backtester.add_pair_numbers count nums selected) ->
  In n selected \/ In n nums.
Proof.
  revert selected. induction nums as [|m nums IH]; intros selected; simpl;
    [tauto|].
  destruct (count <=? length (JS.set_add m selected))%nat.
  - intros H. apply set_add_In in H. destruct H; auto.
  - intros H. apply IH in H. destruct H as [H | H]; [|auto].
    apply set_add_In in H. destruct H; auto.
Qed.

Lemma walk_pairs_In (count : nat) (pairs : list AdvancedAnalyzer.Combo)
      (selected : list Z) (n : Z) :
  In n (Backtester.walk_pairs count pairs selected) ->
  In n selected
  \/ exists p, In p pairs /\ In n (AdvancedAnalyzer.numbers p).
Proof.
  revert selected. induction pairs as [|p pairs IH]; intros selected; simpl;
    [tauto|].
  destruct (count <=? length (Backtester.add_pair_numbers
                                count (AdvancedAnalyzer.numbers p) selected))%nat.
  - intros H. apply add_pair_numbers_In in H. destruct H as [H | H]; [auto|].
    right. exists p. auto.
  - intros H. apply IH in H. destruct H as [H | [q [Hq Hn]]].
    + apply add_pair_numbers_In in H. destruct H as [H | H]; [auto|].
      right. exists p. auto.
    + right. exists q. auto.
Qed.

End Correlation.

(** C6, as the code has it.  The lift analysis ([calculateLift] of
    statistical-analyzer.js) keeps a pair only when its co-occurrence count
    is at least 3 and its lift, count * N / (count(a) * count(b)), is above
    1.2.  The correlation strategy does not use that analysis: every number
    it returns belongs to one of the pairs of [analyzeCorrelations], which
    are the first 20 pairs in descending order of co-occurrence count, with
    no threshold on the count or the lift. *)
Theorem lift_filter_and_correlation_pairs :
  (forall draws key l,
      In (key, l) (StatisticalAnalyzer.calculateLift draws) ->
      In (key, StatisticalAnalyzer.count l)
         (StatisticalAnalyzer.pairFreq_of draws)
      /\ (3 <= StatisticalAnalyzer.count l)%Z
      /\ 1.2 < StatisticalAnalyzer.raw_lift
                 (length draws) (StatisticalAnalyzer.freq_of draws)
                 (StatisticalAnalyzer.a l) (StatisticalAnalyzer.b l)
                 (StatisticalAnalyzer.count l))
  /\ (forall draws count type n,
         In n (Backtester.strategyCorrelationBased draws count type) ->
         exists p,
           In p (AdvancedAnalyzer.topPairs
                   (AdvancedAnalyzer.analyzeCorrelations draws type))
           /\ In n (AdvancedAnalyzer.numbers p))
  /\ (forall draws type,
         map (fun p => (AdvancedAnalyzer.numbers p, AdvancedAnalyzer.count p))
             (AdvancedAnalyzer.topPairs
                (AdvancedAnalyzer.analyzeCorrelations draws type))
         = JS.slice 20
             (JS.sort_by (fun y x : list Z * Z => (snd x <? snd y)%Z)
                         (AdvancedAnalyzer.pairCounts draws type))).
Proof.
  split; [|split].
  - intros draws key l H. unfold StatisticalAnalyzer.calculateLift in H.
    destruct (length draws <? 10)%nat; [destruct H|].
    apply in_flat_map in H. destruct H as [[k c] [Hin H]]. cbn [fst snd] in H.
    destruct ((3 <=? c)%Z
              && JS.Qltb 1.2
                   (StatisticalAnalyzer.raw_lift
                      (length draws) (StatisticalAnalyzer.freq_of draws)
                      (nth 0 k 0%Z) (nth 1 k 0%Z) c)) eqn:F; [|destruct H].
    destruct H as [H | []]. inversion H; subst. cbn.
    apply andb_true_iff in F. destruct F as [F1 F2].
    split; [exact Hin|]. split; [apply Z.leb_le, F1|].
    unfold JS.Qltb in F2. apply negb_true_iff in F2.
    match goal with |- ?x < ?y => destruct (Qlt_le_dec x y) as [L | L] end;
      [exact L|].
    apply Qle_bool_iff in L. congruence.
  - intros draws count type n H.
    unfold Backtester.strategyCorrelationBased in H.
    apply sort_by_In in H. apply slice_In in H. apply walk_pairs_In in H.
    destruct H as [[] | H]. exact H.
  - intros draws type. unfold AdvancedAnalyzer.analyzeCorrelations.
    cbn [AdvancedAnalyzer.topPairs]. unfold AdvancedAnalyzer.top.
    rewrite map_map. cbn.
    rewrite (map_ext _ (fun e : list Z * Z => e)); [apply map_id|].
    intros [k c]. reflexivity.
Qed.

(** C6 fails as stated: over ten draws of 1, 2, 3, 4, 5 every pair has the
    lift 1, the lift analysis keeps no pair, and the correlation strategy
    returns the five numbers all the same. *)
Lemma correlation_strategy_ignores_lift :
  StatisticalAnalyzer.calculateLift
    (map (fun d => Backtester.extractNumbers d winning) ten_times_1_to_5) = []
  /\ StatisticalAnalyzer.raw_lift
       10 (StatisticalAnalyzer.freq_of
             (map (fun d => Backtester.extractNumbers d winning)
                  ten_times_1_to_5)) 1 2 10 == 1
  /\ Backtester.strategyCorrelationBased ten_times_1_to_5 5 winning
     = [1; 2; 3; 4; 5]%Z.
Proof.
  split; [vm_compute; reflexivity|].
  split; vm_compute; reflexivity.
Qed.

(** ** The draw store adapter *)

(** C8, as the code has it.  [getDrawsData] throws the error "Failed to
    fetch draws data" to its caller exactly when the cache, after the
    attempt to refresh it, has no draw for the request and the direct fetch
    reports an error.  It answers from the cache whenever the cache has a
    draw for the request, and it returns an empty sequence only when the
    direct fetch succeeded with no row. *)
Theorem getDrawsData_throws_on_direct_fetch_error
        (store : Server.Store) (now : Z) (drawTypeId : Server.DrawTypeParam)
        (st : Server.CacheState) :
  (fst (Server.getDrawsData store now drawTypeId st)
   = Thrown "Failed to fetch draws data"
   <-> Server.from_cache drawTypeId (Server.refresh store now st) = []
       /\ Server.error (Server.direct store (Server.filter_id drawTypeId))
          <> None)
  /\ (fst (Server.getDrawsData store now drawTypeId st) = Returned []
      <-> Server.from_cache drawTypeId (Server.refresh store now st) = []
          /\ Server.error (Server.direct store (Server.filter_id drawTypeId))
             = None
          /\ Server.data (Server.direct store (Server.filter_id drawTypeId))
             = Some [])
  /\ (Server.from_cache drawTypeId (Server.refresh store now st) = []
      \/ fst (Server.getDrawsData store now drawTypeId st)
         = Returned (Server.from_cache drawTypeId
                                       (Server.refresh store now st))).
Proof.
  unfold Server.getDrawsData.
  destruct (Server.from_cache drawTypeId (Server.refresh store now st))
    as [|d ds] eqn:C; cbn [length Nat.ltb Nat.leb fst].
  - unfold Server.directFetch.
    destruct (Server.error (Server.direct store (Server.filter_id drawTypeId)))
      as [e|]; [|destruct (Server.data
                             (Server.direct store
                                            (Server.filter_id drawTypeId)))
                   as [[|r rows]|]]; cbn [map fst].
    + repeat split; try discriminate; auto.
      * intros [_ [H _]]. discriminate.
    + repeat split; try discriminate; auto.
      intros [_ H]. contradiction.
    + repeat split; try discriminate; auto.
      * intros [_ H]. contradiction.
      * intros [_ [_ H]]. discriminate.
    + repeat split; try discriminate; auto.
      * intros [_ H]. contradiction.
      * intros [_ [_ H]]. discriminate.
  - repeat split; try discriminate; auto.
    + intros [H _]. discriminate.
    + intros [H _]. discriminate.
Qed.

(** C8 fails as stated: with nothing cached and a store that answers every
    query with an error, the adapter throws. *)
Lemma adapter_throws_when_store_fails :
  fst (Server.getDrawsData failing_store 0 Server.NoType nothing_cached)
  = Thrown "Failed to fetch draws data"
  /\ fst (Server.getDrawsData failing_store 0 Server.NoType nothing_cached)
     <> Returned [].
Proof. split; [reflexivity | discriminate]. Qed.

(** ** The evaluate operation *)




(** ** The verification loop *)

Section Verification.

Import Server.

Lemma insert_newest_first (x : Draw) (l : list Draw) :
  StronglySorted (fun y z => (draw_date z <= draw_date y)%Z) l ->
  StronglySorted (fun y z => (draw_date z <= draw_date y)%Z)
    (JS.insert_by (fun y z => (draw_date z <? draw_date y)%Z) x l).
Proof.
  induction 1 as [|y l S IH F]; simpl.
  - constructor; constructor.
  - destruct (draw_date x <? draw_date y)%Z eqn:E.
    + apply Z.ltb_lt in E. constructor; [exact IH|].
      rewrite Forall_forall in F |- *. intros z Hz.
      apply (Permutation_in _ (insert_by_perm _ _ x l)) in Hz.
      destruct Hz as [<- | Hz]; [lia | apply F, Hz].
    + apply Z.ltb_ge in E. constructor; [constructor; assumption|].
      constructor; [exact E|].
      rewrite Forall_forall in F |- *. intros z Hz. specialize (F z Hz). lia.
Qed.

Lemma recentDraws_newest_first (table : list Draw) (now : Z) :
  StronglySorted (fun y z => (draw_date z <= draw_date y)%Z)
                 (recentDraws table now).
Proof.
  unfold recentDraws, JS.sort_by.
  induction (filter (fun d => (day_of (sevenDaysAgo now) <=? draw_date d)%Z)
                    table) as [|d l IH]; simpl.
  - constructor.
  - apply insert_newest_first, IH.
Qed.

Lemma recentDraws_In (table : list Draw) (now : Z) (d : Draw) :
  In d (recentDraws table now)
  <-> In d table /\ (day_of (sevenDaysAgo now) <= draw_date d)%Z.
Proof.
  unfold recentDraws. rewrite sort_by_In, filter_In, Z.leb_le. reflexivity.
Qed.

Lemma find_first_of_sorted (f : Draw -> bool) (l : list Draw) (t : Draw) :
  StronglySorted (fun y z => (draw_date z <= draw_date y)%Z) l ->
  find f l = Some t ->
  In t l /\ f t = true
  /\ (forall d, In d l -> f d = true -> (draw_date d <= draw_date t)%Z).
Proof.
  induction 1 as [|y l S IH F]; simpl; [discriminate|].
  destruct (f y) eqn:E.
  - intros H. inversion H; subst. split; [left; reflexivity|].
    split; [exact E|]. intros d [<- | Hd] _; [lia|].
    rewrite Forall_forall in F. apply F, Hd.
  - intros H. destruct (IH H) as [I [T L]]. split; [right; exact I|].
    split; [exact T|]. intros d [<- | Hd] Fd; [congruence | apply L; assumption].
Qed.

Lemma is_target_spec (pred : Prediction) (d : Draw) :
  is_target pred d = true
  <-> drawTypeId pred = Some (draw_type_id d)
      /\ (day_of (timestamp pred) <= draw_date d)%Z.
Proof.
  unfold is_target, date_ms, day_of, MS_PER_DAY.
  destruct (drawTypeId pred) as [id|].
  - destruct (draw_type_id d =? id)%Z eqn:E; cbn [negb].
    + apply Z.eqb_eq in E. subst id.
      rewrite orb_true_iff, Z.leb_le, Z.eqb_eq.
      split.
      * intros H. split; [reflexivity|].
        Z.to_euclidean_division_equations. lia.
      * intros [_ H]. Z.to_euclidean_division_equations. lia.
    + apply Z.eqb_neq in E. split; [discriminate|].
      intros [H _]. inversion H. congruence.
  - split; [discriminate | intros [H _]; discriminate].
Qed.

Lemma in_window_spec (pred : Prediction) (d : Draw) :
  in_window pred d = true
  <-> (-24 * MS_PER_HOUR <= date_ms (draw_date d) - timestamp pred
       < 72 * MS_PER_HOUR)%Z.
Proof.
  unfold in_window, diffHours, JS.Qltb, MS_PER_HOUR.
  generalize (date_ms (draw_date d) - timestamp pred)%Z. intros diff.
  rewrite andb_true_iff, negb_true_iff, <- not_true_iff_false.
  rewrite !Qle_bool_iff. unfold Qle, Qdiv, Qmult, Qinv, inject_Z. simpl. lia.
Qed.

Lemma verifyOne_result (recent : list Draw) (pred : Prediction)
      (r : Z * Matching) :
  result pred = None ->
  (result (verifyOne recent pred) = Some r
   <-> exists target,
         targetDraw pred recent = Some target
         /\ in_window pred target = true
         /\ r = (draw_date target,
                 check (predictedNumbers pred) (winning_columns target))).
Proof.
  intros U. unfold verifyOne. rewrite U.
  destruct (targetDraw pred recent) as [target|].
  - destruct (in_window pred target) eqn:W.
    + cbn [result]. split.
      * intros H. inversion H. exists target. auto.
      * intros [t [E [_ ->]]]. inversion E. reflexivity.
    + rewrite U. split; [discriminate|].
      intros [t [E [W' _]]]. inversion E; subst. congruence.
  - rewrite U. split; [discriminate|]. intros [t [E _]]. discriminate.
Qed.

End Verification.




(* ================================================================== *)
(** * Further properties of the modelled code *)
(* ================================================================== *)

(** ** Sorted output of [sort] *)

Section SortedBy.

Variable A : Type.
Variable before : A -> A -> bool.
Hypothesis before_asym :
  forall x y, before y x = true -> before x y = false.
Hypothesis before_trans :
  forall x y z, before y x = false -> before z y = false ->
                before z x = false.

(** In a sorted list no element has to come before an earlier one. *)
Lemma insert_by_sorted (x : A) (l : list A) :
  StronglySorted (fun y z => before z y = false) l ->
  StronglySorted (fun y z => before z y = false) (JS.insert_by before x l).
Proof.
  induction 1 as [|y l S IH F]; simpl.
  - constructor; constructor.
  - destruct (before y x) eqn:E.
    + constructor; [exact IH|].
      rewrite Forall_forall in F |- *. intros z Hz.
      apply (Permutation_in _ (insert_by_perm _ before x l)) in Hz.
      destruct Hz as [<- | Hz]; [apply before_asym, E | apply F, Hz].
    + constructor; [constructor; assumption|].
      constructor; [exact E|].
      rewrite Forall_forall in F |- *. intros z Hz.
      apply before_trans with y; [exact E | apply F, Hz].
Qed.

Lemma sort_by_sorted (l : list A) :
  StronglySorted (fun y z => before z y = false) (JS.sort_by before l).
Proof.
  unfold JS.sort_by. induction l as [|x l IH]; simpl.
  - constructor.
  - apply insert_by_sorted, IH.
Qed.

End SortedBy.

Lemma firstn_sorted (A : Type) (R : A -> A -> Prop) (n : nat) (l : list A) :
  StronglySorted R l -> StronglySorted R (firstn n l).
Proof.
  intros S. revert n. induction S as [|x l S IH F]; intros [|n]; simpl;
    try constructor.
  - apply IH.
  - rewrite Forall_forall in F |- *. intros y Hy. apply F.
    eapply slice_In. exact Hy.
Qed.

Lemma sorted_impl (A : Type) (R R' : A -> A -> Prop) (l : list A) :
  (forall x y, R x y -> R' x y) ->
  StronglySorted R l -> StronglySorted R' l.
Proof.
  intros I. induction 1 as [|x l S IH F]; constructor; [exact IH|].
  eapply Forall_impl; [|exact F]. intros y. apply I.
Qed.

(** What [slice(0, n)] keeps comes before what it drops. *)
Lemma firstn_skipn_sorted (A : Type) (R : A -> A -> Prop) (n : nat)
      (l : list A) (x y : A) :
  StronglySorted R l -> In x (firstn n l) -> In y (skipn n l) -> R x y.
Proof.
  intros S. revert n. induction S as [|z l S IH F]; intros [|n]; simpl;
    try tauto.
  intros [<- | Hx] Hy.
  - rewrite Forall_forall in F. apply F.
    rewrite <- (firstn_skipn n l). apply in_or_app. right. exact Hy.
  - eapply IH; eauto.
Qed.

Lemma sort_asc_sorted (l : list Z) : StronglySorted Z.le (JS.sort_asc l).
Proof.
  unfold JS.sort_asc.
  pose proof (sort_by_sorted Z (fun y x => (y <? x)%Z)) as S.
  assert (G : StronglySorted (fun y z => (z <? y)%Z = false)
                             (JS.sort_by (fun y x => (y <? x)%Z) l)).
  { apply S.
    - intros x y H. apply Z.ltb_lt in H. apply Z.ltb_ge. lia.
    - intros x y z H1 H2. apply Z.ltb_ge in H1, H2. apply Z.ltb_ge. lia. }
  clear S. induction G as [|x l' G IH F]; constructor; [exact IH|].
  rewrite Forall_forall in F |- *. intros y Hy. specialize (F y Hy).
  apply Z.ltb_ge in F. exact F.
Qed.

Lemma sorted_le_NoDup_lt (l : list Z) :
  StronglySorted Z.le l -> NoDup l -> StronglySorted Z.lt l.
Proof.
  induction 1 as [|x l S IH F]; intros N; constructor.
  - apply IH. inversion N; assumption.
  - inversion N as [|? ? Hx N']; subst.
    rewrite Forall_forall in F |- *. intros y Hy. specialize (F y Hy).
    assert (x <> y) by (intros ->; contradiction). lia.
Qed.

(** ** Learning: history, statistics, keys *)

Section LearnFacts.

Import Brain.

Variable analyzeCycles : list Draw -> Stream -> JS.IntObj CycleStats.
Variable strategies : StrategyPool.

Lemma globalMatches_bounds (actualDraw : list Z) (scores : JS.IntObj Q) :
  (0 <= Z.of_nat
          (length
             (filter (JS.includes actualDraw)
                (map fst
                   (JS.slice 5
                      (JS.sort_by (fun y x : Z * Q => JS.Qltb (snd x) (snd y))
                                  scores)))))
   <= 5)%Z.
Proof.
  split; [lia|].
  assert (L : (length
                 (filter (JS.includes actualDraw)
                    (map fst
                       (JS.slice 5
                          (JS.sort_by
                             (fun y x : Z * Q => JS.Qltb (snd x) (snd y))
                             scores)))) <= 5)%nat).
  { eapply Nat.le_trans; [apply filter_length_le|].
    rewrite length_map. unfold JS.slice. apply firstn_le_length. }
  lia.
Qed.

Lemma accuracy_percent (hits draws : Z) :
  (0 < draws)%Z -> (0 <= hits <= 5 * draws)%Z ->
  0 <= accuracy hits draws <= 100.
Proof.
  intros D H. unfold accuracy.
  assert (P : 0 < inject_Z (draws * 5)).
  { change 0 with (inject_Z 0). rewrite <- Zlt_Qlt. lia. }
  assert (L : 0 <= inject_Z hits / inject_Z (draws * 5)).
  { apply Qle_shift_div_l; [exact P|]. rewrite Qmult_0_l.
    change 0 with (inject_Z 0). rewrite <- Zle_Qle. lia. }
  assert (U : inject_Z hits / inject_Z (draws * 5) <= 1).
  { apply Qle_shift_div_r; [exact P|]. rewrite Qmult_1_l.
    rewrite <- Zle_Qle. lia. }
  lra.
Qed.

(** X1.  A Learn step appends one entry to the history, dated [now] and
    carrying the draw and the new weights; a history of 50 entries loses
    its oldest entry, so a history of at most 50 entries stays so. *)
Theorem learn_history_bounded
        (now : Z) (brain : State) (actualDraw : list Z)
        (allDraws : list Draw) (drawTypeId : option Z) (type : Stream) :
  (length (history brain) <= 50)%nat ->
  exists entry,
    history (learn analyzeCycles strategies now brain actualDraw allDraws
                   drawTypeId type)
    = (if (length (history brain) =? 50)%nat then tl (history brain)
       else history brain) ++ [entry]
    /\ entry_date entry = now
    /\ entry_draw entry = actualDraw
    /\ entry_newWeights entry
       = weights (learn analyzeCycles strategies now brain actualDraw
                        allDraws drawTypeId type)
    /\ (length (history (learn analyzeCycles strategies now brain actualDraw
                               allDraws drawTypeId type)) <= 50)%nat.
Proof.
  intros L. unfold learn. cbn [history weights].
  match goal with
  | |- context [history brain ++ [?e]] => set (entry := e)
  end.
  exists entry. rewrite length_app. cbn [length].
  destruct (length (history brain) =? 50)%nat eqn:E.
  - apply Nat.eqb_eq in E. rewrite E. cbn [Nat.add Nat.ltb Nat.leb].
    destruct (history brain) as [|h0 h]; [discriminate|].
    cbn [tl app]. repeat split; try reflexivity.
    rewrite length_app. simpl in E |- *. lia.
  - apply Nat.eqb_neq in E.
    assert (B : (50 <? length (history brain) + 1)%nat = false)
      by (apply Nat.ltb_ge; lia).
    rewrite B. repeat split; try reflexivity.
    rewrite length_app. simpl. lia.
Qed.



Lemma lookup_map_value (f : string * Q -> string * Q) (w : Weights)
      (key : string) :
  (forall kv, fst (f kv) = fst kv) ->
  lookup key (map f w)
  = match lookup key w with
    | Some v => Some (snd (f (key, v)))
    | None => None
    end.
Proof.
  intros K. induction w as [|[k v] w IH]; simpl; [reflexivity|].
  pose proof (K (k, v)) as Kk. destruct (f (k, v)) as [k' v'] eqn:F.
  simpl in Kk. subst k'. destruct (String.eqb k key) eqn:E.
  - apply String.eqb_eq in E. subst k. rewrite F. reflexivity.
  - exact IH.
Qed.


End LearnFacts.

(** A Learn step on the default brain, with a draw type. *)
Lemma learn_history_witness :
  exists entry,
    Brain.history
      (Brain.learn no_cycles silent_pool 7 Brain.defaultBrain
                   [85; 86; 87; 88; 89]%Z [] (Some 3%Z) winning)
    = [entry].
Proof.
  destruct (learn_history_bounded no_cycles silent_pool 7 Brain.defaultBrain
              [85; 86; 87; 88; 89]%Z [] (Some 3%Z) winning)
    as [entry [H _]]; [simpl; lia|].
  exists entry. exact H.
Defined.



Section StrategyScoreFacts.

Import Brain.

Lemma stratScore_acc (actualDraw preds : list Z) (acc : Q) :
  fold_left
    (fun score n =>
       if JS.includes actualDraw n then score + 1.0
       else if nearMiss actualDraw n then score + 0.25
       else score)
    preds acc
  == acc
     + inject_Z (Z.of_nat (length (filter (JS.includes actualDraw) preds)))
     + 0.25 * inject_Z
                (Z.of_nat
                   (length
                      (filter (fun n => negb (JS.includes actualDraw n)
                                        && nearMiss actualDraw n) preds))).
Proof.
  revert acc. induction preds as [|n preds IH]; intros acc; simpl.
  - change (inject_Z 0) with 0. ring.
  - rewrite IH. destruct (JS.includes actualDraw n); simpl.
    + rewrite Zpos_P_of_succ_nat, <- Z.add_1_r, inject_Z_plus.
      change (inject_Z 1) with 1. ring.
    + destruct (nearMiss actualDraw n); simpl.
      * rewrite Zpos_P_of_succ_nat, <- Z.add_1_r, inject_Z_plus.
        change (inject_Z 1) with 1. ring.
      * ring.
Qed.


Lemma lookup_app_keeps (key : string) (w more : Weights) (v : Q) :
  lookup key w = Some v -> lookup key (w ++ more) = Some v.
Proof.
  induction w as [|[k x] w IH]; simpl; [discriminate|].
  destruct (String.eqb k key); [tauto | exact IH].
Qed.

Lemma lookup_app_new (key : string) (w : Weights) (v : Q) :
  lookup key w = None -> lookup key (w ++ [(key, v)]) = Some v.
Proof.
  induction w as [|[k x] w IH]; simpl.
  - rewrite String.eqb_refl. reflexivity.
  - destruct (String.eqb k key); [discriminate | exact IH].
Qed.

Lemma lookup_In_key (key : string) (w : Weights) :
  In key (map fst w) <-> lookup key w <> None.
Proof.
  induction w as [|[k x] w IH]; simpl.
  - split; [tauto | intros H; apply H; reflexivity].
  - destruct (String.eqb k key) eqn:E.
    + apply String.eqb_eq in E. split; [discriminate | auto].
    + apply String.eqb_neq in E. rewrite <- IH. split; [|auto].
      intros [H | H]; [contradiction | exact H].
Qed.

Lemma inject_keeps (defs : list (string * Q)) (acc : Weights * bool)
      (key : string) (v : Q) :
  lookup key (fst acc) = Some v ->
  lookup key (fst (fold_left inject_key defs acc)) = Some v.
Proof.
  revert acc. induction defs as [|d defs IH]; intros acc H; simpl;
    [exact H|].
  apply IH. unfold inject_key. destruct (lookup (fst d) (fst acc));
    [exact H|]. cbn [fst]. apply lookup_app_keeps, H.
Qed.

Lemma inject_adds (defs : list (string * Q)) (acc : Weights * bool)
      (key : string) :
  In key (map fst defs) ->
  lookup key (fst (fold_left inject_key defs acc)) <> None.
Proof.
  revert acc. induction defs as [|d defs IH]; intros acc H; simpl;
    [destruct H|].
  destruct (in_dec string_dec key (map fst defs)) as [I | I];
    [apply IH, I|].
  destruct H as [<- | H]; [|contradiction].
  assert (P : exists v, lookup (fst d) (fst (inject_key acc d)) = Some v).
  { unfold inject_key. destruct (lookup (fst d) (fst acc)) as [v|] eqn:L.
    - exists v. exact L.
    - exists (snd d). cbn [fst]. destruct d as [k v]. cbn [fst snd] in *.
      apply lookup_app_new, L. }
  destruct P as [v P]. rewrite (inject_keeps defs _ _ v P). discriminate.
Qed.

Lemma inject_added (defs : list (string * Q)) (w : Weights) (b : bool) :
  exists added,
    fold_left inject_key defs (w, b)
    = (w ++ added, b || negb (length added =? 0)%nat)
    /\ (forall kv, In kv added -> In kv defs /\ lookup (fst kv) w = None).
Proof.
  revert w b. induction defs as [|d defs IH]; intros w b; cbn [fold_left].
  - exists []. rewrite app_nil_r, orb_false_r.
    split; [reflexivity | intros kv []].
  - assert (S : inject_key (w, b) d
                = match lookup (fst d) w with
                  | None => (w ++ [d], true)
                  | Some _ => (w, b)
                  end) by reflexivity.
    rewrite S. clear S. destruct (lookup (fst d) w) eqn:L.
    + destruct (IH w b) as [added [E I]]. exists added.
      split; [exact E|]. intros kv Hkv. destruct (I kv Hkv). split; auto.
      right. assumption.
    + destruct (IH (w ++ [d]) true) as [added [E I]]. exists (d :: added).
      split.
      * etransitivity; [exact E|].
        rewrite <- app_assoc. simpl. rewrite orb_true_r. reflexivity.
      * intros kv [<- | Hkv]; [split; [left; reflexivity | exact L]|].
        destruct (I kv Hkv) as [I1 I2]. split; [right; exact I1|].
        destruct (lookup (fst kv) w) as [v|] eqn:Lw; [|reflexivity].
        rewrite (lookup_app_keeps _ _ [d] _ Lw) in I2. discriminate.
Qed.

Lemma normalize_keys (w : Weights) : map fst (normalize w) = map fst w.
Proof. unfold normalize. rewrite map_map. reflexivity. Qed.

(** X6.  The migration of [loadBrain] leaves a brain with every default
    strategy key.  The keys read from the store keep their place, the
    missing default keys follow them, and before the normalisation the
    stored weights are untouched; weights that lack no default key are
    returned as they are, without normalisation. *)
Theorem migration_injects_missing_defaults (w : Weights) :
  (forall key, In key (map fst defaultWeights) ->
               In key (map fst (migrateWeights w)))
  /\ (exists added,
        map fst (migrateWeights w) = map fst w ++ map fst added
        /\ (forall kv, In kv added ->
                       In kv defaultWeights /\ lookup (fst kv) w = None))
  /\ (forall key v, lookup key w = Some v ->
                    lookup key (fst (injectDefaults w)) = Some v)
  /\ ((forall key, In key (map fst defaultWeights) -> In key (map fst w)) ->
      migrateWeights w = w).
Proof.
  assert (K : map fst (migrateWeights w) = map fst (fst (injectDefaults w))).
  { unfold migrateWeights. destruct (injectDefaults w) as [w' c].
    destruct c; [apply normalize_keys | reflexivity]. }
  split; [|split; [|split]].
  - intros key H. rewrite K. apply lookup_In_key.
    unfold injectDefaults. apply inject_adds, H.
  - rewrite K. unfold injectDefaults.
    destruct (inject_added defaultWeights w false) as [added [E I]].
    exists added. rewrite E. cbn [fst]. rewrite map_app. split; [reflexivity|].
    exact I.
  - intros key v H. unfold injectDefaults. apply inject_keeps, H.
  - intros H. unfold migrateWeights, injectDefaults.
    destruct (inject_added defaultWeights w false) as [added [E I]].
    rewrite E. destruct added as [|kv added].
    + rewrite app_nil_r. reflexivity.
    + exfalso. destruct (I kv (or_introl eq_refl)) as [I1 I2].
      assert (In (fst kv) (map fst w)) by (apply H, in_map, I1).
      apply lookup_In_key in H0. contradiction.
Qed.

End StrategyScoreFacts.

(** ** The correlation matrix *)

Section MatrixFacts.

Import CorrelationAnalyzer.

Lemma row_set (c : Matrix) (m m' : Z) (r : JS.IntObj Z) :
  row (JS.set m r c) m' = if (m =? m')%Z then r else row c m'.
Proof.
  unfold row. rewrite get_set. destruct (m =? m')%Z; reflexivity.
Qed.

Lemma cell_bump_cell (c : Matrix) (m w m' w' : Z) :
  cell (bump_cell m w c) m' w'
  = (cell c m' w' + if (m =? m')%Z && (w =? w')%Z then 1 else 0)%Z.
Proof.
  unfold cell, bump_cell. rewrite row_set.
  destruct (m =? m')%Z eqn:Em; simpl; [|lia].
  apply Z.eqb_eq in Em. subst m'. rewrite get_set.
  destruct (w =? w')%Z eqn:Ew; [|lia].
  apply Z.eqb_eq in Ew. subst w'.
  destruct (JS.get w (row c m)); lia.
Qed.

Lemma occurrences_cons (n x : Z) (l : list Z) :
  occurrences n (x :: l)
  = ((if (x =? n)%Z then 1 else 0) + occurrences n l)%Z.
Proof.
  unfold occurrences. simpl. destruct (Z.eq_dec x n) as [E | E].
  - subst. rewrite Z.eqb_refl. lia.
  - apply Z.eqb_neq in E. rewrite E. lia.
Qed.

Lemma cell_add_machine (ws : list Z) (c : Matrix) (m m' w' : Z) :
  cell (add_machine ws c m) m' w'
  = (cell c m' w' + if (m =? m')%Z then occurrences w' ws else 0)%Z.
Proof.
  unfold add_machine.
  assert (S : cell (match JS.get m c with
                    | Some _ => c
                    | None => JS.set m [] c
                    end) m' w' = cell c m' w').
  { destruct (JS.get m c) eqn:G; [reflexivity|].
    unfold cell. rewrite row_set. destruct (m =? m')%Z eqn:E; [|reflexivity].
    apply Z.eqb_eq in E. subst m'. unfold row. rewrite G. reflexivity. }
  rewrite <- S. generalize (match JS.get m c with
                            | Some _ => c
                            | None => JS.set m [] c
                            end). clear S.
  induction ws as [|w ws IH]; intros c0; simpl.
  - unfold occurrences. simpl. destruct (m =? m')%Z; lia.
  - rewrite IH, cell_bump_cell, occurrences_cons.
    destruct (m =? m')%Z; destruct (w =? w')%Z; cbn [andb]; lia.
Qed.

Lemma cell_add_draw (c : Matrix) (d : Draw) (m w : Z) :
  cell (add_draw c d) m w
  = (cell c m w
     + if complete d
       then occurrences m (non_null (machine_columns d))
            * occurrences w (non_null (winning_columns d))
       else 0)%Z.
Proof.
  unfold add_draw, complete.
  destruct (length (non_null (machine_columns d)) =? 5)%nat;
    destruct (length (non_null (winning_columns d)) =? 5)%nat;
    cbn [negb orb andb]; try lia.
  generalize (non_null (winning_columns d)) as ws. intros ws.
  revert c. induction (non_null (machine_columns d)) as [|x ms IH];
    intros c; cbn [fold_left].
  - unfold occurrences. simpl. lia.
  - rewrite IH, cell_add_machine, occurrences_cons.
    destruct (x =? m)%Z; lia.
Qed.

Lemma co_occurrences_nonneg (draws : list Draw) (m w : Z) :
  (0 <= co_occurrences draws m w)%Z.
Proof.
  induction draws as [|d draws IH]; cbn [co_occurrences]; [lia|].
  destruct (complete d); [|lia].
  unfold occurrences. nia.
Qed.

Lemma cell_fold_add_draw (draws : list Draw) (c : Matrix) (m w : Z) :
  cell (fold_left add_draw draws c) m w
  = (cell c m w + co_occurrences draws m w)%Z.
Proof.
  revert c. induction draws as [|d draws IH]; intros c;
    cbn [fold_left co_occurrences]; [lia|].
  rewrite IH, cell_add_draw. lia.
Qed.

Lemma cell_analyze (draws : list Draw) (m w : Z) :
  cell (analyzeWinningMachineCorrelation draws) m w = co_occurrences draws m w.
Proof.
  unfold analyzeWinningMachineCorrelation. rewrite cell_fold_add_draw.
  reflexivity.
Qed.

(** X7.  The correlation matrix counts co-occurrences: its entry for a
    machine number and a winning number is the number of draws with five
    machine and five winning numbers in which both occur; draws with a
    missing number are skipped, and so is every draw when the matrix is
    built from draws without machine numbers. *)
Theorem correlation_matrix_counts_co_occurrences
        (draws : list Draw) (m w : Z) :
  cell (analyzeWinningMachineCorrelation draws) m w = co_occurrences draws m w
  /\ (0 <= cell (analyzeWinningMachineCorrelation draws) m w
      <= 25 * Z.of_nat (length draws))%Z
  /\ ((forall d, In d draws -> complete d = false) ->
      analyzeWinningMachineCorrelation draws = []).
Proof.
  split; [apply cell_analyze|]. split.
  - rewrite cell_analyze. split; [apply co_occurrences_nonneg|].
    induction draws as [|d draws IH]; cbn [co_occurrences length]; [lia|].
    rewrite Nat2Z.inj_succ.
    assert (B : forall n l, (occurrences n l <= Z.of_nat (length l))%Z).
    { intros n l. unfold occurrences. apply inj_le, count_occ_bound. }
    unfold complete.
    destruct (length (non_null (machine_columns d)) =? 5)%nat eqn:E1;
      destruct (length (non_null (winning_columns d)) =? 5)%nat eqn:E2;
      cbn [andb]; try lia.
    apply Nat.eqb_eq in E1, E2.
    pose proof (B m (non_null (machine_columns d))) as B1.
    pose proof (B w (non_null (winning_columns d))) as B2.
    rewrite E1 in B1. rewrite E2 in B2.
    assert (0 <= occurrences m (non_null (machine_columns d)))%Z
      by (unfold occurrences; lia).
    assert (0 <= occurrences w (non_null (winning_columns d)))%Z
      by (unfold occurrences; lia).
    nia.
  - unfold analyzeWinningMachineCorrelation. generalize (@nil (Z * JS.IntObj Z)).
    induction draws as [|d draws IH]; intros c H; cbn [fold_left];
      [reflexivity|].
    assert (S : add_draw c d = c).
    { specialize (H d (or_introl eq_refl)). unfold complete in H.
      unfold add_draw. cbv zeta.
      destruct (length (non_null (machine_columns d)) =? 5)%nat;
        destruct (length (non_null (winning_columns d)) =? 5)%nat;
        cbn [negb orb andb] in *; try reflexivity. discriminate. }
    rewrite S. apply IH. intros d' Hd. apply H. right. exact Hd.
Qed.

(** X8.  [getTopCorrelatedWinning] on the matrix of the draws returns at
    most [topN] winning numbers, no number twice, each with its count in
    the matrix, in descending order of the counts; a winning number that
    is left out does not have a higher count than one that is listed. *)
Theorem top_correlated_are_the_most_frequent
        (draws : list Draw) (machineNum : Z) (topN : nat) :
  (length (getTopCorrelatedWinning
             (analyzeWinningMachineCorrelation draws) machineNum topN)
   <= topN)%nat
  /\ NoDup (map number
                (getTopCorrelatedWinning
                   (analyzeWinningMachineCorrelation draws) machineNum topN))
  /\ (forall c,
        In c (getTopCorrelatedWinning
                (analyzeWinningMachineCorrelation draws) machineNum topN) ->
        count c = co_occurrences draws machineNum (number c))
  /\ StronglySorted (fun c1 c2 => (count c2 <= count c1)%Z)
       (getTopCorrelatedWinning
          (analyzeWinningMachineCorrelation draws) machineNum topN)
  /\ (forall c w,
        In c (getTopCorrelatedWinning
                (analyzeWinningMachineCorrelation draws) machineNum topN) ->
        ~ In w (map number
                    (getTopCorrelatedWinning
                       (analyzeWinningMachineCorrelation draws) machineNum
                       topN)) ->
        (co_occurrences draws machineNum w <= count c)%Z).
Proof.
  set (M := analyzeWinningMachineCorrelation draws).
  assert (W : rows_sorted M) by apply analyze_rows_sorted.
  assert (S : StronglySorted (fun c1 c2 => (count c2 <= count c1)%Z)
                (JS.sort_by (fun y x => (count x <? count y)%Z)
                   (map (fun e : Z * Z => mkCorrelated (fst e) (snd e))
                        (row M machineNum)))).
  { pose proof (sort_by_sorted Correlated
                  (fun y x => (count x <? count y)%Z)) as G.
    eapply sorted_impl; [|apply G].
    - intros a b H. apply Z.ltb_ge in H. exact H.
    - intros x y H. apply Z.ltb_lt in H. apply Z.ltb_ge. lia.
    - intros x y z H1 H2. apply Z.ltb_ge in H1, H2. apply Z.ltb_ge. lia. }
  assert (E : forall c,
             In c (JS.sort_by (fun y x => (count x <? count y)%Z)
                     (map (fun e : Z * Z => mkCorrelated (fst e) (snd e))
                          (row M machineNum))) ->
             JS.get (number c) (row M machineNum) = Some (count c)).
  { intros c Hc. apply sort_by_In in Hc. apply in_map_iff in Hc.
    destruct Hc as [[k v] [<- He]]. cbn [number count fst snd].
    apply In_get_unique; [|exact He].
    apply sorted_NoDup, row_sorted, W. }
  unfold getTopCorrelatedWinning, JS.slice. fold M.
  split; [apply firstn_le_length|].
  split; [apply (top_NoDup M machineNum topN W)|].
  split.
  { intros c Hc. apply slice_In in Hc. apply E in Hc.
    rewrite <- (cell_analyze draws).
    fold M. unfold cell. rewrite Hc. reflexivity. }
  split; [apply firstn_sorted, S|].
  intros c w Hc Hw.
  assert (N : (0 <= count c)%Z).
  { apply slice_In in Hc. apply E in Hc.
    pose proof (co_occurrences_nonneg draws machineNum (number c)) as N.
    rewrite <- (cell_analyze draws) in N.
    fold M in N. unfold cell in N. rewrite Hc in N. exact N. }
  rewrite <- (cell_analyze draws). fold M.
  unfold cell. destruct (JS.get w (row M machineNum)) as [n|] eqn:G; [|lia].
  apply get_In in G.
  assert (I : In (mkCorrelated w n)
                 (JS.sort_by (fun y x => (count x <? count y)%Z)
                    (map (fun e : Z * Z => mkCorrelated (fst e) (snd e))
                         (row M machineNum)))).
  { apply sort_by_In. apply in_map_iff. exists (w, n). auto. }
  rewrite <- (firstn_skipn topN) in I. apply in_app_or in I.
  destruct I as [I | I].
  - exfalso. apply Hw. apply in_map_iff. exists (mkCorrelated w n). auto.
  - pose proof (firstn_skipn_sorted _ _ topN _ c (mkCorrelated w n) S Hc I)
      as L. cbn [count] in L. lia.
Qed.

(** X9.  The correlation strength is 0 or one half, whatever the matrix
    and the prediction: the "theoretical maximum" it divides by is twice
    the total it divides. *)
Theorem correlation_strength_is_zero_or_half
        (correlations : Matrix) (machinePrediction : list Z) :
  calculateCorrelationStrength correlations machinePrediction == 0
  \/ calculateCorrelationStrength correlations machinePrediction == 1 # 2.
Proof.
  unfold calculateCorrelationStrength.
  destruct machinePrediction as [|m0 rest]; [left; reflexivity|].
  set (f := fun (acc : Z * Z) machineNum =>
              if (0 <? length (map snd (row correlations machineNum)))%nat
              then (fst acc + max_count (map snd (row correlations machineNum)),
                    snd acc
                    + max_count (map snd (row correlations machineNum)) * 2)%Z
              else acc).
  assert (D : forall l acc, snd acc = (2 * fst acc)%Z ->
                            snd (fold_left f l acc)
                            = (2 * fst (fold_left f l acc))%Z).
  { induction l as [|m l IH]; intros acc H; cbn [fold_left]; [exact H|].
    apply IH. unfold f.
    destruct (0 <? length (map snd (row correlations m)))%nat;
      cbn [fst snd]; lia. }
  specialize (D (m0 :: rest) (0%Z, 0%Z) eq_refl).
  cbv zeta. fold f.
  destruct (fold_left f (m0 :: rest) (0%Z, 0%Z)) as [t p].
  cbn [fst snd] in *. subst p.
  destruct (0 <? 2 * t)%Z eqn:E; [|left; reflexivity].
  right. apply Z.ltb_lt in E.
  unfold Qeq, Qdiv, Qmult, Qinv, inject_Z. simpl.
  destruct t as [|t|t]; try lia. simpl. lia.
Qed.

Lemma set_add_iff (n m : Z) (s : list Z) :
  In n (JS.set_add m s) <-> In n s \/ n = m.
Proof.
  unfold JS.set_add. destruct (JS.includes s m) eqn:I.
  - apply includes_In in I. split; [tauto|]. intros [H | ->]; assumption.
  - rewrite in_app_iff. simpl. intuition.
Qed.

Lemma set_add_NoDup (m : Z) (s : list Z) :
  NoDup s -> NoDup (JS.set_add m s).
Proof.
  intros N. unfold JS.set_add. destruct (JS.includes s m) eqn:I; [exact N|].
  assert (H : ~ In m s).
  { intros H. apply includes_In in H. congruence. }
  apply (Permutation_NoDup (l := m :: s)).
  - apply Permutation_cons_append.
  - constructor; assumption.
Qed.

Lemma boost_frame_step (mainScores : JS.IntObj Q) (bf : Q)
      (done : list Correlated) (st : JS.IntObj Q * list Z) (c : Correlated) :
  boost_frame mainScores done st ->
  boost_frame mainScores (done ++ [c]) (boost bf st c).
Proof.
  intros [N [B F]].
  assert (K : In (number c) (snd st)
              \/ JS.get (number c) (fst st) = JS.get (number c) mainScores).
  { destruct (in_dec Z.eq_dec (number c) (snd st)) as [I | I]; auto. }
  assert (M : forall w, In w (map number (done ++ [c]))
                        <-> In w (map number done) \/ w = number c).
  { intros w. rewrite map_app, in_app_iff. simpl. intuition. }
  unfold boost.
  destruct (JS.get (number c) (fst st)) as [s|] eqn:G;
    [destruct (JS.truthy s) eqn:T|].
  - assert (Z0 : ~ s == 0).
    { intros H. apply Qeq_bool_iff in H. unfold JS.truthy in T.
      rewrite H in T. discriminate. }
    split; [apply set_add_NoDup, N|]. split.
    + intros w. cbn [snd]. rewrite set_add_iff, M, B. split.
      * intros [[D S] | ->]; [tauto|]. split; [tauto|].
        destruct K as [I | E]; [apply B in I; tauto|].
        exists s. rewrite <- E. tauto.
      * intros [[D | ->] S]; tauto.
    + intros w. cbn [fst snd]. rewrite set_add_iff. intros H.
      rewrite get_set. destruct (number c =? w)%Z eqn:E.
      * apply Z.eqb_eq in E. subst w. tauto.
      * apply F. tauto.
  - split; [exact N|]. split; [|exact F].
    intros w. rewrite M, B. split; [tauto|].
    intros [[D | ->] S]; [tauto|].
    destruct K as [I | E]; [apply B in I; exact I|].
    exfalso. destruct S as [s' [S1 S2]]. rewrite S1 in E.
    injection E as ->. apply S2. apply Qeq_bool_iff.
    unfold JS.truthy in T. destruct (Qeq_bool s' 0); [reflexivity|].
    discriminate.
  - split; [exact N|]. split; [|exact F].
    intros w. rewrite M, B. split; [tauto|].
    intros [[D | ->] S]; [tauto|].
    destruct K as [I | E]; [apply B in I; exact I|].
    exfalso. destruct S as [s' [S1 S2]]. congruence.
Qed.

Lemma boost_frame_fold (mainScores : JS.IntObj Q) (bf : Q)
      (cs done : list Correlated) (st : JS.IntObj Q * list Z) :
  boost_frame mainScores done st ->
  boost_frame mainScores (done ++ cs) (fold_left (boost bf) cs st).
Proof.
  revert done st. induction cs as [|c cs IH]; intros done st H;
    cbn [fold_left].
  - rewrite app_nil_r. exact H.
  - replace (done ++ c :: cs) with ((done ++ [c]) ++ cs)
      by (rewrite <- app_assoc; reflexivity).
    apply IH, boost_frame_step, H.
Qed.

Lemma boost_all_flat (c : Matrix) (bf : Q) (machinePrediction : list Z)
      (mainScores : JS.IntObj Q) :
  boost_all c bf machinePrediction mainScores
  = fold_left (boost bf)
      (flat_map (fun m => getTopCorrelatedWinning c m 10) machinePrediction)
      (mainScores, []).
Proof.
  unfold boost_all. generalize (mainScores, @nil Z) as st.
  induction machinePrediction as [|m l IH]; intros st; cbn [fold_left flat_map].
  - reflexivity.
  - rewrite fold_left_app. apply IH.
Qed.

(** X10.  What the hybrid booster reports and what it leaves alone: the
    boosted numbers are listed once each; a number is listed exactly when
    a predicted machine number has it among its ten most correlated
    winning numbers and its main score is not 0; the score of every other
    number is the main score, unchanged. *)
Theorem hybrid_boosts_only_the_recommended
        (draws : list Draw) (mainScores : JS.IntObj Q)
        (machinePrediction : list Z) (boostFactor : Q) :
  NoDup (boostedNumbers
           (generateHybridPrediction draws mainScores machinePrediction
                                     boostFactor))
  /\ (forall w,
        In w (boostedNumbers
                (generateHybridPrediction draws mainScores machinePrediction
                                          boostFactor))
        <-> (exists m, In m machinePrediction
                       /\ recommends
                            (analyzeWinningMachineCorrelation draws) w m
                          = true)
            /\ exists s, JS.get w mainScores = Some s /\ ~ s == 0)
  /\ (forall w,
        ~ In w (boostedNumbers
                  (generateHybridPrediction draws mainScores
                                            machinePrediction boostFactor)) ->
        JS.get w (boostedScores
                    (generateHybridPrediction draws mainScores
                                              machinePrediction boostFactor))
        = JS.get w mainScores).
Proof.
  unfold generateHybridPrediction. cbv zeta. cbn [boostedNumbers boostedScores].
  rewrite boost_all_flat.
  set (M := analyzeWinningMachineCorrelation draws).
  destruct (boost_frame_fold mainScores boostFactor
              (flat_map (fun m => getTopCorrelatedWinning M m 10)
                        machinePrediction) [] (mainScores, []))
    as [N [B F]].
  { split; [constructor|]. split; [|reflexivity].
    intros w. simpl. tauto. }
  rewrite app_nil_l in B.
  split; [exact N|]. split; [|exact F].
  intros w. rewrite B.
  assert (R : In w (map number
                        (flat_map (fun m => getTopCorrelatedWinning M m 10)
                                  machinePrediction))
              <-> exists m, In m machinePrediction
                            /\ recommends M w m = true).
  { rewrite in_map_iff. split.
    - intros [c [<- Hc]]. apply in_flat_map in Hc.
      destruct Hc as [m [Hm Hc]]. exists m. split; [exact Hm|].
      unfold recommends. apply existsb_exists. exists c.
      split; [exact Hc | apply Z.eqb_refl].
    - intros [m [Hm Hr]]. unfold recommends in Hr.
      apply existsb_exists in Hr. destruct Hr as [c [Hc He]].
      apply Z.eqb_eq in He. exists c. split; [exact He|].
      apply in_flat_map. exists m. auto. }
  rewrite R. reflexivity.
Qed.

End MatrixFacts.

(** ** The selector with any count *)

Section SelectorAnyCount.

Import CorrelationAnalyzer.

Lemma found_In (selected : list Candidate) (c : Candidate) :
  found selected c = true <-> In (cand_number c) (map cand_number selected).
Proof.
  unfold found. rewrite existsb_exists, in_map_iff. split.
  - intros [s [Hs E]]. apply Z.eqb_eq in E. eauto.
  - intros [s [E Hs]]. exists s. split; [exact Hs|]. apply Z.eqb_eq, E.
Qed.

Lemma secondPass_extends (count : nat) (ranked selected : list Candidate) :
  exists more, secondPass count ranked selected = selected ++ more
               /\ (forall c, In c more -> In c ranked).
Proof.
  revert selected. induction ranked as [|c rest IH]; intros selected; simpl.
  - exists []. rewrite app_nil_r. split; [reflexivity | tauto].
  - destruct (count <=? length selected)%nat.
    + exists []. rewrite app_nil_r. split; [reflexivity | simpl; tauto].
    + destruct (found selected c).
      * destruct (IH selected) as [more [E I]]. exists more. split; auto.
      * destruct (IH (selected ++ [c])) as [more [E I]].
        exists (c :: more). rewrite E, <- app_assoc. split; [reflexivity|].
        intros x [<- | H]; auto.
Qed.

Lemma secondPass_length (count : nat) (ranked selected : list Candidate) :
  (length selected <= count)%nat ->
  (length (secondPass count ranked selected) <= count)%nat.
Proof.
  revert selected. induction ranked as [|c rest IH]; intros selected H; simpl.
  - exact H.
  - destruct (count <=? length selected)%nat eqn:E; [exact H|].
    apply Nat.leb_gt in E.
    destruct (found selected c); apply IH; [exact H|].
    rewrite length_app. simpl. lia.
Qed.

Lemma secondPass_NoDup (count : nat) (ranked selected : list Candidate) :
  NoDup (map cand_number selected) ->
  NoDup (map cand_number (secondPass count ranked selected)).
Proof.
  revert selected. induction ranked as [|c rest IH]; intros selected H; simpl.
  - exact H.
  - destruct (count <=? length selected)%nat; [exact H|].
    destruct (found selected c) eqn:F; apply IH; [exact H|].
    rewrite map_app. simpl.
    apply (Permutation_NoDup (l := cand_number c :: map cand_number selected)).
    + apply Permutation_cons_append.
    + constructor; [|exact H]. intros I. apply found_In in I. congruence.
Qed.

(** A second pass that does not fill up has taken every candidate. *)
Lemma secondPass_complete (count : nat) (ranked selected : list Candidate) :
  (length (secondPass count ranked selected) < count)%nat ->
  forall c, In c ranked ->
            In (cand_number c)
               (map cand_number (secondPass count ranked selected)).
Proof.
  revert selected. induction ranked as [|c0 rest IH]; intros selected L c;
    simpl in *; [tauto|].
  destruct (count <=? length selected)%nat eqn:E.
  { apply Nat.leb_le in E. lia. }
  destruct (found selected c0) eqn:F.
  - intros [<- | H]; [|apply IH; assumption].
    apply found_In in F.
    destruct (secondPass_extends count rest selected) as [more [-> _]].
    rewrite map_app. apply in_or_app. left. exact F.
  - intros [<- | H]; [|apply IH; assumption].
    destruct (secondPass_extends count rest (selected ++ [c0]))
      as [more [-> _]].
    rewrite !map_app. apply in_or_app. left. apply in_or_app. right.
    simpl. auto.
Qed.

(** X11.  [selectTopNumbers] with any count, on a score map without a
    repeated key: the second pass fills what the decade rule left open,
    so the selection has [count] numbers when the map has that many and
    all numbers of the map otherwise; no number is selected twice; every
    selected entry is a number of the map with its score rounded to four
    decimals; the selection starts with what the first pass selected. *)
Theorem selector_fills_the_count (scores : JS.IntObj Q) (count : nat) :
  NoDup (JS.keys scores) ->
  length (selectTopNumbers scores count) = Nat.min count (length scores)
  /\ NoDup (map cand_number (selectTopNumbers scores count))
  /\ (forall c, In c (selectTopNumbers scores count) ->
                exists v, In (cand_number c, v) scores
                          /\ cand_score c = JS.toFixed 4 v)
  /\ firstn (length (firstPass count (rank scores) []))
            (selectTopNumbers scores count)
     = firstPass count (rank scores) [].
Proof.
  intros N. unfold selectTopNumbers. cbv zeta.
  set (ranked := rank scores).
  set (F := firstPass count ranked []).
  assert (NR : NoDup (map cand_number ranked)).
  { eapply Permutation_NoDup; [apply Permutation_sym, rank_numbers|].
    exact N. }
  assert (LR : length ranked = length scores).
  { unfold ranked, rank. rewrite sort_by_length, length_map. reflexivity. }
  destruct (firstPass_extends count ranked []) as [m1 [E1 I1]].
  fold F in E1. simpl in E1.
  destruct (secondPass_extends count ranked F) as [m2 [E2 I2]].
  assert (IS : forall c, In c (secondPass count ranked F) -> In c ranked).
  { intros c. rewrite E2, E1. intros H. apply in_app_or in H.
    destruct H; auto. }
  assert (NF : NoDup (map cand_number F)).
  { apply firstPass_NoDup. exact NR. }
  assert (NS : NoDup (map cand_number (secondPass count ranked F))).
  { apply secondPass_NoDup, NF. }
  assert (LS : (length (secondPass count ranked F) <= count)%nat).
  { apply secondPass_length, firstPass_length. simpl. lia. }
  assert (LI : (length (secondPass count ranked F) <= length ranked)%nat).
  { rewrite <- (length_map cand_number (secondPass count ranked F)).
    rewrite <- (length_map cand_number ranked).
    apply NoDup_incl_length; [exact NS|].
    intros n Hn. apply in_map_iff in Hn. destruct Hn as [c [<- Hc]].
    apply in_map, IS, Hc. }
  split; [|split; [exact NS|split]].
  - destruct (Nat.eq_dec (length (secondPass count ranked F)) count)
      as [E | E]; [lia|].
    assert (L : (length (secondPass count ranked F) < count)%nat) by lia.
    assert (G : (length ranked <= length (secondPass count ranked F))%nat).
    { rewrite <- (length_map cand_number (secondPass count ranked F)).
      rewrite <- (length_map cand_number ranked).
      apply NoDup_incl_length; [exact NR|].
      intros n Hn. apply in_map_iff in Hn. destruct Hn as [c [<- Hc]].
      apply secondPass_complete; assumption. }
    lia.
  - intros c Hc. apply IS in Hc. unfold ranked, rank in Hc.
    apply sort_by_In in Hc. apply in_map_iff in Hc.
    destruct Hc as [[k v] [<- He]]. exists v. split; [exact He|reflexivity].
  - rewrite E2. rewrite firstn_app, Nat.sub_diag, firstn_all. simpl.
    apply app_nil_r.
Qed.

End SelectorAnyCount.

(** Seven numbers wanted from a map of three: all three are returned, the
    best first. *)
Lemma selector_fills_witness :
  NoDup (JS.keys three_scores)
  /\ length (CorrelationAnalyzer.selectTopNumbers
               three_scores 7) = Nat.min 7 (length three_scores).
Proof.
  assert (N : NoDup (JS.keys three_scores)).
  { repeat constructor; simpl; intuition discriminate. }
  split; [exact N|].
  exact (proj1 (selector_fills_the_count
                  three_scores 7 N)).
Defined.

(** ** The draw store adapter, over several calls *)

Section AdapterFacts.

Import Server.

(** X12.  An answer that came from the cache is repeated: a later call
    for the same draw type, made while the cache is not older than the
    hour, returns the same draws and leaves the state as it is, whatever
    the store would answer. *)
Theorem cached_answer_is_repeated
        (store store' : Store) (now now' : Z) (drawTypeId : DrawTypeParam)
        (st st1 : CacheState) (r : list ServedDraw) :
  getDrawsData store now drawTypeId st = (Returned r, st1) ->
  from_cache drawTypeId st1 <> [] ->
  (now' - cache_timestamp (DATA_CACHE st1) <= TTL)%Z ->
  getDrawsData store' now' drawTypeId st1 = (Returned r, st1).
Proof.
  intros H C T. unfold getDrawsData in H. cbv zeta in H.
  destruct (from_cache drawTypeId (refresh store now st)) as [|d ds] eqn:E;
    cbn [length Nat.ltb Nat.leb] in H.
  - injection H as _ <-. congruence.
  - injection H as <- <-.
    assert (R : refresh store' now' (refresh store now st)
                = refresh store now st).
    { unfold refresh at 1.
      destruct (cache_draws (DATA_CACHE (refresh store now st))) eqn:D.
      - apply Z.leb_le in T. rewrite T. reflexivity.
      - unfold from_cache in E. rewrite D in E. discriminate. }
    unfold getDrawsData. cbv zeta. rewrite R, E. reflexivity.
Qed.


End AdapterFacts.

(** A store that answers with one draw fills the cache; a call one second
    later is answered from the cache although the store now fails. *)
Lemma cached_answer_witness :
  Server.getDrawsData one_draw_store 0 Server.NoType nothing_cached
  = (Returned [Server.serve draw_10_20_with_17], one_draw_cached)
  /\ Server.getDrawsData failing_store 1000 Server.NoType one_draw_cached
     = (Returned [Server.serve draw_10_20_with_17], one_draw_cached).
Proof.
  split; [reflexivity|].
  apply (cached_answer_is_repeated one_draw_store failing_store 0 1000
           Server.NoType nothing_cached one_draw_cached
           [Server.serve draw_10_20_with_17] eq_refl).
  - discriminate.
  - vm_compute. discriminate.
Defined.

(** ** The verification loop, entry by entry *)

Section VerifierFacts.

Import Server.

Lemma includes_column_In (actual : list (option Z)) (n : Z) :
  includes_column actual n = true <-> In (Some n) actual.
Proof.
  unfold includes_column. rewrite existsb_exists. split.
  - intros [[m|] [Hm E]]; [|discriminate].
    apply Z.eqb_eq in E. subst. exact Hm.
  - intros H. exists (Some n). split; [exact H | apply Z.eqb_refl].
Qed.

Lemma filter_disjoint_length (A : Type) (f g : A -> bool) (l : list A) :
  (forall x, f x = true -> g x = false) ->
  (length (filter f l) + length (filter g l) <= length l)%nat.
Proof.
  intros D. induction l as [|x l IH]; simpl; [lia|].
  destruct (f x) eqn:F.
  - rewrite (D x F). simpl. lia.
  - destruct (g x); simpl; lia.
Qed.

(** X14.  The comparison of predicted numbers with a draw: the matches are
    the predicted numbers that are drawn, in the order of the prediction,
    and [matchCount] is their number; the near misses are the predicted
    numbers that are not drawn and are next to a column of the draw, an
    empty column counting as 0; no number is both, and the two together
    are not more than the prediction has. *)
Theorem check_splits_the_prediction
        (predicted : list Z) (actual : list (option Z)) :
  matchCount (check predicted actual)
  = length (matching_numbers (check predicted actual))
  /\ (forall n, In n (matching_numbers (check predicted actual))
                <-> In n predicted /\ In (Some n) actual)
  /\ (forall n, In n (nearMisses (check predicted actual))
                <-> In n predicted
                    /\ ~ In (Some n) actual
                    /\ exists a, In a actual
                                 /\ Z.abs (column_value a - n) = 1%Z)
  /\ (forall n, In n (matching_numbers (check predicted actual)) ->
                ~ In n (nearMisses (check predicted actual)))
  /\ (matchCount (check predicted actual)
      + length (nearMisses (check predicted actual))
      <= length predicted)%nat.
Proof.
  unfold check. cbn [matchCount matching_numbers nearMisses].
  assert (M : forall n,
             In n (filter (includes_column actual) predicted)
             <-> In n predicted /\ In (Some n) actual).
  { intros n. rewrite filter_In, includes_column_In. reflexivity. }
  assert (N : forall n,
             In n (filter (fun n => if includes_column actual n then false
                                    else existsb (adjacent n) actual)
                          predicted)
             <-> In n predicted
                 /\ ~ In (Some n) actual
                 /\ exists a, In a actual
                              /\ Z.abs (column_value a - n) = 1%Z).
  { intros n. rewrite filter_In, <- includes_column_In.
    destruct (includes_column actual n).
    - split; [intros [_ H]; discriminate | intros [_ [H _]]; congruence].
    - rewrite existsb_exists. unfold adjacent, column_value. split.
      + intros [H [a [Ha E]]]. apply Z.eqb_eq in E.
        split; [exact H|]. split; [discriminate|]. eauto.
      + intros [H [_ [a [Ha E]]]]. split; [exact H|].
        exists a. split; [exact Ha|]. apply Z.eqb_eq, E. }
  split; [reflexivity|]. split; [exact M|]. split; [exact N|]. split.
  - intros n Hm Hn. apply M in Hm. apply N in Hn. tauto.
  - apply filter_disjoint_length. intros x H. rewrite H. reflexivity.
Qed.

Lemma verifyOne_verified_from (now : Z) (recent : list Draw)
      (p : Prediction) :
  unverified now p = true -> verified_from now p (verifyOne recent p).
Proof.
  intros U. unfold unverified in U. unfold verifyOne, verified_from.
  destruct (result p) eqn:R; [discriminate|]. apply Z.ltb_lt in U.
  destruct (targetDraw p recent) as [target|]; [|tauto].
  destruct (in_window p target); [|tauto].
  cbn [timestamp drawTypeId predictedNumbers machineNumbers hybridNumbers
       result].
  repeat split. right. repeat split; [exact U | discriminate].
Qed.

Lemma verified_from_refl (now : Z) (p : Prediction) : verified_from now p p.
Proof. unfold verified_from. tauto. Qed.

(** X15.  The verification only adds results.  The history keeps its
    length and its order; every entry keeps its time stamp, its draw type
    and its predicted, machine and hybrid numbers; an entry that changes
    had no result, is newer than seven days and now has a result. *)
Theorem verification_only_adds_results
        (force : bool) (now : Z) (table : option (list Draw))
        (st : Verifier) (history : list Prediction) :
  historyFile st = Some history ->
  exists history',
    historyFile (verifyPredictions force now table st) = Some history'
    /\ Forall2 (verified_from now) history history'.
Proof.
  intros H.
  assert (I : Forall2 (verified_from now) history history).
  { clear H. induction history; constructor;
      [apply verified_from_refl | assumption]. }
  unfold verifyPredictions.
  destruct (negb force && (now - lastVerificationTime st <? 60000)%Z);
    [exists history; split; assumption|].
  rewrite H.
  destruct (length (filter (unverified now) history) =? 0)%nat;
    [exists history; split; [reflexivity | exact I]|].
  destruct table as [rows|];
    [|exists history; split; [reflexivity | exact I]].
  eexists. split; [reflexivity|]. clear H I.
  induction history as [|p history IH]; simpl; constructor; [|exact IH].
  destruct (unverified now p) eqn:U;
    [apply verifyOne_verified_from, U | apply verified_from_refl].
Qed.

Lemma verify_entry_idempotent (now : Z) (recent : list Draw)
      (p : Prediction) :
  (if unverified now (if unverified now p then verifyOne recent p else p)
   then verifyOne recent (if unverified now p then verifyOne recent p else p)
   else (if unverified now p then verifyOne recent p else p))
  = (if unverified now p then verifyOne recent p else p).
Proof.
  destruct (unverified now p) eqn:U; [|rewrite U; reflexivity].
  destruct (verifyOne_verified_from now recent p U)
    as [_ [_ [_ [_ [_ [E | [_ [_ R]]]]]]]].
  - rewrite E, U. exact E.
  - unfold unverified at 1.
    destruct (result (verifyOne recent p)); [reflexivity | congruence].
Qed.

(** X16.  Running the verification a second time at the same moment on
    the same draws changes nothing further. *)
Theorem verification_is_idempotent
        (force : bool) (now : Z) (table : option (list Draw))
        (st : Verifier) :
  verifyPredictions force now table (verifyPredictions force now table st)
  = verifyPredictions force now table st.
Proof.
  unfold verifyPredictions at 2 3.
  destruct (negb force && (now - lastVerificationTime st <? 60000)%Z) eqn:T.
  { unfold verifyPredictions. rewrite T. reflexivity. }
  assert (G : forall h,
             (h = None
              \/ (exists l, h = Some l
                            /\ (length (filter (unverified now) l) =? 0)%nat
                               = true)
              \/ (exists l, h = Some l /\ table = None)
              \/ (exists l rows,
                     h = Some (map (fun p => if unverified now p
                                             then verifyOne
                                                    (recentDraws rows now) p
                                             else p) l)
                     /\ table = Some rows)) ->
             verifyPredictions force now table (mkVerifier now h)
             = mkVerifier now h).
  { intros h C. unfold verifyPredictions.
    cbn [lastVerificationTime historyFile].
    rewrite Z.sub_diag. destruct force; cbn [negb andb Z.ltb Z.compare];
      [|reflexivity].
    destruct C as [-> | [[l [-> E]] | [[l [-> E]] | [l [rows [-> E]]]]]].
    - reflexivity.
    - rewrite E. reflexivity.
    - rewrite E. destruct (length (filter (unverified now) l) =? 0)%nat;
        reflexivity.
    - rewrite E.
      destruct (length _ =? 0)%nat; [reflexivity|].
      rewrite map_map. f_equal. f_equal. apply map_ext.
      intros p. apply verify_entry_idempotent. }
  destruct (historyFile st) as [history|]; [|apply G; auto].
  destruct (length (filter (unverified now) history) =? 0)%nat eqn:E.
  { apply G. right. left. eauto. }
  destruct table as [rows|].
  - apply G. right. right. right. eauto.
  - apply G. right. right. left. eauto.
Qed.

End VerifierFacts.

(** The loop on the history with the prediction of noon of day 20000 and
    a draw of the next day: one entry before, one entry after. *)
Lemma verification_frame_witness :
  exists history',
    Server.historyFile
      (Server.verifyPredictions
         true (20002 * 86400000) (Some [draw_on 20001])
         (Server.mkVerifier 0 (Some [noon_prediction])))
    = Some history'
    /\ Forall2 (verified_from (20002 * 86400000)) [noon_prediction] history'.
Proof.
  exact (verification_only_adds_results
           true (20002 * 86400000) (Some [draw_on 20001])
           (Server.mkVerifier 0 (Some [noon_prediction]))
           [noon_prediction] eq_refl).
Defined.

(** ** The figures of an evaluation *)

Section EvaluationFacts.

Import Server.

Lemma filter_length_imp (A : Type) (f g : A -> bool) (l : list A) :
  (forall x, f x = true -> g x = true) ->
  (length (filter f l) <= length (filter g l))%nat.
Proof.
  intros I. induction l as [|x l IH]; simpl; [lia|].
  destruct (f x) eqn:F.
  - rewrite (I x F). simpl. lia.
  - destruct (g x); simpl; lia.
Qed.

Lemma filter_length_bound (A : Type) (f : A -> bool) (l : list A) :
  (length (filter f l) <= length l)%nat.
Proof.
  induction l as [|x l IH]; simpl; [lia|]. destruct (f x); simpl; lia.
Qed.

Lemma filter_negb_length (A : Type) (f : A -> bool) (l : list A) :
  (length (filter (fun x => negb (f x)) l) + length (filter f l)
   = length l)%nat.
Proof.
  induction l as [|x l IH]; simpl; [lia|]. destruct (f x); simpl; lia.
Qed.

Lemma Qltb_lt (a b : Q) : JS.Qltb a b = true <-> a < b.
Proof.
  unfold JS.Qltb. rewrite negb_true_iff. split.
  - intros H. apply Qnot_le_lt. intros L. apply Qle_bool_iff in L.
    congruence.
  - intros H. destruct (Qle_bool b a) eqn:E; [|reflexivity].
    apply Qle_bool_iff in E. lra.
Qed.

Lemma max_lower (a b : Q) : a <= JS.max a b.
Proof.
  unfold JS.max. destruct (Qle_bool a b) eqn:E.
  - apply Qle_bool_iff, E.
  - lra.
Qed.

Lemma min_upper (a b : Q) : JS.min a b <= a.
Proof.
  unfold JS.min. destruct (Qle_bool a b) eqn:E; [lra|].
  apply Qlt_le_weak, Qnot_le_lt. intros L. apply Qle_bool_iff in L.
  congruence.
Qed.

Lemma bonus_per_pair (A : Type) (l : list A) (acc : Q) :
  fold_left (fun acc _ => acc + 0.1) l acc
  == acc + 0.1 * inject_Z (Z.of_nat (length l)).
Proof.
  revert acc. induction l as [|x l IH]; intros acc; cbn [fold_left length].
  - change (inject_Z (Z.of_nat 0)) with 0. ring.
  - rewrite IH, Nat2Z.inj_succ. unfold Z.succ. rewrite inject_Z_plus.
    change (inject_Z 1) with 1. ring.
Qed.


End EvaluationFacts.

(** ** The scorer: the synergy step, and the scorer with the selector *)

Section ScorerFacts.

Import Brain.

Variable analyzeCycles : list Draw -> Stream -> JS.IntObj CycleStats.
Variable strategies : StrategyPool.

Lemma score_at_set (k m : Z) (v : Q) (scores : JS.IntObj Q) :
  score_at (JS.set k v scores) m
  = if (k =? m)%Z then v else score_at scores m.
Proof.
  unfold score_at. rewrite get_set. destruct (k =? m)%Z; reflexivity.
Qed.

Lemma synergy_at (votes : JS.IntObj Z) (scores : JS.IntObj Q) (i m : Z) :
  score_at (synergy votes scores i) m
  = if (i =? m)%Z
    then synergy_result (votes_at votes i) (score_at scores i)
    else score_at scores m.
Proof.
  unfold synergy, synergy_result. fold (votes_at votes i). cbv zeta.
  destruct (5 <=? votes_at votes i)%Z eqn:E5.
  { apply Z.leb_le in E5.
    assert (Z0 : (votes_at votes i =? 0)%Z = false) by (apply Z.eqb_neq; lia).
    rewrite Z0. cbn [andb]. apply score_at_set. }
  destruct (3 <=? votes_at votes i)%Z eqn:E3.
  { apply Z.leb_le in E3.
    assert (Z0 : (votes_at votes i =? 0)%Z = false) by (apply Z.eqb_neq; lia).
    rewrite Z0. cbn [andb]. apply score_at_set. }
  destruct ((votes_at votes i =? 0)%Z && JS.Qltb 2.0 (score_at scores i)).
  - apply score_at_set.
  - destruct (i =? m)%Z eqn:E; [|reflexivity].
    apply Z.eqb_eq in E. subst m. reflexivity.
Qed.

Lemma synergy_fold (votes : JS.IntObj Z) (l : list Z)
      (scores : JS.IntObj Q) (m : Z) :
  NoDup l ->
  score_at (fold_left (synergy votes) l scores) m
  = if JS.includes l m
    then synergy_result (votes_at votes m) (score_at scores m)
    else score_at scores m.
Proof.
  intros N. revert scores. induction N as [|i l Hi N IH]; intros scores.
  - reflexivity.
  - cbn [fold_left]. rewrite IH, !synergy_at.
    unfold JS.includes. cbn [existsb]. fold (JS.includes l m).
    destruct (i =? m)%Z eqn:E; [|reflexivity].
    apply Z.eqb_eq in E. subst m. cbn [orb].
    destruct (JS.includes l i) eqn:I; [|reflexivity].
    apply includes_In in I. contradiction.
Qed.

Lemma includes_1_90 (i : Z) :
  JS.includes numbers_1_90 i = (1 <=? i)%Z && (i <=? 90)%Z.
Proof.
  destruct (JS.includes numbers_1_90 i) eqn:I.
  - apply includes_In, numbers_1_90_In in I. symmetry.
    apply andb_true_iff. split; apply Z.leb_le; lia.
  - symmetry. apply not_true_is_false. intros H.
    apply andb_true_iff in H. destruct H as [H1 H2].
    apply Z.leb_le in H1, H2.
    assert (C : JS.includes numbers_1_90 i = true).
    { apply includes_In, numbers_1_90_In. lia. }
    congruence.
Qed.

(** X18.  The last step of [calculateNumberScores] treats every number of
    1..90 on its own: its final score is its score after the tactical
    neighbours step, times 1.20 with five votes or more, times 1.10 with
    three or four, times 0.85 with no vote and a score above 2, and
    unchanged otherwise. *)
Theorem synergy_is_applied_number_by_number
        (draws : list Draw) (w : Weights) (type : Stream) (lstm : list Z)
        (i : Z) :
  score_at (calculateNumberScores analyzeCycles strategies draws w type lstm)
           i
  = if (1 <=? i)%Z && (i <=? 90)%Z
    then synergy_result
           (votes_at (snd (strategyScores analyzeCycles strategies draws w
                                          type lstm)) i)
           (score_at
              (tacticalNeighbors
                 (fst (strategyScores analyzeCycles strategies draws w type
                                      lstm))) i)
    else score_at
           (tacticalNeighbors
              (fst (strategyScores analyzeCycles strategies draws w type
                                   lstm))) i.
Proof.
  unfold calculateNumberScores. cbv zeta.
  rewrite synergy_fold by apply numbers_1_90_NoDup.
  rewrite includes_1_90. reflexivity.
Qed.

Lemma synergy_keys (votes : JS.IntObj Z) (scores : JS.IntObj Q) (i : Z) :
  JS.keys scores = numbers_1_90 -> In i numbers_1_90 ->
  JS.keys (synergy votes scores i) = numbers_1_90.
Proof.
  intros K I.
  assert (S : forall (v : Q) (sc : JS.IntObj Q),
             JS.keys sc = numbers_1_90 ->
             JS.keys (JS.set i v sc) = numbers_1_90).
  { intros v sc Ks. rewrite keys_set_present; [exact Ks | |];
      rewrite Ks; [apply numbers_1_90_sorted | exact I]. }
  unfold synergy. cbv zeta.
  destruct (5 <=? _)%Z; [|destruct (3 <=? _)%Z];
    match goal with
    | |- context [if ?c then _ else _] => destruct c
    end; auto.
Qed.

Lemma calculateNumberScores_keys
      (draws : list Draw) (w : Weights) (type : Stream) (lstm : list Z) :
  proposes_1_90 analyzeCycles strategies ->
  (forall n, In n lstm -> In n numbers_1_90) ->
  JS.keys (calculateNumberScores analyzeCycles strategies draws w type lstm)
  = numbers_1_90.
Proof.
  intros P L. unfold calculateNumberScores. cbv zeta.
  set (st := strategyScores analyzeCycles strategies draws w type lstm).
  assert (K : JS.keys (fst st) = numbers_1_90)
    by (apply strategyScores_keys; assumption).
  assert (T : JS.keys (tacticalNeighbors (fst st)) = numbers_1_90).
  { unfold tacticalNeighbors. apply spread_all_keys; [exact K|].
    intros c Hc. apply topCandidates_spec in Hc. destruct Hc as [s [Hc _]].
    apply numbers_1_90_In. rewrite <- K. unfold JS.keys.
    apply in_map_iff. exists (c, s). auto. }
  assert (F : forall l (sc : JS.IntObj Q),
             (forall i, In i l -> In i numbers_1_90) ->
             JS.keys sc = numbers_1_90 ->
             JS.keys (fold_left (synergy (snd st)) l sc) = numbers_1_90).
  { induction l as [|i l IH]; intros sc I Ks; cbn [fold_left]; [exact Ks|].
    apply IH; [intros j Hj; apply I; right; exact Hj|].
    apply synergy_keys; [exact Ks | apply I; left; reflexivity]. }
  apply F; [auto | exact T].
Qed.

Lemma sorted_selection (scores : JS.IntObj Q) :
  JS.keys scores = numbers_1_90 ->
  balanced_five
    (JS.sort_asc
       (map CorrelationAnalyzer.cand_number
            (CorrelationAnalyzer.selectTopNumbers scores 5)))
  /\ StronglySorted Z.lt
       (JS.sort_asc
          (map CorrelationAnalyzer.cand_number
               (CorrelationAnalyzer.selectTopNumbers scores 5))).
Proof.
  intros Ks.
  assert (B : balanced_five
                (JS.sort_asc
                   (map CorrelationAnalyzer.cand_number
                        (CorrelationAnalyzer.selectTopNumbers scores 5)))).
  { eapply balanced_five_perm;
      [apply Permutation_sym, sort_by_perm
      | apply selectTopNumbers_balanced, Ks]. }
  split; [exact B|].
  apply sorted_le_NoDup_lt; [apply sort_asc_sorted|].
  destruct B as [_ [N _]]. exact N.
Qed.


End ScorerFacts.


(** ** The prediction history *)

Section HistoryFacts.

Import Server.

(** X20.  [logPredictionToHistory] puts the new entry, without a result,
    in front of the history and keeps the 1000 newest entries; a history
    that is missing or cannot be parsed counts as empty.  The new entry is
    one the verification loop looks at during the seven days that follow. *)
Theorem log_keeps_the_newest_thousand
        (now : Z) (type : option Z) (main : list Z)
        (machineNums hybridNums : option (list Z))
        (historyFile : option (list Prediction)) :
  logPredictionToHistory now type main machineNums hybridNums historyFile
  = mkPrediction now type main machineNums hybridNums None None None
    :: firstn 999 (match historyFile with Some h => h | None => [] end)
  /\ length (logPredictionToHistory now type main machineNums hybridNums
                                    historyFile)
     = Nat.min 1000
               (S (length (match historyFile with
                           | Some h => h
                           | None => []
                           end)))
  /\ (forall later,
        (later - 7 * MS_PER_DAY < now)%Z ->
        exists rest,
          filter (unverified later)
                 (logPredictionToHistory now type main machineNums
                                         hybridNums historyFile)
          = mkPrediction now type main machineNums hybridNums None None None
            :: rest).
Proof.
  set (old := match historyFile with Some h => h | None => [] end).
  set (entry := mkPrediction now type main machineNums hybridNums
                             None None None).
  assert (E : logPredictionToHistory now type main machineNums hybridNums
                                     historyFile
              = entry :: firstn 999 old).
  { unfold logPredictionToHistory. cbv zeta. fold old. fold entry.
    destruct (1000 <? length (entry :: old))%nat eqn:L.
    - reflexivity.
    - apply Nat.ltb_ge in L. cbn [length] in L.
      rewrite firstn_all2 by lia. reflexivity. }
  rewrite E. split; [reflexivity|]. split.
  - cbn [length]. rewrite length_firstn. lia.
  - intros later H. cbn [filter]. unfold unverified at 1.
    cbn [result timestamp entry]. unfold sevenDaysAgo.
    apply Z.ltb_lt in H. rewrite H. eexists. reflexivity.
Qed.

Lemma includes_non_null (columns : list (option Z)) (n : Z) :
  JS.includes (non_null columns) n = includes_column columns n.
Proof.
  unfold JS.includes, includes_column, non_null.
  induction columns as [|[m|] columns IH]; simpl; [reflexivity| |exact IH].
  rewrite IH. reflexivity.
Qed.

Lemma nth_error_last (A : Type) (l : list A) (x : A) :
  nth_error l (length l - 1) = Some x -> exists before, l = before ++ [x].
Proof.
  intros H. destruct l as [|a l]; [discriminate|].
  assert (N : a :: l <> []) by discriminate.
  rewrite (app_removelast_last a N) in H |- *.
  generalize dependent (removelast (a :: l)). intros before H.
  rewrite length_app in H. cbn [length] in H.
  replace (length before + 1 - 1)%nat with (length before) in H by lia.
  rewrite nth_error_app2 in H by lia. rewrite Nat.sub_diag in H.
  injection H as <-. exists before. reflexivity.
Qed.

(** X21.  [getLastPerformance] compares the newest prediction of the draw
    type (the first one in the history) with the last of the draws it is
    given, and with no other; it answers only when that draw is dated on
    the day of the prediction or later, and its matches are those the
    verification loop finds for the same prediction and draw. *)
Theorem last_performance_reads_the_newest
        (type : DrawTypeParam) (historyFile : option (list Prediction))
        (rows : list Draw) (perf : Performance) :
  getLastPerformance type historyFile (map serve rows) = Some perf ->
  exists id history pred before latest,
    filter_id type = Some id
    /\ historyFile = Some history
    /\ find (fun p => match drawTypeId p with
                      | Some t => (t =? id)%Z
                      | None => false
                      end) history = Some pred
    /\ rows = before ++ [latest]
    /\ (day_of (timestamp pred) <= draw_date latest)%Z
    /\ perf_date perf = draw_date latest
    /\ perf_predicted perf = predictedNumbers pred
    /\ perf_actual perf = non_null (winning_columns latest)
    /\ perf_matches perf
       = matching_numbers
           (check (predictedNumbers pred) (winning_columns latest))
    /\ perf_matchCount perf
       = matchCount (check (predictedNumbers pred) (winning_columns latest)).
Proof.
  unfold getLastPerformance. intros H.
  destruct (filter_id type) as [id|]; [|discriminate].
  destruct historyFile as [history|]; [|discriminate].
  destruct (find _ history) as [pred|] eqn:F; [|discriminate].
  destruct (nth_error (map serve rows) (length (map serve rows) - 1))
    as [latestDraw|] eqn:N; [|discriminate].
  destruct (day_of (timestamp pred) <=? draw_date (base latestDraw))%Z eqn:D;
    [|discriminate].
  injection H as <-. apply Z.leb_le in D.
  rewrite length_map, nth_error_map in N.
  destruct (nth_error rows (length rows - 1)) as [latest|] eqn:N';
    [|discriminate].
  injection N as <-. apply nth_error_last in N'. destruct N' as [before ->].
  exists id, history, pred, before, latest.
  cbn [perf_date perf_predicted perf_actual perf_matches perf_matchCount
       serve base numbers_drawn] in *.
  assert (M : filter (JS.includes (non_null (winning_columns latest)))
                     (predictedNumbers pred)
              = matching_numbers
                  (check (predictedNumbers pred) (winning_columns latest))).
  { unfold check. cbn [matching_numbers]. apply filter_ext.
    intros n. apply includes_non_null. }
  repeat split; try assumption; try reflexivity.
  rewrite M. reflexivity.
Qed.

End HistoryFacts.

(** The prediction of noon of day 20000 and the draw of the next day. *)
Lemma last_performance_witness :
  Server.getLastPerformance (Server.TypeId 1) noon_history
                            (map Server.serve [draw_on 20001])
  = Some (Server.mkPerformance 20001 [7; 15; 23; 42; 71]%Z
                               [7; 16; 30; 42; 80]%Z 2 [7; 42]%Z)
  /\ exists id history pred before latest,
       Server.filter_id (Server.TypeId 1) = Some id
       /\ noon_history = Some history
       /\ find (fun p => match Server.drawTypeId p with
                         | Some t => (t =? id)%Z
                         | None => false
                         end) history = Some pred
       /\ [draw_on 20001] = before ++ [latest]
       /\ (Server.day_of (Server.timestamp pred) <= draw_date latest)%Z.
Proof.
  split; [reflexivity|].
  destruct (last_performance_reads_the_newest
              (Server.TypeId 1) noon_history [draw_on 20001]
              (Server.mkPerformance 20001 [7; 15; 23; 42; 71]%Z
                                    [7; 16; 30; 42; 80]%Z 2 [7; 42]%Z)
              eq_refl)
    as [id [history [pred [before [latest [H1 [H2 [H3 [H4 [H5 _]]]]]]]]]].
  exists id, history, pred, before, latest. repeat split; assumption.
Defined.

(** ** The frequency table and the strategies that read it *)

Section FrequencyFacts.

Import Backtester.

Lemma initial_keys (V : Type) (v : V) :
  JS.keys (map (fun i => (i, v)) numbers_1_90) = numbers_1_90.
Proof. unfold JS.keys. rewrite map_map. cbn [fst]. apply map_id. Qed.

Lemma count_number_keys (freq : JS.IntObj Z) (n : Z) :
  JS.keys freq = numbers_1_90 ->
  JS.keys (count_number freq n) = numbers_1_90.
Proof.
  intros K. unfold count_number. destruct (n =? 0)%Z; [exact K|].
  destruct (JS.get n freq) eqn:G; [|exact K].
  rewrite keys_set_present; [exact K | |].
  - rewrite K. apply numbers_1_90_sorted.
  - eapply get_Some_In. exact G.
Qed.

Lemma freq_at_count_number (freq : JS.IntObj Z) (n m : Z) :
  In m (JS.keys freq) -> m <> 0%Z ->
  freq_at (count_number freq n) m
  = (freq_at freq m + if (n =? m)%Z then 1 else 0)%Z.
Proof.
  intros I M. unfold count_number.
  destruct (n =? 0)%Z eqn:Z0.
  { apply Z.eqb_eq in Z0. subst n. destruct (0 =? m)%Z eqn:E; [|lia].
    apply Z.eqb_eq in E. congruence. }
  destruct (JS.get n freq) as [c|] eqn:G.
  - unfold freq_at. rewrite get_set. destruct (n =? m)%Z eqn:E; [|lia].
    apply Z.eqb_eq in E. subst m. rewrite G. reflexivity.
  - destruct (n =? m)%Z eqn:E; [|lia].
    apply Z.eqb_eq in E. subst m. apply In_get_Some in I.
    destruct I as [v I]. congruence.
Qed.

Lemma count_numbers_spec (nums : list Z) (freq : JS.IntObj Z) :
  JS.keys freq = numbers_1_90 ->
  JS.keys (fold_left count_number nums freq) = numbers_1_90
  /\ (forall m, (1 <= m <= 90)%Z ->
                freq_at (fold_left count_number nums freq) m
                = (freq_at freq m + occurrences m nums)%Z).
Proof.
  revert freq. induction nums as [|n nums IH]; intros freq K;
    cbn [fold_left].
  - split; [exact K|]. intros m _. unfold occurrences. simpl. lia.
  - destruct (IH (count_number freq n) (count_number_keys freq n K))
      as [K' F].
    split; [exact K'|]. intros m R. rewrite (F m R), occurrences_cons.
    rewrite freq_at_count_number; [lia | | lia].
    rewrite K. apply numbers_1_90_In, R.
Qed.

Lemma count_draws_spec (type : Stream) (draws : list Draw)
      (freq : JS.IntObj Z) :
  JS.keys freq = numbers_1_90 ->
  JS.keys (fold_left
             (fun freq d =>
                fold_left count_number (extractNumbers d type) freq)
             draws freq) = numbers_1_90
  /\ (forall m, (1 <= m <= 90)%Z ->
                freq_at (fold_left
                           (fun freq d =>
                              fold_left count_number (extractNumbers d type)
                                        freq)
                           draws freq) m
                = (freq_at freq m + appearances draws type m)%Z).
Proof.
  revert freq. induction draws as [|d draws IH]; intros freq K;
    cbn [fold_left appearances].
  - split; [exact K|]. intros m _. lia.
  - destruct (count_numbers_spec (extractNumbers d type) freq K) as [K1 F1].
    destruct (IH _ K1) as [K2 F2]. split; [exact K2|].
    intros m R. rewrite (F2 m R), (F1 m R). lia.
Qed.

(** The table has the numbers 1..90, each with the number of times it was
    drawn. *)
Lemma frequencies_spec (draws : list Draw) (type : Stream) :
  JS.keys (frequencies draws type) = numbers_1_90
  /\ (forall m, (1 <= m <= 90)%Z ->
                freq_at (frequencies draws type) m
                = appearances draws type m).
Proof.
  destruct (count_draws_spec type draws
              (map (fun i => (i, 0%Z)) numbers_1_90) (initial_keys Z 0%Z))
    as [K F].
  split; [exact K|]. intros m R. unfold frequencies. rewrite (F m R).
  assert (Z0 : freq_at (map (fun i => (i, 0%Z)) numbers_1_90) m = 0%Z).
  { unfold freq_at.
    destruct (JS.get m (map (fun i => (i, 0%Z)) numbers_1_90)) as [v|] eqn:G;
      [|reflexivity].
    apply get_In, in_map_iff in G. destruct G as [i [G _]].
    congruence. }
  rewrite Z0. lia.
Qed.

Lemma by_frequency_sorted (freq : JS.IntObj Z) :
  StronglySorted (fun y z : Z * Z => (snd z <= snd y)%Z) (by_frequency freq).
Proof.
  unfold by_frequency.
  eapply sorted_impl;
    [|apply (sort_by_sorted (Z * Z) (fun y x => (snd x <? snd y)%Z))].
  - intros x y H. apply Z.ltb_ge in H. exact H.
  - intros x y H. apply Z.ltb_lt in H. apply Z.ltb_ge. lia.
  - intros x y z H1 H2. apply Z.ltb_ge in H1, H2. apply Z.ltb_ge. lia.
Qed.

(** X22.  On draws of numbers of the game, [strategyHotNumbers] returns
    [count] numbers (all 90 when more are asked for), in ascending order
    without repetition, all of 1..90, and no number of 1..90 that is left
    out was drawn more often than a number that is returned.  The
    statement is about draws of numbers of the game because these are the
    draws on which [count_number] follows the source on the whole table. *)
Theorem hot_numbers_are_the_most_frequent
        (draws : list Draw) (count : nat) (type : Stream) :
  numbers_of_the_game draws type ->
  length (strategyHotNumbers draws count type) = Nat.min count 90
  /\ StronglySorted Z.lt (strategyHotNumbers draws count type)
  /\ (forall n, In n (strategyHotNumbers draws count type) ->
                (1 <= n <= 90)%Z)
  /\ (forall n m,
        In n (strategyHotNumbers draws count type) ->
        (1 <= m <= 90)%Z ->
        ~ In m (strategyHotNumbers draws count type) ->
        (appearances draws type m <= appearances draws type n)%Z).
Proof.
  intros _. destruct (frequencies_spec draws type) as [K F].
  unfold strategyHotNumbers, JS.slice, JS.sort_asc.
  set (freq := frequencies draws type) in *.
  assert (N : NoDup (map fst freq)).
  { change (map fst freq) with (JS.keys freq). rewrite K.
    apply numbers_1_90_NoDup. }
  assert (P : Permutation (map fst (by_frequency freq)) numbers_1_90).
  { rewrite <- K. apply Permutation_map, sort_by_perm. }
  assert (NT : NoDup (map fst (firstn count (by_frequency freq)))).
  { rewrite <- firstn_map. apply firstn_NoDup.
    eapply Permutation_NoDup; [apply Permutation_sym, P|].
    apply numbers_1_90_NoDup. }
  assert (I : forall n,
             In n (JS.sort_by (fun y x => (y <? x)%Z)
                     (map fst (firstn count (by_frequency freq))))
             <-> In (n, freq_at freq n) (firstn count (by_frequency freq))).
  { intros n. rewrite sort_by_In, in_map_iff. split.
    - intros [[k c] [<- H]]. cbn [fst].
      assert (G : JS.get k freq = Some c).
      { apply In_get_unique; [exact N|].
        apply slice_In in H. apply sort_by_In in H. exact H. }
      unfold freq_at. rewrite G. exact H.
    - intros H. exists (n, freq_at freq n). auto. }
  split; [|split; [|split]].
  - rewrite sort_by_length, length_map, length_firstn.
    unfold by_frequency. rewrite sort_by_length.
    rewrite <- (length_map fst freq).
    change (map fst freq) with (JS.keys freq). rewrite K. reflexivity.
  - apply sorted_le_NoDup_lt; [apply sort_asc_sorted|].
    eapply Permutation_NoDup; [apply Permutation_sym, sort_by_perm|].
    exact NT.
  - intros n H. apply I in H. apply slice_In in H.
    apply numbers_1_90_In. rewrite <- K. unfold by_frequency in H.
    apply sort_by_In in H. unfold JS.keys. apply in_map_iff.
    exists (n, freq_at freq n). auto.
  - intros n m Hn R Hm. apply I in Hn.
    rewrite <- (F n), <- (F m R).
    2:{ apply slice_In in Hn. unfold by_frequency in Hn.
        apply sort_by_In in Hn. apply numbers_1_90_In. rewrite <- K.
        unfold JS.keys. apply in_map_iff. exists (n, freq_at freq n). auto. }
    assert (Em : In (m, freq_at freq m) (by_frequency freq)).
    { unfold by_frequency. apply sort_by_In.
      assert (Hk : In m (JS.keys freq)) by (rewrite K; apply numbers_1_90_In, R).
      apply In_get_Some in Hk. destruct Hk as [c G].
      unfold freq_at. rewrite G. apply get_In, G. }
    rewrite <- (firstn_skipn count) in Em. apply in_app_or in Em.
    destruct Em as [Em | Em]; [exfalso; apply Hm, I, Em|].
    exact (firstn_skipn_sorted _ _ count _ _ _
             (by_frequency_sorted freq) Hn Em).
Qed.

Lemma range_In (start stop m : Z) :
  In m (range start stop) <-> (start <= m <= stop)%Z.
Proof.
  unfold range. rewrite in_map_iff. split.
  - intros [k [<- H]]. apply in_seq in H. lia.
  - intros H. exists (Z.to_nat (m - start)). split; [lia|].
    apply in_seq. lia.
Qed.

(** The head of a block is a number of the block that no number of the
    block beats. *)
Lemma block_best_spec (freq : JS.IntObj Z) (i : Z) :
  (0 <= i <= 8)%Z ->
  (exists rest,
      decade_block freq i
      = (block_best freq i, freq_at freq (block_best freq i)) :: rest)
  /\ (block_best freq i / 10 = i)%Z
  /\ (1 <= block_best freq i <= 89)%Z
  /\ (forall m, (1 <= m <= 89)%Z -> (m / 10 = i)%Z ->
                (freq_at freq m <= freq_at freq (block_best freq i))%Z).
Proof.
  intros R. unfold block_best.
  pose proof (sort_by_sorted (Z * Z) (fun y x => (snd x <? snd y)%Z)) as S.
  unfold decade_block in *. cbv zeta.
  set (start := if (i =? 0)%Z then 1%Z else (i * 10)%Z).
  set (stop := if (i =? 0)%Z then 9%Z else Z.min (i * 10 + 9) 90).
  set (l := map (fun n => (n, freq_at freq n)) (range start stop)).
  assert (B : forall m, (start <= m <= stop)%Z
                        <-> (1 <= m <= 89)%Z /\ (m / 10 = i)%Z).
  { intros m. unfold start, stop. destruct (i =? 0)%Z eqn:E.
    - apply Z.eqb_eq in E. subst i.
      split; intros H; [split|]; Z.to_euclidean_division_equations; lia.
    - apply Z.eqb_neq in E.
      split; intros H; [split|]; Z.to_euclidean_division_equations; lia. }
  assert (Il : forall e, In e l
                         <-> (start <= fst e <= stop)%Z
                             /\ snd e = freq_at freq (fst e)).
  { intros [n c]. unfold l. rewrite in_map_iff. cbn [fst snd]. split.
    - intros [k [E H]]. injection E as -> <-. apply range_In in H. tauto.
    - intros [H ->]. exists n. split; [reflexivity | apply range_In, H]. }
  specialize (S ltac:(intros x y H; apply Z.ltb_lt in H; apply Z.ltb_ge; lia)
                ltac:(intros x y z H1 H2; apply Z.ltb_ge in H1, H2;
                      apply Z.ltb_ge; lia) l).
  assert (Ne : In (start, freq_at freq start) l).
  { apply Il. cbn [fst snd]. split; [|reflexivity].
    unfold start, stop. destruct (i =? 0)%Z; lia. }
  apply (sort_by_In _ (fun y x : Z * Z => (snd x <? snd y)%Z)) in Ne.
  destruct (JS.sort_by (fun y x : Z * Z => (snd x <? snd y)%Z) l)
    as [|best rest] eqn:EL; [destruct Ne|].
  assert (Hb : In best l).
  { apply (sort_by_In _ (fun y x : Z * Z => (snd x <? snd y)%Z)).
    rewrite EL. left. reflexivity. }
  apply Il in Hb. destruct Hb as [Hb1 Hb2]. apply B in Hb1.
  split; [|split; [tauto|split; [tauto|]]].
  - exists rest. rewrite <- Hb2, <- surjective_pairing. reflexivity.
  - intros m Rm Dm. rewrite <- Hb2.
    assert (Hm : In (m, freq_at freq m) (best :: rest)).
    { rewrite <- EL. apply sort_by_In. apply Il. cbn [fst snd].
      split; [apply B; tauto | reflexivity]. }
    destruct Hm as [Eb | Hm]; [rewrite Eb; cbn [snd]; lia|].
    inversion S as [|? ? _ Fa]; subst. rewrite Forall_forall in Fa.
    specialize (Fa _ Hm). cbn [snd] in Fa. apply Z.ltb_ge in Fa. exact Fa.
Qed.

Lemma pick_decades_closed (freq : JS.IntObj Z) (count : nat)
      (order selected : list Z) :
  NoDup order ->
  (forall d, In d order -> (0 <= d <= 8)%Z) ->
  (forall n, In n selected -> ~ In (n / 10)%Z order) ->
  pick_decades freq count order selected
  = selected
      ++ map (block_best freq) (firstn (count - length selected) order).
Proof.
  revert selected. induction order as [|d order IH];
    intros selected N R D; cbn [pick_decades].
  - rewrite firstn_nil, app_nil_r. reflexivity.
  - destruct (count <=? length selected)%nat eqn:L.
    { apply Nat.leb_le in L.
      replace (count - length selected)%nat with 0%nat by lia.
      rewrite app_nil_r. reflexivity. }
    apply Nat.leb_gt in L.
    destruct (block_best_spec freq d (R d (or_introl eq_refl)))
      as [[rest E] [Bd [_ _]]].
    rewrite E. cbn [fst].
    assert (I : JS.includes selected (block_best freq d) = false).
    { apply not_true_is_false. intros H. apply includes_In in H.
      apply (D _ H). rewrite Bd. left. reflexivity. }
    rewrite I. inversion N as [|? ? Nd N']; subst.
    rewrite IH; [| exact N' | intros; apply R; right; assumption |].
    + rewrite length_app. cbn [length].
      replace (count - length selected)%nat
        with (S (count - (length selected + 1)))%nat by lia.
      cbn [firstn map]. rewrite <- app_assoc. reflexivity.
    + intros n Hn Hd. apply in_app_or in Hn. destruct Hn as [Hn | [<- | []]].
      * apply (D n Hn). right. exact Hd.
      * rewrite Bd in Hd. contradiction.
Qed.

Lemma decadeOrder_facts :
  NoDup decadeOrder /\ (forall d, In d decadeOrder -> (0 <= d <= 8)%Z).
Proof.
  split.
  - unfold decadeOrder.
    repeat (constructor; [simpl; intuition discriminate|]). constructor.
  - intros d H. simpl in H. intuition lia.
Qed.

(** X23.  [strategyBalanced] returns one number from each of the first
    [count] blocks of its order 20s, 30s, 40s, 50s, 10s, 60s, 70s, 1..9,
    80s (nine numbers at most), in ascending order: of each block the
    number drawn most often.  The block of a number [n] is [n / 10]
    rounded down, and the last block ends at 89: 90 is never proposed. *)
Theorem balanced_takes_the_best_of_each_block
        (draws : list Draw) (count : nat) (type : Stream) :
  length (strategyBalanced draws count type) = Nat.min count 9
  /\ StronglySorted Z.lt (strategyBalanced draws count type)
  /\ (forall n,
        In n (strategyBalanced draws count type) ->
        (1 <= n <= 89)%Z
        /\ In (n / 10)%Z (firstn count decadeOrder)
        /\ (forall m, (1 <= m <= 89)%Z -> (m / 10 = n / 10)%Z ->
                      (appearances draws type m
                       <= appearances draws type n)%Z))
  /\ (forall d, In d (firstn count decadeOrder) ->
                exists n, In n (strategyBalanced draws count type)
                          /\ (n / 10 = d)%Z)
  /\ (forall n m,
        In n (strategyBalanced draws count type) ->
        In m (strategyBalanced draws count type) ->
        (n / 10 = m / 10)%Z -> n = m).
Proof.
  destruct decadeOrder_facts as [N R].
  destruct (frequencies_spec draws type) as [_ F].
  unfold strategyBalanced, JS.sort_asc.
  rewrite pick_decades_closed by (auto; intros n []).
  cbn [app length]. rewrite Nat.sub_0_r.
  set (freq := frequencies draws type) in *.
  set (ds := firstn count decadeOrder).
  assert (Rd : forall d, In d ds -> (0 <= d <= 8)%Z).
  { intros d H. apply R. eapply slice_In. exact H. }
  assert (Nd : NoDup ds) by (apply firstn_NoDup, N).
  assert (I : forall n,
             In n (JS.sort_by (fun y x => (y <? x)%Z)
                              (map (block_best freq) ds))
             <-> exists d, In d ds /\ block_best freq d = n).
  { intros n. rewrite sort_by_In, in_map_iff. split.
    - intros [d [E H]]. eauto.
    - intros [d [H E]]. eauto. }
  split; [|split; [|split; [|split]]].
  - rewrite sort_by_length, length_map. unfold ds.
    rewrite length_firstn. reflexivity.
  - apply sorted_le_NoDup_lt; [apply sort_asc_sorted|].
    eapply Permutation_NoDup; [apply Permutation_sym, sort_by_perm|].
    apply NoDup_map_NoDup_ForallPairs; [|exact Nd].
    intros d1 d2 H1 H2 E.
    destruct (block_best_spec freq d1 (Rd d1 H1)) as [_ [B1 _]].
    destruct (block_best_spec freq d2 (Rd d2 H2)) as [_ [B2 _]].
    congruence.
  - intros n H. apply I in H. destruct H as [d [Hd <-]].
    destruct (block_best_spec freq d (Rd d Hd)) as [_ [B [Rn M]]].
    split; [exact Rn|]. split; [rewrite B; exact Hd|].
    intros m Rm Dm. rewrite <- (F m), <- (F (block_best freq d)) by lia.
    apply M; [exact Rm | congruence].
  - intros d Hd. exists (block_best freq d). split; [apply I; eauto|].
    apply (block_best_spec freq d (Rd d Hd)).
  - intros n m Hn Hm E. apply I in Hn, Hm.
    destruct Hn as [d1 [H1 <-]]. destruct Hm as [d2 [H2 <-]].
    destruct (block_best_spec freq d1 (Rd d1 H1)) as [_ [B1 _]].
    destruct (block_best_spec freq d2 (Rd d2 H2)) as [_ [B2 _]].
    congruence.
Qed.

End FrequencyFacts.

(** The five most frequent numbers of ten draws of 1, 2, 3, 4, 5. *)
Lemma hot_numbers_witness :
  numbers_of_the_game ten_times_1_to_5 winning
  /\ length (Backtester.strategyHotNumbers ten_times_1_to_5 5 winning)
     = Nat.min 5 90.
Proof.
  assert (G : numbers_of_the_game ten_times_1_to_5 winning).
  { intros d n Hd Hn. unfold ten_times_1_to_5 in Hd.
    apply in_map_iff in Hd. destruct Hd as [i [<- _]].
    simpl in Hn. intuition lia. }
  split; [exact G|].
  exact (proj1 (hot_numbers_are_the_most_frequent
                  ten_times_1_to_5 5 winning G)).
Defined.

(** ** Pair and triple counts *)

Section CounterFacts.

Import AdvancedAnalyzer.

Lemma key_eqb_eq (k1 k2 : list Z) : Counter.key_eqb k1 k2 = true <-> k1 = k2.
Proof.
  unfold Counter.key_eqb. destruct (list_eq_dec Z.eq_dec k1 k2); split;
    intros; congruence.
Qed.

Lemma key_eqb_refl (k : list Z) : Counter.key_eqb k k = true.
Proof. apply key_eqb_eq. reflexivity. Qed.

Lemma key_eqb_neq (k1 k2 : list Z) :
  k1 <> k2 -> Counter.key_eqb k1 k2 = false.
Proof.
  intros N. apply not_true_is_false. intros H. apply key_eqb_eq in H.
  contradiction.
Qed.

Lemma count_of_bump (k key : list Z) (c : Counter.t) :
  count_of k (Counter.bump key c)
  = (count_of k c + if Counter.key_eqb key k then 1 else 0)%Z.
Proof.
  unfold count_of. induction c as [|[k' n] c IH]; cbn [Counter.bump find].
  - cbn [fst snd]. destruct (Counter.key_eqb key k); reflexivity.
  - destruct (Counter.key_eqb k' key) eqn:E; cbn [find fst snd].
    + apply key_eqb_eq in E. subst k'.
      destruct (Counter.key_eqb key k); cbn [snd]; lia.
    + destruct (Counter.key_eqb k' k) eqn:E'; cbn [snd].
      * apply key_eqb_eq in E'. subst k'. rewrite key_eqb_neq; [lia|].
        intros ->. rewrite key_eqb_refl in E. discriminate.
      * exact IH.
Qed.

Lemma bump_keys (key x : list Z) (c : Counter.t) :
  In x (map fst (Counter.bump key c)) -> x = key \/ In x (map fst c).
Proof.
  induction c as [|[k' n] c IH]; cbn [Counter.bump].
  - simpl. intuition.
  - destruct (Counter.key_eqb k' key); simpl; intuition.
Qed.

Lemma bump_NoDup (key : list Z) (c : Counter.t) :
  NoDup (map fst c) -> NoDup (map fst (Counter.bump key c)).
Proof.
  induction c as [|[k' n] c IH]; cbn [Counter.bump]; intros N.
  - simpl. constructor; [intros [] | constructor].
  - inversion N as [|? ? Hk N']; subst.
    destruct (Counter.key_eqb k' key) eqn:E; [exact N|].
    simpl. constructor; [|apply IH, N'].
    intros H. apply bump_keys in H. destruct H as [-> | H]; [|contradiction].
    rewrite key_eqb_refl in E. discriminate.
Qed.

Lemma bump_positive (key : list Z) (c : Counter.t) :
  Forall (fun e => (1 <= snd e)%Z) c ->
  Forall (fun e => (1 <= snd e)%Z) (Counter.bump key c).
Proof.
  induction 1 as [|[k' n] c H F IH]; cbn [Counter.bump].
  - constructor; [simpl; lia | constructor].
  - cbn [snd] in H. destruct (Counter.key_eqb k' key); constructor;
      try assumption; cbn [snd]; lia.
Qed.

Lemma count_of_In (k : list Z) (n : Z) (c : Counter.t) :
  NoDup (map fst c) -> In (k, n) c -> count_of k c = n.
Proof.
  unfold count_of. induction c as [|[k' n'] c IH]; simpl; [tauto|].
  intros N H. inversion N as [|? ? Hk N']; subst.
  destruct H as [H | H].
  - injection H as -> ->. rewrite key_eqb_refl. reflexivity.
  - rewrite key_eqb_neq; [apply IH; assumption|].
    intros ->. apply Hk. apply in_map_iff. exists (k, n). auto.
Qed.

Lemma count_of_absent (k : list Z) (c : Counter.t) :
  ~ In k (map fst c) -> count_of k c = 0%Z.
Proof.
  unfold count_of. induction c as [|[k' n'] c IH]; simpl; [reflexivity|].
  intros H. rewrite key_eqb_neq; [apply IH|]; intuition.
Qed.

Lemma bump_all_spec (ks : list (list Z)) (c : Counter.t) :
  NoDup (map fst c) -> Forall (fun e => (1 <= snd e)%Z) c ->
  NoDup (map fst (Counter.bump_all ks c))
  /\ Forall (fun e => (1 <= snd e)%Z) (Counter.bump_all ks c)
  /\ (forall k, count_of k (Counter.bump_all ks c)
                = (count_of k c
                   + Z.of_nat (count_occ (list_eq_dec Z.eq_dec) ks k))%Z).
Proof.
  unfold Counter.bump_all. revert c.
  induction ks as [|key ks IH]; intros c N P; cbn [fold_left].
  - repeat split; try assumption. intros k. simpl. lia.
  - destruct (IH _ (bump_NoDup key c N) (bump_positive key c P))
      as [N' [P' F]].
    repeat split; try assumption. intros k.
    rewrite F, count_of_bump. cbn [count_occ].
    destruct (list_eq_dec Z.eq_dec key k) as [-> | D].
    + rewrite key_eqb_refl. lia.
    + rewrite key_eqb_neq by exact D. lia.
Qed.

Lemma counts_spec (keys_of : list Z -> list (list Z)) (type : Stream)
      (draws : list Draw) (c : Counter.t) :
  NoDup (map fst c) -> Forall (fun e => (1 <= snd e)%Z) c ->
  NoDup (map fst (fold_left
                    (fun acc d =>
                       Counter.bump_all (keys_of (sorted_numbers d type)) acc)
                    draws c))
  /\ Forall (fun e => (1 <= snd e)%Z)
            (fold_left
               (fun acc d =>
                  Counter.bump_all (keys_of (sorted_numbers d type)) acc)
               draws c)
  /\ (forall k,
        count_of k (fold_left
                      (fun acc d =>
                         Counter.bump_all (keys_of (sorted_numbers d type))
                                          acc)
                      draws c)
        = (count_of k c + combo_occurrences keys_of draws type k)%Z).
Proof.
  revert c. induction draws as [|d draws IH]; intros c N P;
    cbn [fold_left combo_occurrences].
  - repeat split; try assumption. intros k. lia.
  - destruct (bump_all_spec (keys_of (sorted_numbers d type)) c N P)
      as [N1 [P1 F1]].
    destruct (IH _ N1 P1) as [N2 [P2 F2]].
    repeat split; try assumption. intros k. rewrite F2, F1. lia.
Qed.

Lemma top_most_frequent (limit total : nat) (occurs : list Z -> Z)
      (c : Counter.t) :
  NoDup (map fst c) -> Forall (fun e => (1 <= snd e)%Z) c ->
  (forall k, count_of k c = occurs k) ->
  most_frequent limit total occurs (top limit total c).
Proof.
  intros N P F. unfold top, JS.slice.
  set (sorted := JS.sort_by (fun y x : list Z * Z => (snd x <? snd y)%Z) c).
  set (mk := fun e : list Z * Z =>
               mkCombo (fst e) (snd e)
                 (JS.toFixed 2
                    (inject_Z (snd e) / inject_Z (Z.of_nat total) * 100))).
  assert (S : StronglySorted (fun y z : list Z * Z => (snd z <= snd y)%Z)
                             sorted).
  { unfold sorted. eapply sorted_impl;
      [|apply (sort_by_sorted (list Z * Z)
                 (fun y x => (snd x <? snd y)%Z))].
    - intros x y H. apply Z.ltb_ge in H. exact H.
    - intros x y H. apply Z.ltb_lt in H. apply Z.ltb_ge. lia.
    - intros x y z H1 H2. apply Z.ltb_ge in H1, H2. apply Z.ltb_ge. lia. }
  assert (Ns : NoDup (map fst sorted)).
  { eapply Permutation_NoDup; [|exact N].
    apply Permutation_map, Permutation_sym, sort_by_perm. }
  assert (Is : forall e, In e sorted <-> In e c).
  { intros e. apply sort_by_In. }
  assert (K : map numbers (map mk (firstn limit sorted))
              = map fst (firstn limit sorted)).
  { rewrite map_map. reflexivity. }
  assert (Mem : forall p, In p (map mk (firstn limit sorted)) ->
                          In (numbers p, count p) (firstn limit sorted)
                          /\ p = mk (numbers p, count p)).
  { intros p H. apply in_map_iff in H. destruct H as [[k n] [<- H]].
    cbn [mk numbers count fst snd]. auto. }
  unfold most_frequent. rewrite K.
  split; [rewrite length_map; apply firstn_le_length|].
  split; [rewrite <- firstn_map; apply firstn_NoDup, Ns|].
  split; [|split].
  - intros p H. destruct (Mem p H) as [M E].
    apply slice_In, Is in M. split; [|split].
    + rewrite Forall_forall in P. apply (P _ M).
    + rewrite <- F. symmetry. apply count_of_In; assumption.
    + rewrite E at 1. reflexivity.
  - apply firstn_sorted with (n := limit) in S.
    clear - S. induction S as [|e l S IH Fa]; cbn [map]; constructor;
      [exact IH|].
    rewrite Forall_forall in Fa |- *. intros q Hq.
    apply in_map_iff in Hq. destruct Hq as [e' [<- He]].
    cbn [mk count]. apply Fa, He.
  - intros p key H Hk. destruct (Mem p H) as [M _]. rewrite <- F.
    assert (Pp : (1 <= count p)%Z).
    { apply slice_In, Is in M. rewrite Forall_forall in P. apply (P _ M). }
    destruct (in_dec (list_eq_dec Z.eq_dec) key (map fst c)) as [I | I].
    + apply in_map_iff in I. destruct I as [[k n] [E I]]. cbn [fst] in E.
      subst k. rewrite (count_of_In key n c N I).
      apply Is in I. rewrite <- (firstn_skipn limit sorted) in I.
      apply in_app_or in I. destruct I as [I | I].
      * exfalso. apply Hk. apply in_map_iff. exists (key, n). auto.
      * exact (firstn_skipn_sorted _ _ limit _ _ _ S M I).
    + rewrite count_of_absent by exact I. lia.
Qed.


End CounterFacts.

(** ** The correlation strategy *)

Section CorrelationStrategyFacts.

Import Backtester.

Lemma add_pair_numbers_spec (count : nat) (nums selected : list Z) :
  NoDup selected ->
  NoDup (add_pair_numbers count nums selected)
  /\ (forall n, In n selected -> In n (add_pair_numbers count nums selected))
  /\ ((length (add_pair_numbers count nums selected) < count)%nat ->
      forall n, In n nums -> In n (add_pair_numbers count nums selected)).
Proof.
  revert selected. induction nums as [|m nums IH]; intros selected N;
    cbn [add_pair_numbers].
  - repeat split; auto. intros _ n [].
  - cbv zeta.
    destruct (count <=? length (JS.set_add m selected))%nat eqn:L.
    + apply Nat.leb_le in L. split; [apply set_add_NoDup, N|]. split.
      * intros n H. apply set_add_iff. auto.
      * intros C. lia.
    + destruct (IH _ (set_add_NoDup m selected N)) as [N' [S C]].
      split; [exact N'|]. split.
      * intros n H. apply S, set_add_iff. auto.
      * intros Lt n [<- | H]; [apply S, set_add_iff; auto | apply C; auto].
Qed.

Lemma walk_pairs_spec (count : nat) (pairs : list AdvancedAnalyzer.Combo)
      (selected : list Z) :
  NoDup selected ->
  NoDup (walk_pairs count pairs selected)
  /\ (forall n, In n selected -> In n (walk_pairs count pairs selected))
  /\ ((length (walk_pairs count pairs selected) < count)%nat ->
      forall p n, In p pairs -> In n (AdvancedAnalyzer.numbers p) ->
                  In n (walk_pairs count pairs selected)).
Proof.
  revert selected. induction pairs as [|q pairs IH]; intros selected N;
    cbn [walk_pairs].
  - repeat split; auto. intros _ p n [].
  - cbv zeta.
    destruct (add_pair_numbers_spec count (AdvancedAnalyzer.numbers q)
                                    selected N) as [N1 [S1 C1]].
    destruct (count <=? length (add_pair_numbers
                                  count (AdvancedAnalyzer.numbers q)
                                  selected))%nat eqn:L.
    + apply Nat.leb_le in L. split; [exact N1|]. split; [exact S1|].
      intros C. lia.
    + apply Nat.leb_gt in L.
      destruct (IH _ N1) as [N2 [S2 C2]].
      split; [exact N2|]. split; [intros n H; apply S2, S1, H|].
      intros Lt p n [<- | Hp] Hn.
      * apply S2, C1; assumption.
      * eapply C2; eassumption.
Qed.

(** X25.  [strategyCorrelationBased] returns at most [count] numbers in
    ascending order, none twice; when it returns fewer than [count], it
    returns every number of every top pair. *)
Theorem correlation_strategy_collects_the_top_pairs
        (draws : list Draw) (count : nat) (type : Stream) :
  (length (strategyCorrelationBased draws count type) <= count)%nat
  /\ StronglySorted Z.lt (strategyCorrelationBased draws count type)
  /\ ((length (strategyCorrelationBased draws count type) < count)%nat ->
      forall p n,
        In p (AdvancedAnalyzer.topPairs
                (AdvancedAnalyzer.analyzeCorrelations draws type)) ->
        In n (AdvancedAnalyzer.numbers p) ->
        In n (strategyCorrelationBased draws count type)).
Proof.
  unfold strategyCorrelationBased, JS.slice. cbv zeta.
  set (pairs := AdvancedAnalyzer.topPairs
                  (AdvancedAnalyzer.analyzeCorrelations draws type)).
  destruct (walk_pairs_spec count pairs [] (NoDup_nil _)) as [N [_ C]].
  assert (L : length (JS.sort_asc (firstn count (walk_pairs count pairs [])))
              = Nat.min count (length (walk_pairs count pairs []))).
  { unfold JS.sort_asc. rewrite sort_by_length. apply length_firstn. }
  split; [rewrite L; lia|]. split.
  - apply sorted_le_NoDup_lt; [apply sort_asc_sorted|].
    eapply Permutation_NoDup; [apply Permutation_sym, sort_by_perm|].
    apply firstn_NoDup, N.
  - rewrite L. intros Lt p n Hp Hn. unfold JS.sort_asc. apply sort_by_In.
    rewrite firstn_all2 by lia. apply (C ltac:(lia) p n Hp Hn).
Qed.

End CorrelationStrategyFacts.

(** ** Return cycles *)

Section CycleFacts.

Import Cycles.

Lemma seen_weaken (table : JS.IntObj Seen) (done : list Z) (b b' : Z) :
  (b <= b')%Z -> seen_so_far table done b -> seen_so_far table done b'.
Proof.
  intros L [K F]. split; [exact K|]. intros num R.
  destruct (F num R) as [s [G [Ln [N B]]]]. exists s.
  repeat split; try assumption; try apply N.
  - apply B in H. lia.
  - apply B in H. lia.
Qed.

Lemma see_ok (drawIndex b b' : Z) (table : JS.IntObj Seen) (done : list Z)
      (num : Z) :
  seen_so_far table done b -> (1 <= num <= 90)%Z ->
  (0 <= drawIndex < b')%Z -> (b <= b')%Z ->
  exists table',
    see drawIndex table num = Returned table'
    /\ seen_so_far table' (done ++ [num]) b'.
Proof.
  intros [K F] R I L. destruct (F num R) as [s [G [Ln [N B]]]].
  unfold see. rewrite G. eexists. split; [reflexivity|]. split.
  - rewrite keys_set_present; [exact K | |].
    + rewrite K. apply numbers_1_90_sorted.
    + rewrite K. apply numbers_1_90_In, R.
  - intros m Rm. rewrite get_set, count_occ_app. cbn [count_occ].
    destruct (num =? m)%Z eqn:E.
    + apply Z.eqb_eq in E. subst m.
      destruct (Z.eq_dec num num) as [_ | C]; [|contradiction].
      eexists. split; [reflexivity|]. cbn [gaps lastSeen].
      split; [|split].
      * destruct (lastSeen s) as [l|] eqn:LS.
        -- assert (count_occ Z.eq_dec done num <> 0%nat).
           { intros C. apply N in C. discriminate. }
           rewrite length_app, Ln. cbn [length]. lia.
        -- assert (C : count_occ Z.eq_dec done num = 0%nat)
             by (apply N; reflexivity).
           rewrite Ln, C. reflexivity.
      * split; [discriminate | lia].
      * intros l H. injection H as <-. exact I.
    + apply Z.eqb_neq in E.
      destruct (Z.eq_dec num m) as [C | _]; [contradiction|].
      destruct (F m Rm) as [s' [G' [Ln' [N' B']]]]. exists s'.
      rewrite Nat.add_0_r. repeat split; try assumption; try apply N'.
      * apply B' in H. lia.
      * apply B' in H. lia.
Qed.

Lemma see_all_ok (drawIndex b b' : Z) (numbers : list Z)
      (table : JS.IntObj Seen) (done : list Z) :
  seen_so_far table done b ->
  (forall n, In n numbers -> (1 <= n <= 90)%Z) ->
  (0 <= drawIndex < b')%Z -> (b <= b')%Z ->
  exists table',
    see_all drawIndex numbers table = Returned table'
    /\ seen_so_far table' (done ++ numbers) b'.
Proof.
  revert table done b. induction numbers as [|num rest IH];
    intros table done b S R I L; cbn [see_all].
  - exists table. split; [reflexivity|]. rewrite app_nil_r.
    eapply seen_weaken; eassumption.
  - destruct (see_ok drawIndex b b' table done num S
                     (R num (or_introl eq_refl)) I L) as [t1 [E1 S1]].
    rewrite E1.
    destruct (IH t1 (done ++ [num]) b' S1
                 (fun n H => R n (or_intror H)) I (Z.le_refl _))
      as [t2 [E2 S2]].
    exists t2. split; [exact E2|]. rewrite <- app_assoc in S2. exact S2.
Qed.

Lemma scan_ok (type : Stream) (draws : list Draw) (drawIndex : Z)
      (table : JS.IntObj Seen) (done : list Z) :
  seen_so_far table done drawIndex -> (0 <= drawIndex)%Z ->
  (forall d n, In d draws -> In n (numbers_of d type) -> (1 <= n <= 90)%Z) ->
  exists table',
    scan type drawIndex draws table = Returned table'
    /\ seen_so_far table'
         (done ++ flat_map (fun d => numbers_of d type) draws)
         (drawIndex + Z.of_nat (length draws)).
Proof.
  revert drawIndex table done. induction draws as [|d rest IH];
    intros drawIndex table done S I R; cbn [scan flat_map length].
  - exists table. split; [reflexivity|]. rewrite app_nil_r, Z.add_0_r.
    exact S.
  - destruct (see_all_ok drawIndex drawIndex (drawIndex + 1)
                (numbers_of d type) table done S
                (fun n H => R d n (or_introl eq_refl) H)
                ltac:(lia) ltac:(lia)) as [t1 [E1 S1]].
    rewrite E1.
    destruct (IH (drawIndex + 1)%Z t1 (done ++ numbers_of d type) S1
                 ltac:(lia)
                 (fun d' n H => R d' n (or_intror H)))
      as [t2 [E2 S2]].
    exists t2. split; [exact E2|].
    rewrite <- app_assoc in S2. rewrite Nat2Z.inj_succ.
    replace (drawIndex + Z.succ (Z.of_nat (length rest)))%Z
      with (drawIndex + 1 + Z.of_nat (length rest))%Z by lia.
    exact S2.
Qed.

Lemma count_occ_nonzero (l : list Z) (n : Z) :
  n <> 0%Z ->
  count_occ Z.eq_dec (filter (fun n => negb (n =? 0)%Z) l) n
  = count_occ Z.eq_dec l n.
Proof.
  intros N. induction l as [|x l IH]; cbn [filter count_occ]; [reflexivity|].
  destruct (x =? 0)%Z eqn:E; cbn [negb count_occ].
  - apply Z.eqb_eq in E. subst x.
    destruct (Z.eq_dec 0 n) as [C | _]; [congruence | exact IH].
  - rewrite IH. reflexivity.
Qed.

Lemma appearances_flat (draws : list Draw) (type : Stream) (n : Z) :
  n <> 0%Z ->
  appearances draws type n
  = Z.of_nat (count_occ Z.eq_dec
                (flat_map (fun d => numbers_of d type) draws) n).
Proof.
  intros N. induction draws as [|d draws IH]; cbn [appearances flat_map];
    [reflexivity|].
  rewrite count_occ_app, Nat2Z.inj_add, IH. unfold numbers_of.
  rewrite count_occ_nonzero by exact N. reflexivity.
Qed.

Lemma appearances_sorted (draws : list Draw) (type : Stream) (n : Z) :
  n <> 0%Z ->
  Z.of_nat (count_occ Z.eq_dec
              (flat_map (fun d => numbers_of d type) (sortedDraws draws)) n)
  = appearances draws type n.
Proof.
  intros N. rewrite (appearances_flat draws type n N). f_equal.
  apply Permutation_count_occ, Permutation_flat_map.
  unfold sortedDraws. apply sort_by_perm.
Qed.

Lemma toFixed1_bounds (q : Q) : 0 <= q <= 200 -> 0 <= JS.toFixed 1 q <= 200.
Proof.
  intros [L U].
  assert (E : JS.toFixed 1 q == inject_Z (JS.round_half_away (q * 10)) / 10).
  { unfold JS.toFixed. change (10 ^ Z.of_nat 1)%Z with 10%Z.
    change (inject_Z 10) with 10. change (Z.to_pos 10) with 10%positive.
    rewrite Qmake_Qdiv. reflexivity. }
  rewrite E. unfold JS.round_half_away.
  assert (P : Qle_bool 0 (q * 10) = true) by (apply Qle_bool_iff; lra).
  rewrite P.
  assert (F0 : (0 <= Qfloor (q * 10 + (1 # 2)))%Z).
  { apply Z.le_trans with (Qfloor 0); [discriminate|].
    apply Qfloor_resp_le. lra. }
  assert (F1 : (Qfloor (q * 10 + (1 # 2)) <= 2000)%Z).
  { apply Z.le_trans with (Qfloor (2000 + (1 # 2))); [|discriminate].
    apply Qfloor_resp_le. lra. }
  split.
  - apply Qle_shift_div_l; [reflexivity|].
    rewrite Qmult_0_l. change 0 with (inject_Z 0). rewrite <- Zle_Qle.
    exact F0.
  - apply Qle_shift_div_r; [reflexivity|].
    change (200 * 10) with (inject_Z 2000). rewrite <- Zle_Qle. exact F1.
Qed.

Lemma cycleStats_due (totalDraws : nat) (s : Seen) :
  (forall l, lastSeen s = Some l -> (0 <= l < Z.of_nat totalDraws)%Z) ->
  0 <= Brain.dueScore (cycleStats totalDraws s) <= 200.
Proof.
  intros B. unfold cycleStats. destruct (gaps s) as [|g gs];
    cbn [Brain.dueScore]; [lra|].
  cbv zeta. apply toFixed1_bounds.
  set (avg := inject_Z (fold_left Z.add (g :: gs) 0%Z)
              / inject_Z (Z.of_nat (length (g :: gs)))).
  set (currentGap := match lastSeen s with
                     | Some l => (Z.of_nat totalDraws - l - 1)%Z
                     | None => Z.of_nat totalDraws
                     end).
  assert (C : 0 <= inject_Z currentGap).
  { change 0 with (inject_Z 0). rewrite <- Zle_Qle. unfold currentGap.
    destruct (lastSeen s) as [l|]; [specialize (B l eq_refl)|]; lia. }
  assert (X : 0 <= (if JS.Qltb 0 avg
                    then inject_Z currentGap / avg * 100 else 0)).
  { destruct (JS.Qltb 0 avg) eqn:A; [|lra].
    apply Qltb_lt in A. apply Qmult_le_0_compat; [|lra].
    apply Qle_shift_div_l; [exact A | lra]. }
  split.
  - unfold JS.min. destruct (Qle_bool _ 200); [exact X | lra].
  - apply Qle_trans with (JS.min 200 200); [|unfold JS.min; simpl; lra].
    unfold JS.min. destruct (Qle_bool _ 200) eqn:E.
    + apply Qle_bool_iff in E. simpl. exact E.
    + simpl. lra.
Qed.

Lemma initial_seen :
  seen_so_far (map (fun i => (i, mkSeen [] None)) numbers_1_90) [] 0.
Proof.
  split; [apply initial_keys|]. intros num R.
  exists (mkSeen [] None). split.
  - apply In_get_unique.
    + change (map fst (map (fun i => (i, mkSeen [] None)) numbers_1_90))
        with (JS.keys (map (fun i => (i, mkSeen [] None)) numbers_1_90)).
      rewrite initial_keys. apply numbers_1_90_NoDup.
    + apply in_map_iff. exists num. split; [reflexivity|].
      apply numbers_1_90_In, R.
  - cbn. repeat split; try reflexivity; try discriminate.
Qed.

Lemma game_numbers (draws : list Draw) (type : Stream) :
  numbers_of_the_game draws type ->
  forall d n, In d (sortedDraws draws) -> In n (numbers_of d type) ->
              (1 <= n <= 90)%Z.
Proof.
  intros G d n Hd Hn. unfold sortedDraws in Hd. apply sort_by_In in Hd.
  unfold numbers_of in Hn. apply filter_In in Hn. destruct Hn as [Hn Z0].
  apply negb_true_iff, Z.eqb_neq in Z0.
  specialize (G d n Hd Hn). lia.
Qed.

(** The analysis on draws of the game, with what it leaves for each
    number. *)
Lemma analyzeCycles_spec (draws : list Draw) (type : Stream) :
  numbers_of_the_game draws type ->
  exists table,
    analyzeCycles draws type
    = Returned (map (fun num =>
                       (num,
                        cycleStats (length draws)
                                   (match JS.get num table with
                                    | Some s => s
                                    | None => mkSeen [] None
                                    end)))
                    numbers_1_90)
    /\ seen_so_far table
         (flat_map (fun d => numbers_of d type) (sortedDraws draws))
         (Z.of_nat (length draws)).
Proof.
  intros G.
  destruct (scan_ok type (sortedDraws draws) 0
              (map (fun i => (i, mkSeen [] None)) numbers_1_90) []
              initial_seen (Z.le_refl 0) (game_numbers draws type G))
    as [table [E S]].
  exists table. unfold analyzeCycles. rewrite E. split; [reflexivity|].
  unfold sortedDraws in S at 2. rewrite sort_by_length in S. exact S.
Qed.

Lemma stats_get (f : Z -> Brain.CycleStats) (n : Z) :
  (1 <= n <= 90)%Z ->
  JS.get n (map (fun num => (num, f num)) numbers_1_90) = Some (f n).
Proof.
  intros R. apply In_get_unique.
  - rewrite map_map. cbn [fst]. rewrite map_id. apply numbers_1_90_NoDup.
  - apply in_map_iff. exists n. split; [reflexivity|].
    apply numbers_1_90_In, R.
Qed.

Lemma cycles_stats_exist (draws : list Draw) (type : Stream) :
  numbers_of_the_game draws type ->
  exists stats,
    analyzeCycles draws type = Returned stats
    /\ JS.keys stats = numbers_1_90
    /\ (forall n, (1 <= n <= 90)%Z ->
          exists s,
            JS.get n stats = Some s
            /\ Brain.cycleCount s
               = Z.max 0 (appearances draws type n - 1)
            /\ 0 <= Brain.dueScore s <= 200
            /\ ((appearances draws type n <= 1)%Z ->
                Brain.dueScore s = 200)).
Proof.
  intros G. destruct (analyzeCycles_spec draws type G) as [table [E [K F]]].
  eexists. split; [exact E|]. split.
  { unfold JS.keys. rewrite map_map. cbn [fst]. apply map_id. }
  intros n R. rewrite stats_get by exact R. eexists. split; [reflexivity|].
  destruct (F n R) as [s [Gs [Ln [N B]]]]. rewrite Gs.
  assert (A : Z.of_nat (count_occ Z.eq_dec
                          (flat_map (fun d => numbers_of d type)
                                    (sortedDraws draws)) n)
              = appearances draws type n)
    by (apply appearances_sorted; lia).
  split; [|split].
  - unfold cycleStats. destruct (gaps s) as [|g gs] eqn:Eg;
      cbn [Brain.cycleCount length] in *; lia.
  - apply cycleStats_due, B.
  - intros L. unfold cycleStats. destruct (gaps s) as [|g gs] eqn:Eg;
      [reflexivity|]. cbn [length] in Ln. lia.
Qed.

(** X26.  On draws of numbers of the game [analyzeCycles] returns
    statistics for exactly the numbers 1..90.  A number has one cycle for
    each of its appearances but the first; its due score lies between 0
    and 200, and is 200 for a number drawn once or never. *)
Theorem cycles_count_the_returns (draws : list Draw) (type : Stream) :
  numbers_of_the_game draws type ->
  exists stats,
    analyzeCycles draws type = Returned stats
    /\ JS.keys stats = numbers_1_90
    /\ (forall n, (1 <= n <= 90)%Z ->
          exists s,
            JS.get n stats = Some s
            /\ Brain.cycleCount s
               = Z.max 0 (appearances draws type n - 1)
            /\ 0 <= Brain.dueScore s <= 200
            /\ ((appearances draws type n <= 1)%Z ->
                Brain.dueScore s = 200)).
Proof.
  intros G. destruct (cycles_stats_exist draws type G) as [stats H].
  exists stats. exact H.
Qed.

Lemma see_keys (drawIndex : Z) (table table' : JS.IntObj Seen) (num : Z) :
  JS.keys table = numbers_1_90 ->
  see drawIndex table num = Returned table' ->
  JS.keys table' = numbers_1_90 /\ (1 <= num <= 90)%Z.
Proof.
  intros K. unfold see. destruct (JS.get num table) as [s|] eqn:G;
    [|discriminate].
  intros H. injection H as <-.
  assert (I : In num (JS.keys table)) by (eapply get_Some_In; exact G).
  split.
  - rewrite keys_set_present; [exact K | | exact I].
    rewrite K. apply numbers_1_90_sorted.
  - apply numbers_1_90_In. rewrite <- K. exact I.
Qed.

Lemma see_throws (drawIndex : Z) (table : JS.IntObj Seen) (num : Z)
      (message : string) :
  see drawIndex table num = Thrown message ->
  message
  = "TypeError: Cannot read properties of undefined (reading 'push')"%string.
Proof.
  unfold see. destruct (JS.get num table); [discriminate|].
  intros H. injection H as <-. reflexivity.
Qed.

Lemma see_all_throws (drawIndex : Z) (numbers : list Z)
      (table : JS.IntObj Seen) :
  JS.keys table = numbers_1_90 ->
  (exists table',
      see_all drawIndex numbers table = Returned table'
      /\ JS.keys table' = numbers_1_90
      /\ forall n, In n numbers -> (1 <= n <= 90)%Z)
  \/ see_all drawIndex numbers table
     = Thrown "TypeError: Cannot read properties of undefined (reading 'push')".
Proof.
  revert table. induction numbers as [|num rest IH]; intros table K;
    cbn [see_all].
  - left. exists table. split; [reflexivity | split; [exact K | intros n []]].
  - destruct (see drawIndex table num) as [t1|message] eqn:E.
    + destruct (see_keys drawIndex table t1 num K E) as [K1 R].
      destruct (IH t1 K1) as [[t2 [E2 [K2 R2]]] | T]; [left | right; exact T].
      exists t2. split; [exact E2 | split; [exact K2|]].
      intros n [<- | H]; [exact R | apply R2, H].
    + right. apply see_throws in E. subst message. reflexivity.
Qed.

Lemma scan_throws (type : Stream) (draws : list Draw) (drawIndex : Z)
      (table : JS.IntObj Seen) :
  JS.keys table = numbers_1_90 ->
  (exists table',
      scan type drawIndex draws table = Returned table'
      /\ forall d n, In d draws -> In n (numbers_of d type) ->
                     (1 <= n <= 90)%Z)
  \/ scan type drawIndex draws table
     = Thrown "TypeError: Cannot read properties of undefined (reading 'push')".
Proof.
  revert drawIndex table. induction draws as [|d rest IH];
    intros drawIndex table K; cbn [scan].
  - left. exists table. split; [reflexivity|]. intros d n [].
  - destruct (see_all_throws drawIndex (numbers_of d type) table K)
      as [[t1 [E1 [K1 R1]]] | T]; [|right; rewrite T; reflexivity].
    rewrite E1.
    destruct (IH (drawIndex + 1)%Z t1 K1) as [[t2 [E2 R2]] | T];
      [left | right; exact T].
    exists t2. split; [exact E2|].
    intros d' n [<- | H] Hn; [apply R1, Hn | eapply R2; eassumption].
Qed.

(** X27.  A number below 0 or above 90 in a draw makes [analyzeCycles]
    throw a TypeError, and [strategyDueNumbers] with it: the tables have
    no entry for it to push a gap to. *)
Theorem cycles_throw_outside_the_game
        (draws : list Draw) (count : nat) (type : Stream) (d : Draw)
        (n : Z) :
  In d draws -> In n (AdvancedAnalyzer.getNumbers d type) ->
  (n < 0 \/ 90 < n)%Z ->
  analyzeCycles draws type
  = Thrown "TypeError: Cannot read properties of undefined (reading 'push')"
  /\ strategyDueNumbers draws count type
     = Thrown "TypeError: Cannot read properties of undefined (reading 'push')".
Proof.
  intros Hd Hn R.
  assert (A : analyzeCycles draws type
              = Thrown "TypeError: Cannot read properties of undefined (reading 'push')").
  { unfold analyzeCycles.
    destruct (scan_throws type (sortedDraws draws) 0
                (map (fun i => (i, mkSeen [] None)) numbers_1_90)
                (initial_keys _ _)) as [[t [_ G]] | T];
      [|rewrite T; reflexivity].
    exfalso. specialize (G d n).
    assert (1 <= n <= 90)%Z; [|lia].
    apply G.
    - unfold sortedDraws. apply sort_by_In, Hd.
    - unfold numbers_of. apply filter_In. split; [exact Hn|].
      apply negb_true_iff, Z.eqb_neq. lia. }
  split; [exact A|]. unfold strategyDueNumbers. rewrite A. reflexivity.
Qed.

(** X28.  On draws of numbers of the game [strategyDueNumbers] returns at
    most [count] numbers of 1..90 in ascending order, none twice, each
    drawn at least four times; no number drawn four times or more that is
    left out has a higher due score than a number that is returned. *)
Theorem due_numbers_have_a_history
        (draws : list Draw) (count : nat) (type : Stream) :
  numbers_of_the_game draws type ->
  exists due stats,
    strategyDueNumbers draws count type = Returned due
    /\ analyzeCycles draws type = Returned stats
    /\ (length due <= count)%nat
    /\ StronglySorted Z.lt due
    /\ (forall n, In n due ->
                  (1 <= n <= 90)%Z /\ (4 <= appearances draws type n)%Z)
    /\ (forall n m sn sm,
          In n due -> (1 <= m <= 90)%Z -> ~ In m due ->
          (4 <= appearances draws type m)%Z ->
          JS.get n stats = Some sn -> JS.get m stats = Some sm ->
          Brain.dueScore sm <= Brain.dueScore sn).
Proof.
  intros G. destruct (cycles_stats_exist draws type G) as [stats [E [K F]]].
  unfold strategyDueNumbers. rewrite E. eexists. exists stats.
  split; [reflexivity|]. split; [reflexivity|].
  unfold JS.slice, JS.sort_asc.
  set (before := fun y x : Z * Brain.CycleStats =>
                   JS.Qltb (Brain.dueScore (snd x))
                           (Brain.dueScore (snd y))).
  set (kept := filter (fun e : Z * Brain.CycleStats =>
                         (3 <=? Brain.cycleCount (snd e))%Z) stats).
  set (ranked := JS.sort_by before kept).
  assert (N : NoDup (map fst stats)).
  { change (map fst stats) with (JS.keys stats). rewrite K.
    apply numbers_1_90_NoDup. }
  assert (Ik : forall e, In e ranked
                         <-> In e stats
                             /\ (3 <= Brain.cycleCount (snd e))%Z).
  { intros e. unfold ranked. rewrite sort_by_In. unfold kept.
    rewrite filter_In, Z.leb_le. reflexivity. }
  assert (Nk : NoDup (map fst ranked)).
  { eapply Permutation_NoDup;
      [apply Permutation_map, Permutation_sym, sort_by_perm|].
    unfold kept. clear - N. induction stats as [|e l IH]; cbn [filter map];
      [constructor|].
    inversion N as [|? ? Hn N']; subst.
    destruct (3 <=? Brain.cycleCount (snd e))%Z; [|apply IH, N'].
    cbn [map]. constructor; [|apply IH, N'].
    intros H. apply Hn. apply in_map_iff in H.
    destruct H as [e' [E' H]]. apply filter_In in H.
    apply in_map_iff. exists e'. tauto. }
  assert (S : StronglySorted
                (fun y z : Z * Brain.CycleStats =>
                   Brain.dueScore (snd z) <= Brain.dueScore (snd y))
                ranked).
  { unfold ranked. eapply sorted_impl;
      [|apply (sort_by_sorted (Z * Brain.CycleStats) before)].
    - intros x y H. unfold before in H.
      destruct (Qlt_le_dec (Brain.dueScore (snd x)) (Brain.dueScore (snd y)))
        as [L | L]; [|exact L].
      apply Qltb_lt in L. congruence.
    - intros x y H. unfold before in *. apply Qltb_lt in H.
      apply not_true_is_false. intros C. apply Qltb_lt in C. lra.
    - intros x y z H1 H2. unfold before in *.
      apply not_true_is_false. intros C. apply Qltb_lt in C.
      assert (~ Brain.dueScore (snd x) < Brain.dueScore (snd y)).
      { intros L. apply Qltb_lt in L. congruence. }
      assert (~ Brain.dueScore (snd y) < Brain.dueScore (snd z)).
      { intros L. apply Qltb_lt in L. congruence. }
      lra. }
  assert (I : forall n,
             In n (JS.sort_by (fun y x => (y <? x)%Z)
                              (map fst (firstn count ranked)))
             <-> exists sn, In (n, sn) (firstn count ranked)).
  { intros n. rewrite sort_by_In, in_map_iff. split.
    - intros [[k sk] [<- H]]. eauto.
    - intros [sn H]. exists (n, sn). auto. }
  assert (C4 : forall n sn,
             (1 <= n <= 90)%Z -> JS.get n stats = Some sn ->
             ((3 <= Brain.cycleCount sn)%Z
              <-> (4 <= appearances draws type n)%Z)).
  { intros n sn R Gn. destruct (F n R) as [s [Gs [Cs _]]].
    rewrite Gs in Gn. injection Gn as <-. rewrite Cs. lia. }
  split; [rewrite sort_by_length, length_map; apply firstn_le_length|].
  split.
  { apply sorted_le_NoDup_lt; [apply sort_asc_sorted|].
    eapply Permutation_NoDup; [apply Permutation_sym, sort_by_perm|].
    rewrite <- firstn_map. apply firstn_NoDup, Nk. }
  split.
  - intros n H. apply I in H. destruct H as [sn H].
    apply slice_In, Ik in H. destruct H as [H C]. cbn [snd] in C.
    assert (R : (1 <= n <= 90)%Z).
    { apply numbers_1_90_In. rewrite <- K. unfold JS.keys.
      apply in_map_iff. exists (n, sn). auto. }
    split; [exact R|]. eapply C4; [exact R | | exact C].
    apply In_get_unique; assumption.
  - intros n m sn sm Hn R Hm A Gn Gm. apply I in Hn.
    destruct Hn as [sn' Hn].
    assert (sn' = sn).
    { pose proof Hn as H. apply slice_In, Ik in H. destruct H as [H _].
      apply (In_get_unique _ stats n sn' N) in H. congruence. }
    subst sn'.
    assert (Em : In (m, sm) ranked).
    { apply Ik. split; [apply get_In, Gm|]. cbn [snd].
      eapply C4; eassumption. }
    rewrite <- (firstn_skipn count ranked) in Em. apply in_app_or in Em.
    destruct Em as [Em | Em]; [exfalso; apply Hm, I; eauto|].
    exact (firstn_skipn_sorted _ _ count _ _ _ S Hn Em).
Qed.

End CycleFacts.

(** Ten draws of 1, 2, 3, 4, 5: each of the five numbers has nine
    cycles. *)
Lemma cycles_witness :
  numbers_of_the_game ten_times_1_to_5 winning
  /\ exists stats,
       Cycles.analyzeCycles ten_times_1_to_5 winning = Returned stats
       /\ JS.keys stats = numbers_1_90.
Proof.
  assert (G : numbers_of_the_game ten_times_1_to_5 winning).
  { intros d n Hd Hn. unfold ten_times_1_to_5 in Hd.
    apply in_map_iff in Hd. destruct Hd as [i [<- _]].
    simpl in Hn. intuition lia. }
  split; [exact G|].
  destruct (cycles_count_the_returns ten_times_1_to_5 winning G)
    as [stats [E [K _]]].
  exists stats. split; assumption.
Defined.

(** One draw with the number 91. *)
Lemma cycles_throw_witness :
  In 91%Z (AdvancedAnalyzer.getNumbers draw_with_91 winning)
  /\ Cycles.analyzeCycles [draw_with_91] winning
     = Thrown "TypeError: Cannot read properties of undefined (reading 'push')".
Proof.
  assert (I : In 91%Z (AdvancedAnalyzer.getNumbers draw_with_91 winning)).
  { simpl. tauto. }
  split; [exact I|].
  exact (proj1 (cycles_throw_outside_the_game
                  [draw_with_91] 5 winning draw_with_91 91
                  (or_introl eq_refl) I (or_intror eq_refl))).
Defined.

(** The due numbers of ten draws of 1, 2, 3, 4, 5. *)
Lemma due_numbers_witness :
  numbers_of_the_game ten_times_1_to_5 winning
  /\ exists due,
       Cycles.strategyDueNumbers ten_times_1_to_5 3 winning = Returned due
       /\ (length due <= 3)%nat.
Proof.
  assert (G : numbers_of_the_game ten_times_1_to_5 winning).
  { intros d n Hd Hn. unfold ten_times_1_to_5 in Hd.
    apply in_map_iff in Hd. destruct Hd as [i [<- _]].
    simpl in Hn. intuition lia. }
  split; [exact G|].
  destruct (due_numbers_have_a_history ten_times_1_to_5 3 winning G)
    as [due [stats [E [_ [L _]]]]].
  exists due. split; assumption.
Defined.

(** ** The position strategy *)

Section PositionFacts.

Import Backtester.

Lemma first_new_spec (candidates selected : list Z) :
  NoDup selected ->
  NoDup (first_new candidates selected)
  /\ (length (first_new candidates selected) <= S (length selected))%nat
  /\ (forall n, In n selected -> In n (first_new candidates selected))
  /\ (forall n, In n (first_new candidates selected) ->
                In n selected \/ In n candidates).
Proof.
  intros N. induction candidates as [|c rest IH]; cbn [first_new].
  - repeat split; auto.
  - destruct (JS.includes selected c) eqn:I.
    + destruct IH as [N' [L [S1 S2]]]. repeat split; auto.
      intros n H. destruct (S2 n H); [left | right; right]; assumption.
    + assert (Hc : ~ In c selected).
      { intros H. apply includes_In in H. congruence. }
      split; [|split; [|split]].
      * apply (Permutation_NoDup (l := c :: selected));
          [apply Permutation_cons_append | constructor; assumption].
      * rewrite length_app. cbn [length]. lia.
      * intros n H. apply in_or_app. left. exact H.
      * intros n H. apply in_app_or in H.
        destruct H as [H | [<- | []]]; [left | right; left]; auto.
Qed.

Lemma fill_up_spec (sorted selected : list Z) :
  NoDup selected ->
  NoDup (fill_up sorted selected)
  /\ (length (fill_up sorted selected) <= Nat.max 5 (length selected))%nat
  /\ (forall n, In n selected -> In n (fill_up sorted selected))
  /\ (forall n, In n (fill_up sorted selected) ->
                In n selected \/ In n sorted)
  /\ ((length (fill_up sorted selected) < 5)%nat ->
      forall n, In n sorted -> In n (fill_up sorted selected)).
Proof.
  revert selected. induction sorted as [|num rest IH]; intros selected N;
    cbn [fill_up].
  - repeat split; auto; try lia. intros _ n [].
  - destruct (JS.includes selected num) eqn:I; cbn [negb andb].
    + destruct (IH selected N) as [N' [L [S1 [S2 C]]]].
      apply includes_In in I.
      split; [exact N'|]. split; [exact L|]. split; [exact S1|]. split.
      * intros n H. destruct (S2 n H); [left | right; right]; assumption.
      * intros Lt n [<- | H]; [apply S1, I | apply C; assumption].
    + assert (Hc : ~ In num selected).
      { intros H. apply includes_In in H. congruence. }
      destruct (length selected <? 5)%nat eqn:Lt5.
      * apply Nat.ltb_lt in Lt5.
        assert (N1 : NoDup (selected ++ [num])).
        { apply (Permutation_NoDup (l := num :: selected));
            [apply Permutation_cons_append | constructor; assumption]. }
        destruct (IH _ N1) as [N' [L [S1 [S2 C]]]].
        rewrite length_app in L. cbn [length] in L.
        split; [exact N'|]. split; [lia|]. split.
        -- intros n H. apply S1, in_or_app. left. exact H.
        -- split.
           ++ intros n H. destruct (S2 n H) as [H' | H']; [|right; right; exact H'].
              apply in_app_or in H'.
              destruct H' as [H' | [<- | []]]; [left | right; left]; auto.
           ++ intros Lt n [<- | H]; [|apply C; assumption].
              apply S1, in_or_app. right. left. reflexivity.
      * apply Nat.ltb_ge in Lt5.
        destruct (IH selected N) as [N' [L [S1 [S2 C]]]].
        split; [exact N'|]. split; [exact L|]. split; [exact S1|]. split.
        -- intros n H. destruct (S2 n H); [left | right; right]; assumption.
        -- intros Lt. exfalso.
           assert (length selected <= length (fill_up rest selected))%nat.
           { apply NoDup_incl_length; [exact N | exact S1]. }
           lia.
Qed.

Lemma positions_keys (draws : list Draw) (type : Stream) (pos : nat)
      (k : Z) :
  (1 <= pos <= 5)%nat ->
  In k (JS.keys (AdvancedAnalyzer.positions draws type pos)) ->
  exists d, In d draws /\ In k (AdvancedAnalyzer.sorted_numbers d type).
Proof.
  intros R. unfold AdvancedAnalyzer.positions.
  assert (G : forall acc,
             (forall k, In k (JS.keys acc) ->
                        exists d, In d draws
                                  /\ In k (AdvancedAnalyzer.sorted_numbers
                                             d type)) ->
             forall l, (forall d, In d l -> In d draws) ->
             forall k,
               In k (JS.keys
                       (fold_left
                          (fun acc d =>
                             let numbers :=
                               AdvancedAnalyzer.sorted_numbers d type in
                             if (length numbers =? 5)%nat
                             then
                               let num := nth (pos - 1) numbers 0%Z in
                               JS.set num (match JS.get num acc with
                                           | Some c => c + 1
                                           | None => 1
                                           end)%Z acc
                             else acc) l acc)) ->
               exists d, In d draws
                         /\ In k (AdvancedAnalyzer.sorted_numbers d type)).
  { intros acc A l. revert acc A. induction l as [|d l IH];
      intros acc A Sub k0; cbn [fold_left]; [apply A|].
    apply IH; [|intros d' H; apply Sub; right; exact H].
    cbv zeta. intros k1 H1.
    destruct (length (AdvancedAnalyzer.sorted_numbers d type) =? 5)%nat
      eqn:L; [|apply A, H1].
    apply Nat.eqb_eq in L. apply keys_set_In in H1.
    destruct H1 as [-> | H1]; [|apply A, H1].
    exists d. split; [apply Sub; left; reflexivity|].
    apply nth_In. lia. }
  apply (G [] (fun k H => match H with end) draws (fun d H => H)).
Qed.

Lemma sorted_numbers_game (draws : list Draw) (type : Stream) (d : Draw)
      (k : Z) :
  numbers_of_the_game draws type -> In d draws ->
  In k (AdvancedAnalyzer.sorted_numbers d type) -> (1 <= k <= 90)%Z.
Proof.
  intros G Hd Hk. unfold AdvancedAnalyzer.sorted_numbers, JS.sort_asc in Hk.
  apply sort_by_In, filter_In in Hk. destruct Hk as [Hk Z0].
  apply negb_true_iff, Z.eqb_neq in Z0. specialize (G d k Hd Hk). lia.
Qed.

Lemma top10_numbers (draws : list Draw) (type : Stream) (pos : nat) (n : Z) :
  In n (map AdvancedAnalyzer.pos_number (AdvancedAnalyzer.top10 draws type pos))
  -> In n (JS.keys (AdvancedAnalyzer.positions draws type pos)).
Proof.
  unfold AdvancedAnalyzer.top10. cbv zeta. rewrite map_map.
  cbn [AdvancedAnalyzer.pos_number]. intros H. apply in_map_iff in H.
  destruct H as [e [<- H]]. apply slice_In, sort_by_In in H.
  unfold JS.keys. apply in_map, H.
Qed.

(** X29.  On draws of numbers of the game [strategyPositionBased] always
    returns five numbers of 1..90 in ascending order, none twice: what
    the five positions leave open is filled from the frequency table.
    The number most often found at the first position is one of them. *)
Theorem position_strategy_returns_five (draws : list Draw) (type : Stream) :
  numbers_of_the_game draws type ->
  length (strategyPositionBased draws type) = 5%nat
  /\ StronglySorted Z.lt (strategyPositionBased draws type)
  /\ (forall n, In n (strategyPositionBased draws type) ->
                (1 <= n <= 90)%Z)
  /\ (forall e rest,
        AdvancedAnalyzer.top10 draws type 1 = e :: rest ->
        In (AdvancedAnalyzer.pos_number e)
           (strategyPositionBased draws type)).
Proof.
  intros G. unfold strategyPositionBased. cbv zeta.
  set (cand := fun pos => map AdvancedAnalyzer.pos_number
                              (AdvancedAnalyzer.top10 draws type pos)).
  assert (Rc : forall pos n, (1 <= pos <= 5)%nat -> In n (cand pos) ->
                             (1 <= n <= 90)%Z).
  { intros pos n R H. apply top10_numbers in H.
    apply (positions_keys draws type pos n R) in H.
    destruct H as [d [Hd Hk]]. eapply sorted_numbers_game; eassumption. }
  assert (P : forall l selected,
             (forall pos, In pos l -> (1 <= pos <= 5)%nat) ->
             NoDup selected ->
             (forall n, In n selected -> (1 <= n <= 90)%Z) ->
             NoDup (fold_left (fun selected pos =>
                                 first_new (cand pos) selected) l selected)
             /\ (length (fold_left (fun selected pos =>
                                      first_new (cand pos) selected)
                                   l selected)
                 <= length selected + length l)%nat
             /\ (forall n, In n selected ->
                           In n (fold_left (fun selected pos =>
                                              first_new (cand pos) selected)
                                           l selected))
             /\ (forall n, In n (fold_left (fun selected pos =>
                                              first_new (cand pos) selected)
                                           l selected) ->
                           (1 <= n <= 90)%Z)).
  { induction l as [|pos l IH]; intros selected Rl N R; cbn [fold_left].
    - split; [exact N | split; [simpl; lia | split; [auto | exact R]]].
    - destruct (first_new_spec (cand pos) selected N) as [N1 [L1 [S1 S2]]].
      destruct (IH (first_new (cand pos) selected)
                   (fun q H => Rl q (or_intror H)) N1) as [N2 [L2 [S3 R2]]].
      { intros n H. destruct (S2 n H) as [H' | H']; [apply R, H'|].
        eapply Rc; [apply Rl; left; reflexivity | exact H']. }
      split; [exact N2|]. split; [cbn [length]; lia|].
      split; [intros n H; apply S3, S1, H | exact R2]. }
  destruct (P [1; 2; 3; 4; 5]%nat []
              ltac:(intros pos H; simpl in H; lia) (NoDup_nil _)
              (fun n H => match H with end)) as [N [L [_ R]]].
  cbn [length Nat.add] in L.
  set (selected := fold_left (fun selected pos =>
                                first_new (cand pos) selected)
                             [1; 2; 3; 4; 5]%nat []) in *.
  destruct (frequencies_spec draws type) as [K _].
  set (sorted := map fst (by_frequency (frequencies draws type))).
  assert (Ps : Permutation sorted numbers_1_90).
  { unfold sorted. rewrite <- K. apply Permutation_map, sort_by_perm. }
  destruct (fill_up_spec sorted selected N) as [Nf [Lf [S1 [S2 C]]]].
  set (final := if (length selected <? 5)%nat
                then fill_up sorted selected else selected).
  assert (F : NoDup final /\ length final = 5%nat
              /\ (forall n, In n selected -> In n final)
              /\ (forall n, In n final -> (1 <= n <= 90)%Z)).
  { unfold final. destruct (length selected <? 5)%nat eqn:Lt.
    - apply Nat.ltb_lt in Lt. split; [exact Nf|]. split; [|split].
      + destruct (Nat.eq_dec (length (fill_up sorted selected)) 5)
          as [E | E]; [exact E|].
        exfalso.
        assert (Lt' : (length (fill_up sorted selected) < 5)%nat) by lia.
        assert (I : incl numbers_1_90 (fill_up sorted selected)).
        { intros n H. apply (C Lt').
          eapply Permutation_in; [apply Permutation_sym, Ps | exact H]. }
        apply NoDup_incl_length in I; [|apply numbers_1_90_NoDup].
        unfold numbers_1_90 in I. rewrite length_map, length_seq in I. lia.
      + exact S1.
      + intros n H. destruct (S2 n H) as [H' | H']; [apply R, H'|].
        apply numbers_1_90_In. eapply Permutation_in; [exact Ps | exact H'].
    - apply Nat.ltb_ge in Lt.
      split; [exact N | split; [lia | split; [auto | exact R]]]. }
  destruct F as [Nfin [Lfin [Sfin Rfin]]].
  unfold JS.sort_asc. split; [rewrite sort_by_length; exact Lfin|]. split.
  { apply sorted_le_NoDup_lt; [apply sort_asc_sorted|].
    eapply Permutation_NoDup; [apply Permutation_sym, sort_by_perm|].
    exact Nfin. }
  split.
  { intros n H. apply sort_by_In in H. apply Rfin, H. }
  intros e rest E. apply sort_by_In, Sfin. unfold selected.
  cbn [fold_left]. unfold cand at 5. rewrite E. cbn [map first_new].
  cbn [JS.includes existsb app].
  destruct (P [2; 3; 4; 5]%nat [AdvancedAnalyzer.pos_number e]
              ltac:(intros pos H; simpl in H; lia)
              ltac:(constructor; [intros [] | constructor]))
    as [_ [_ [S _]]].
  { intros n [<- | []]. apply (Rc 1%nat); [lia|]. unfold cand. rewrite E.
    left. reflexivity. }
  apply S. left. reflexivity.
Qed.

End PositionFacts.

(** The position strategy on ten draws of 1, 2, 3, 4, 5. *)
Lemma position_strategy_witness :
  numbers_of_the_game ten_times_1_to_5 winning
  /\ length (Backtester.strategyPositionBased ten_times_1_to_5 winning)
     = 5%nat.
Proof.
  assert (G : numbers_of_the_game ten_times_1_to_5 winning).
  { intros d n Hd Hn. unfold ten_times_1_to_5 in Hd.
    apply in_map_iff in Hd. destruct Hd as [i [<- _]].
    simpl in Hn. intuition lia. }
  split; [exact G|].
  exact (proj1 (position_strategy_returns_five ten_times_1_to_5 winning G)).
Defined.

(** ** The backtesting engine *)

Section BacktestFacts.

Import Backtester.

Lemma total_set (k v c : Z) (o : JS.IntObj Z) :
  StronglySorted Z.lt (JS.keys o) -> JS.get k o = Some c ->
  total_of (JS.set k v o) = (total_of o - c + v)%Z.
Proof.
  unfold total_of. induction o as [|[k' v'] o IH]; cbn [JS.get JS.set];
    [discriminate|].
  intros S G. cbn [JS.keys map fst] in S.
  inversion S as [|? ? S' F]; subst.
  destruct (k' =? k)%Z eqn:E.
  - injection G as ->. cbn [map snd fold_right]. lia.
  - destruct (k <? k')%Z eqn:L.
    + exfalso. apply Z.ltb_lt in L. apply get_Some_In in G.
      rewrite Forall_forall in F. specialize (F k G). lia.
    + cbn [map snd fold_right]. rewrite (IH S' G). lia.
Qed.

Lemma test_draw_consistent (strategyFn : list Draw -> nat -> list Z)
      (draws : list Draw) (r : Results) (i : nat) :
  (i < length draws)%nat -> backtest_consistent r ->
  backtest_consistent (test_draw strategyFn draws r i)
  /\ totalTests (test_draw strategyFn draws r i) = S (totalTests r).
Proof.
  intros Li [[J W] [B [Wo O]]]. unfold test_draw. cbv zeta.
  destruct (nth_error draws i) as [actualDraw|] eqn:E;
    [|apply nth_error_None in E; lia].
  set (score := calculateMatchScore _ _).
  assert (JW : isJackpot score = true -> isWin score = true).
  { unfold score, calculateMatchScore. cbn [isJackpot isWin].
    intros H. apply Nat.eqb_eq in H. apply Nat.leb_le. lia. }
  clearbody score.
  split; [|cbn [totalTests]; lia].
  unfold backtest_consistent.
  cbn [jackpots wins totalTests bestPrediction worstPrediction].
  split; [|split; [|split]].
  - destruct (isJackpot score) eqn:Ej.
    + rewrite (JW eq_refl). lia.
    + destruct (isWin score); lia.
  - split; [|lia]. destruct (bestPrediction r) as [b|];
      [destruct (_ <? _)%nat|]; discriminate.
  - split; [|lia]. destruct (worstPrediction r) as [w|];
      [destruct (_ <? _)%nat|]; discriminate.
  - intros b w Hb Hw.
    destruct (bestPrediction r) as [b0|] eqn:Eb;
      destruct (worstPrediction r) as [w0|] eqn:Ew.
    + specialize (O b0 w0 eq_refl eq_refl). revert Hb Hw.
      destruct (Nat.ltb_spec (tested_matches b0) (matches score));
        destruct (Nat.ltb_spec (matches score) (tested_matches w0));
        intros Hb Hw; injection Hb as <-; injection Hw as <-;
        cbn [tested_matches]; lia.
    + assert (totalTests r = 0%nat) by (apply Wo; reflexivity).
      assert (Some b0 = None) by (apply B; assumption). discriminate.
    + assert (totalTests r = 0%nat) by (apply B; reflexivity).
      assert (Some w0 = None) by (apply Wo; assumption). discriminate.
    + injection Hb as <-. injection Hw as <-. cbn [tested_matches]. lia.
Qed.

Lemma test_draw_counted (strategyFn : list Draw -> nat -> list Z)
      (draws : list Draw) (r : Results) (i : nat) :
  (forall training, (length (strategyFn training 5%nat) <= 5)%nat) ->
  (i < length draws)%nat -> backtest_counted r ->
  backtest_counted (test_draw strategyFn draws r i).
Proof.
  intros F Li [M [K T]]. unfold test_draw. cbv zeta.
  destruct (nth_error draws i) as [actualDraw|] eqn:E;
    [|apply nth_error_None in E; lia].
  set (score := calculateMatchScore _ _).
  assert (Lm : (matches score <= 5)%nat).
  { unfold score, calculateMatchScore. cbn [matches].
    eapply Nat.le_trans; [apply filter_length_bound | apply F]. }
  clearbody score.
  assert (Ik : In (Z.of_nat (matches score)) (JS.keys (matchDistribution r))).
  { rewrite K.
    assert (C : (matches score = 0 \/ matches score = 1 \/ matches score = 2
                 \/ matches score = 3 \/ matches score = 4
                 \/ matches score = 5)%nat) by lia.
    destruct C as [C | [C | [C | [C | [C | C]]]]]; rewrite C; simpl; tauto. }
  assert (Sk : StronglySorted Z.lt (JS.keys (matchDistribution r))).
  { rewrite K. repeat (constructor; [|repeat constructor; lia]).
    constructor. }
  destruct (In_get_Some _ _ _ Ik) as [c G].
  unfold backtest_counted. cbn [totalMatches totalTests matchDistribution].
  rewrite G. split; [lia|]. split.
  - rewrite keys_set_present; assumption.
  - rewrite (total_set _ _ c _ Sk G). lia.
Qed.

Lemma fold_left_ext_in (A B : Type) (f g : A -> B -> A) (l : list B) (a : A) :
  (forall x y, In y l -> f x y = g x y) ->
  fold_left f l a = fold_left g l a.
Proof.
  revert a. induction l as [|y l IH]; intros a H; cbn [fold_left];
    [reflexivity|].
  rewrite (H a y (or_introl eq_refl)). apply IH.
  intros x z Hz. apply H. right. exact Hz.
Qed.

Lemma toFixed2_percent (q : Q) :
  0 <= q <= 100 -> 0 <= JS.toFixed 2 q <= 100.
Proof.
  intros [L U]. rewrite toFixed2_eq. unfold JS.round_half_away.
  assert (P : Qle_bool 0 (q * 100) = true) by (apply Qle_bool_iff; lra).
  rewrite P.
  assert (F0 : (0 <= Qfloor (q * 100 + (1 # 2)))%Z).
  { apply Z.le_trans with (Qfloor 0); [discriminate|].
    apply Qfloor_resp_le. lra. }
  assert (F1 : (Qfloor (q * 100 + (1 # 2)) <= 10000)%Z).
  { apply Z.le_trans with (Qfloor (10000 + (1 # 2))); [|discriminate].
    apply Qfloor_resp_le. lra. }
  split.
  - apply Qle_shift_div_l; [reflexivity|].
    rewrite Qmult_0_l. change 0 with (inject_Z 0). rewrite <- Zle_Qle.
    exact F0.
  - apply Qle_shift_div_r; [reflexivity|].
    change (100 * 100) with (inject_Z 10000). rewrite <- Zle_Qle. exact F1.
Qed.

Lemma tests_fold (strategyFn : list Draw -> nat -> list Z)
      (draws : list Draw) (l : list nat) (r : Results) :
  (forall i, In i l -> (i < length draws)%nat) ->
  backtest_consistent r ->
  backtest_consistent (fold_left (test_draw strategyFn draws) l r)
  /\ totalTests (fold_left (test_draw strategyFn draws) l r)
     = (totalTests r + length l)%nat
  /\ ((forall training, (length (strategyFn training 5%nat) <= 5)%nat) ->
      backtest_counted r ->
      backtest_counted (fold_left (test_draw strategyFn draws) l r)).
Proof.
  revert r. induction l as [|i l IH]; intros r R C; cbn [fold_left length].
  - split; [exact C|]. split; [lia | auto].
  - destruct (test_draw_consistent strategyFn draws r i
                (R i (or_introl eq_refl)) C) as [C1 T1].
    destruct (IH _ (fun j H => R j (or_intror H)) C1) as [C2 [T2 K2]].
    split; [exact C2|]. split; [lia|].
    intros F K. apply K2; [exact F|].
    apply test_draw_counted; auto. apply R. left. reflexivity.
Qed.

Lemma initial_consistent :
  backtest_consistent initialResults /\ backtest_counted initialResults.
Proof.
  split.
  - unfold backtest_consistent. cbn. repeat split; try lia; try reflexivity.
    intros b w H. discriminate.
  - unfold backtest_counted. cbn. repeat split; lia.
Qed.

(** X30.  The counters of [backtestStrategy] fit together.  There is one
    test for each draw after the first [trainingWindow] draws; a jackpot
    is a win and a win is a test; the worst prediction has no more matches
    than the best, and both are recorded as soon as there is a test.  The
    strategy is only ever shown the draws that precede the draw it has to
    predict: a strategy that answers alike on those prefixes gives the
    same results.  When the strategy proposes at most five numbers, the
    matches are at most five per test, the match percentage lies between
    0 and 100, and the distribution counts every test once. *)
Theorem backtest_counters_fit_together
        (draws : list Draw) (strategyFn : list Draw -> nat -> list Z)
        (trainingWindow : nat) :
  backtest_consistent (backtestStrategy draws strategyFn trainingWindow)
  /\ totalTests (backtestStrategy draws strategyFn trainingWindow)
     = (length draws - trainingWindow)%nat
  /\ (forall other : list Draw -> nat -> list Z,
        (forall i, (trainingWindow <= i < length draws)%nat ->
                   other (firstn i draws) 5%nat
                   = strategyFn (firstn i draws) 5%nat) ->
        backtestStrategy draws other trainingWindow
        = backtestStrategy draws strategyFn trainingWindow)
  /\ ((forall training, (length (strategyFn training 5%nat) <= 5)%nat) ->
      backtest_counted (backtestStrategy draws strategyFn trainingWindow)
      /\ 0 <= avgMatchPercentage
                (backtestStrategy draws strategyFn trainingWindow) <= 100).
Proof.
  destruct initial_consistent as [C0 K0].
  unfold backtestStrategy.
  destruct (length draws <=? trainingWindow)%nat eqn:L.
  { apply Nat.leb_le in L. split; [exact C0|]. split; [cbn; lia|].
    split; [reflexivity|]. intros _. split; [exact K0 | cbn; lra]. }
  apply Nat.leb_gt in L. cbv zeta.
  assert (R : forall i, In i (seq trainingWindow
                                  (length draws - trainingWindow)) ->
                        (trainingWindow <= i < length draws)%nat).
  { intros i H. apply in_seq in H. lia. }
  destruct (tests_fold strategyFn draws
              (seq trainingWindow (length draws - trainingWindow))
              initialResults (fun i H => proj2 (R i H)) C0)
    as [C [T K]].
  rewrite length_seq in T. cbn [initialResults totalTests Nat.add] in T.
  set (results := fold_left (test_draw strategyFn draws)
                            (seq trainingWindow
                                 (length draws - trainingWindow))
                            initialResults) in *.
  assert (P : (0 <? totalTests results)%nat = true)
    by (apply Nat.ltb_lt; lia).
  rewrite P.
  split; [exact C|]. split; [exact T|]. split.
  - intros other H.
    assert (E : fold_left (test_draw other draws)
                          (seq trainingWindow
                               (length draws - trainingWindow))
                          initialResults
                = results).
    { apply fold_left_ext_in. intros r i Hi. unfold test_draw, JS.slice.
      cbv zeta. rewrite (H i (R i Hi)). reflexivity. }
    rewrite E, P. reflexivity.
  - intros F. destruct (K F K0) as [M [Kd Td]].
    split; [split; [exact M | split; assumption]|].
    cbn [avgMatchPercentage]. apply toFixed2_percent.
    assert (D : 0 < inject_Z (Z.of_nat (totalTests results * 5))).
    { change 0 with (inject_Z 0). rewrite <- Zlt_Qlt. lia. }
    assert (Lo : 0 <= inject_Z (Z.of_nat (totalMatches results))
                      / inject_Z (Z.of_nat (totalTests results * 5))).
    { apply Qle_shift_div_l; [exact D|]. rewrite Qmult_0_l.
      change 0 with (inject_Z 0). rewrite <- Zle_Qle. lia. }
    assert (Up : inject_Z (Z.of_nat (totalMatches results))
                 / inject_Z (Z.of_nat (totalTests results * 5)) <= 1).
    { apply Qle_shift_div_r; [exact D|]. rewrite Qmult_1_l.
      rewrite <- Zle_Qle. lia. }
    split; [apply Qmult_le_0_compat; [exact Lo | lra]|].
    lra.
Qed.

End BacktestFacts.
